(** * AnalyseEvalNat2025: the ORACE extraction services

    A shallow embedding of [src/services/oraceCSVService.js] (class
    [OraceCSVService]) and [src/services/oraceService.js] (class
    [OraceService]), and the properties of the structural extraction
    engine stated over it.

    - JavaScript strings are lists of UTF-16 code units ([list N]).
    - JavaScript numbers are IEEE 754 binary64 values ([float], the
      kernel's primitive floats), so [*], [<] and [isNaN] are the real
      operations.
    - An array is a [list]; reading an index that is out of range gives
      [undefined], here [None].
    - The [resultats] object of a school is a [gmap] from keys to numbers;
      [Object.assign target source] is the union that prefers [source].
    - The [Map] of schools is an association list in insertion order, as
      [Array.from(ecolesMap.values())] observes it.
    - [console.warn] is a list of warnings returned next to the result;
      what [console.log] and [console.error] print is not part of it.
    - A [Set] of result keys is a [gset]: what it holds, not the order in
      which it was filled. *)

From Stdlib Require Import ZArith NArith List String Ascii Bool Lia Sorted.
From Stdlib Require Import PrimFloat SpecFloat FloatOps FloatAxioms.
From stdpp Require Import gmap list.

Local Open Scope N_scope.

(** ** The JavaScript runtime: strings and numbers *)

Module JS.

(** A string is its sequence of UTF-16 code units. *)
Abbreviation jsstring := (list N).

(** Source literals are written as Rocq strings, whose bytes are the UTF-8
    encoding of the text; [js] decodes them to code units. *)
Fixpoint utf16_of_utf8 (bs : list N) : jsstring :=
  match bs with
  | [] => []
  | b :: r =>
    if b <? 128 then b :: utf16_of_utf8 r
    else if b <? 224 then
      match r with
      | b1 :: r1 => ((b mod 32) * 64 + b1 mod 64) :: utf16_of_utf8 r1
      | _ => [65533]
      end
    else if b <? 240 then
      match r with
      | b1 :: b2 :: r2 =>
        ((b mod 16) * 4096 + (b1 mod 64) * 64 + b2 mod 64) :: utf16_of_utf8 r2
      | _ => [65533]
      end
    else
      match r with
      | b1 :: b2 :: b3 :: r3 =>
        let cp := (b mod 8) * 262144 + (b1 mod 64) * 4096
                  + (b2 mod 64) * 64 + b3 mod 64 in
        let v := cp - 65536 in
        (55296 + v / 1024) :: (56320 + v mod 1024) :: utf16_of_utf8 r3
      | _ => [65533]
      end
  end.

Definition js (s : string) : jsstring :=
  utf16_of_utf8 (map N_of_ascii (list_ascii_of_string s)).

(** [String.prototype.length]. *)
Definition longueur (s : jsstring) : nat := length s.

(** WhiteSpace and LineTerminator code units, the set that [trim] strips
    and that the regular expression class [\s] matches. *)
Definition isWhiteSpace (c : N) : bool :=
  ((9 <=? c) && (c <=? 13)) || (c =? 32) || (c =? 160) || (c =? 5760)
  || ((8192 <=? c) && (c <=? 8202)) || (c =? 8232) || (c =? 8233)
  || (c =? 8239) || (c =? 8287) || (c =? 12288) || (c =? 65279).

Fixpoint trimStart (s : jsstring) : jsstring :=
  match s with
  | c :: r => if isWhiteSpace c then trimStart r else s
  | [] => []
  end.

Definition trimEnd (s : jsstring) : jsstring := rev (trimStart (rev s)).

(** [String.prototype.trim]. *)
Definition trim (s : jsstring) : jsstring := trimEnd (trimStart s).

(** [String.prototype.toLowerCase]. The mapping is given for the Basic
    Latin and Latin-1 Supplement blocks (A-Z, and the capitals from À to Þ
    but for the multiplication sign) and for the three other code units
    whose lower case holds a letter of these blocks: the dotted capital I
    (i and a combining dot), the Kelvin sign (k) and the Angström sign (å).
    Any other code unit is kept: its lower case, if it has one, is outside
    the two blocks as well, so the key words the services look for, all
    written in a-z and é, are found in the same cells either way. *)
Definition lowerUnit (c : N) : jsstring :=
  if ((65 <=? c) && (c <=? 90))
     || ((192 <=? c) && (c <=? 222) && negb (c =? 215))
  then [c + 32]
  else if c =? 304 then [105; 775]
  else if c =? 8490 then [107]
  else if c =? 8491 then [229]
  else [c].

Definition toLowerCase (s : jsstring) : jsstring := flat_map lowerUnit s.

Fixpoint startsWith (pat s : jsstring) : bool :=
  match pat, s with
  | [], _ => true
  | p :: pat', c :: s' => (p =? c) && startsWith pat' s'
  | _ :: _, [] => false
  end.

(** [String.prototype.includes]. *)
Fixpoint includes (s pat : jsstring) : bool :=
  startsWith pat s
  || match s with
     | [] => false
     | _ :: s' => includes s' pat
     end.

(** [String.prototype.replace] with a string pattern: only the first
    occurrence is replaced. *)
Fixpoint replace (s pat rep : jsstring) : jsstring :=
  if startsWith pat s then rep ++ drop (length pat) s
  else match s with
       | [] => []
       | c :: s' => c :: replace s' pat rep
       end.

(** [substring(0, n)]. *)
Definition substring0 (n : nat) (s : jsstring) : jsstring := take n s.

(** [String.prototype.toUpperCase]: the Unicode default case conversion,
    code point by code point, with the mappings of the Unicode Character
    Database, version 14.0 (the simple mappings of UnicodeData.txt and the
    unconditional ones of SpecialCasing.txt).

    [majuscules] lists the simple mappings: [(first, last, step, delta)]
    says that the code points [first], [first + step], ... up to [last] map
    to themselves plus [delta]. [majusculesSpeciales] lists the code points
    whose upper case is made of several code points. *)
Definition majuscules : list (N * N * N * Z) :=
  [
    (97, 122, 1, (-32)%Z); (181, 181, 1, 743%Z); (224, 246, 1, (-32)%Z);
    (248, 254, 1, (-32)%Z); (255, 255, 1, 121%Z); (257, 303, 2, (-1)%Z);
    (305, 305, 1, (-232)%Z); (307, 311, 2, (-1)%Z); (314, 328, 2, (-1)%Z);
    (331, 375, 2, (-1)%Z); (378, 382, 2, (-1)%Z); (383, 383, 1, (-300)%Z);
    (384, 384, 1, 195%Z); (387, 389, 2, (-1)%Z); (392, 392, 1, (-1)%Z);
    (396, 396, 1, (-1)%Z); (402, 402, 1, (-1)%Z); (405, 405, 1, 97%Z);
    (409, 409, 1, (-1)%Z); (410, 410, 1, 163%Z); (414, 414, 1, 130%Z);
    (417, 421, 2, (-1)%Z); (424, 424, 1, (-1)%Z); (429, 429, 1, (-1)%Z);
    (432, 432, 1, (-1)%Z); (436, 438, 2, (-1)%Z); (441, 441, 1, (-1)%Z);
    (445, 445, 1, (-1)%Z); (447, 447, 1, 56%Z); (453, 453, 1, (-1)%Z);
    (454, 454, 1, (-2)%Z); (456, 456, 1, (-1)%Z); (457, 457, 1, (-2)%Z);
    (459, 459, 1, (-1)%Z); (460, 460, 1, (-2)%Z); (462, 476, 2, (-1)%Z);
    (477, 477, 1, (-79)%Z); (479, 495, 2, (-1)%Z); (498, 498, 1, (-1)%Z);
    (499, 499, 1, (-2)%Z); (501, 501, 1, (-1)%Z); (505, 543, 2, (-1)%Z);
    (547, 563, 2, (-1)%Z); (572, 572, 1, (-1)%Z); (575, 576, 1, 10815%Z);
    (578, 578, 1, (-1)%Z); (583, 591, 2, (-1)%Z); (592, 592, 1, 10783%Z);
    (593, 593, 1, 10780%Z); (594, 594, 1, 10782%Z); (595, 595, 1, (-210)%Z);
    (596, 596, 1, (-206)%Z); (598, 599, 1, (-205)%Z); (601, 601, 1, (-202)%Z);
    (603, 603, 1, (-203)%Z); (604, 604, 1, 42319%Z); (608, 608, 1, (-205)%Z);
    (609, 609, 1, 42315%Z); (611, 611, 1, (-207)%Z); (613, 613, 1, 42280%Z);
    (614, 614, 1, 42308%Z); (616, 616, 1, (-209)%Z); (617, 617, 1, (-211)%Z);
    (618, 618, 1, 42308%Z); (619, 619, 1, 10743%Z); (620, 620, 1, 42305%Z);
    (623, 623, 1, (-211)%Z); (625, 625, 1, 10749%Z); (626, 626, 1, (-213)%Z);
    (629, 629, 1, (-214)%Z); (637, 637, 1, 10727%Z); (640, 640, 1, (-218)%Z);
    (642, 642, 1, 42307%Z); (643, 643, 1, (-218)%Z); (647, 647, 1, 42282%Z);
    (648, 648, 1, (-218)%Z); (649, 649, 1, (-69)%Z); (650, 651, 1, (-217)%Z);
    (652, 652, 1, (-71)%Z); (658, 658, 1, (-219)%Z); (669, 669, 1, 42261%Z);
    (670, 670, 1, 42258%Z); (837, 837, 1, 84%Z); (881, 883, 2, (-1)%Z);
    (887, 887, 1, (-1)%Z); (891, 893, 1, 130%Z); (940, 940, 1, (-38)%Z);
    (941, 943, 1, (-37)%Z); (945, 961, 1, (-32)%Z); (962, 962, 1, (-31)%Z);
    (963, 971, 1, (-32)%Z); (972, 972, 1, (-64)%Z); (973, 974, 1, (-63)%Z);
    (976, 976, 1, (-62)%Z); (977, 977, 1, (-57)%Z); (981, 981, 1, (-47)%Z);
    (982, 982, 1, (-54)%Z); (983, 983, 1, (-8)%Z); (985, 1007, 2, (-1)%Z);
    (1008, 1008, 1, (-86)%Z); (1009, 1009, 1, (-80)%Z); (1010, 1010, 1, 7%Z);
    (1011, 1011, 1, (-116)%Z); (1013, 1013, 1, (-96)%Z);
    (1016, 1016, 1, (-1)%Z); (1019, 1019, 1, (-1)%Z);
    (1072, 1103, 1, (-32)%Z); (1104, 1119, 1, (-80)%Z);
    (1121, 1153, 2, (-1)%Z); (1163, 1215, 2, (-1)%Z); (1218, 1230, 2, (-1)%Z);
    (1231, 1231, 1, (-15)%Z); (1233, 1327, 2, (-1)%Z);
    (1377, 1414, 1, (-48)%Z); (4304, 4346, 1, 3008%Z);
    (4349, 4351, 1, 3008%Z); (5112, 5117, 1, (-8)%Z);
    (7296, 7296, 1, (-6254)%Z); (7297, 7297, 1, (-6253)%Z);
    (7298, 7298, 1, (-6244)%Z); (7299, 7300, 1, (-6242)%Z);
    (7301, 7301, 1, (-6243)%Z); (7302, 7302, 1, (-6236)%Z);
    (7303, 7303, 1, (-6181)%Z); (7304, 7304, 1, 35266%Z);
    (7545, 7545, 1, 35332%Z); (7549, 7549, 1, 3814%Z);
    (7566, 7566, 1, 35384%Z); (7681, 7829, 2, (-1)%Z);
    (7835, 7835, 1, (-59)%Z); (7841, 7935, 2, (-1)%Z); (7936, 7943, 1, 8%Z);
    (7952, 7957, 1, 8%Z); (7968, 7975, 1, 8%Z); (7984, 7991, 1, 8%Z);
    (8000, 8005, 1, 8%Z); (8017, 8023, 2, 8%Z); (8032, 8039, 1, 8%Z);
    (8048, 8049, 1, 74%Z); (8050, 8053, 1, 86%Z); (8054, 8055, 1, 100%Z);
    (8056, 8057, 1, 128%Z); (8058, 8059, 1, 112%Z); (8060, 8061, 1, 126%Z);
    (8112, 8113, 1, 8%Z); (8126, 8126, 1, (-7205)%Z); (8144, 8145, 1, 8%Z);
    (8160, 8161, 1, 8%Z); (8165, 8165, 1, 7%Z); (8526, 8526, 1, (-28)%Z);
    (8560, 8575, 1, (-16)%Z); (8580, 8580, 1, (-1)%Z);
    (9424, 9449, 1, (-26)%Z); (11312, 11359, 1, (-48)%Z);
    (11361, 11361, 1, (-1)%Z); (11365, 11365, 1, (-10795)%Z);
    (11366, 11366, 1, (-10792)%Z); (11368, 11372, 2, (-1)%Z);
    (11379, 11379, 1, (-1)%Z); (11382, 11382, 1, (-1)%Z);
    (11393, 11491, 2, (-1)%Z); (11500, 11502, 2, (-1)%Z);
    (11507, 11507, 1, (-1)%Z); (11520, 11557, 1, (-7264)%Z);
    (11559, 11559, 1, (-7264)%Z); (11565, 11565, 1, (-7264)%Z);
    (42561, 42605, 2, (-1)%Z); (42625, 42651, 2, (-1)%Z);
    (42787, 42799, 2, (-1)%Z); (42803, 42863, 2, (-1)%Z);
    (42874, 42876, 2, (-1)%Z); (42879, 42887, 2, (-1)%Z);
    (42892, 42892, 1, (-1)%Z); (42897, 42899, 2, (-1)%Z);
    (42900, 42900, 1, 48%Z); (42903, 42921, 2, (-1)%Z);
    (42933, 42947, 2, (-1)%Z); (42952, 42954, 2, (-1)%Z);
    (42961, 42961, 1, (-1)%Z); (42967, 42969, 2, (-1)%Z);
    (42998, 42998, 1, (-1)%Z); (43859, 43859, 1, (-928)%Z);
    (43888, 43967, 1, (-38864)%Z); (65345, 65370, 1, (-32)%Z);
    (66600, 66639, 1, (-40)%Z); (66776, 66811, 1, (-40)%Z);
    (66967, 67003, 2, (-39)%Z); (66968, 66977, 1, (-39)%Z);
    (66980, 66993, 1, (-39)%Z); (66996, 67001, 1, (-39)%Z);
    (67004, 67004, 1, (-39)%Z); (68800, 68850, 1, (-64)%Z);
    (71872, 71903, 1, (-32)%Z); (93792, 93823, 1, (-32)%Z);
    (125218, 125251, 1, (-34)%Z)
  ].

Definition majusculesSpeciales : list (N * list N) :=
  [
    (223, [83; 83]); (329, [700; 78]); (496, [74; 780]);
    (912, [921; 776; 769]); (944, [933; 776; 769]); (1415, [1333; 1362]);
    (7830, [72; 817]); (7831, [84; 776]); (7832, [87; 778]);
    (7833, [89; 778]); (7834, [65; 702]); (8016, [933; 787]);
    (8018, [933; 787; 768]); (8020, [933; 787; 769]); (8022, [933; 787; 834]);
    (8064, [7944; 921]); (8065, [7945; 921]); (8066, [7946; 921]);
    (8067, [7947; 921]); (8068, [7948; 921]); (8069, [7949; 921]);
    (8070, [7950; 921]); (8071, [7951; 921]); (8072, [7944; 921]);
    (8073, [7945; 921]); (8074, [7946; 921]); (8075, [7947; 921]);
    (8076, [7948; 921]); (8077, [7949; 921]); (8078, [7950; 921]);
    (8079, [7951; 921]); (8080, [7976; 921]); (8081, [7977; 921]);
    (8082, [7978; 921]); (8083, [7979; 921]); (8084, [7980; 921]);
    (8085, [7981; 921]); (8086, [7982; 921]); (8087, [7983; 921]);
    (8088, [7976; 921]); (8089, [7977; 921]); (8090, [7978; 921]);
    (8091, [7979; 921]); (8092, [7980; 921]); (8093, [7981; 921]);
    (8094, [7982; 921]); (8095, [7983; 921]); (8096, [8040; 921]);
    (8097, [8041; 921]); (8098, [8042; 921]); (8099, [8043; 921]);
    (8100, [8044; 921]); (8101, [8045; 921]); (8102, [8046; 921]);
    (8103, [8047; 921]); (8104, [8040; 921]); (8105, [8041; 921]);
    (8106, [8042; 921]); (8107, [8043; 921]); (8108, [8044; 921]);
    (8109, [8045; 921]); (8110, [8046; 921]); (8111, [8047; 921]);
    (8114, [8122; 921]); (8115, [913; 921]); (8116, [902; 921]);
    (8118, [913; 834]); (8119, [913; 834; 921]); (8124, [913; 921]);
    (8130, [8138; 921]); (8131, [919; 921]); (8132, [905; 921]);
    (8134, [919; 834]); (8135, [919; 834; 921]); (8140, [919; 921]);
    (8146, [921; 776; 768]); (8147, [921; 776; 769]); (8150, [921; 834]);
    (8151, [921; 776; 834]); (8162, [933; 776; 768]); (8163, [933; 776; 769]);
    (8164, [929; 787]); (8166, [933; 834]); (8167, [933; 776; 834]);
    (8178, [8186; 921]); (8179, [937; 921]); (8180, [911; 921]);
    (8182, [937; 834]); (8183, [937; 834; 921]); (8188, [937; 921]);
    (64256, [70; 70]); (64257, [70; 73]); (64258, [70; 76]);
    (64259, [70; 70; 73]); (64260, [70; 70; 76]); (64261, [83; 84]);
    (64262, [83; 84]); (64275, [1348; 1350]); (64276, [1348; 1333]);
    (64277, [1348; 1339]); (64278, [1358; 1350]); (64279, [1348; 1341])
  ].

Definition dansSerie (cp : N) (e : N * N * N * Z) : bool :=
  let '(first, last, step, _) := e in
  (first <=? cp) && (cp <=? last) && ((cp - first) mod step =? 0).

Definition upperPoint (cp : N) : list N :=
  match find (fun e => fst e =? cp) majusculesSpeciales with
  | Some e => snd e
  | None =>
    match find (dansSerie cp) majuscules with
    | Some (_, _, _, delta) => [Z.to_N (Z.of_N cp + delta)]
    | None => [cp]
    end
  end.

(** The code units of a code point. *)
Definition unites (cp : N) : jsstring :=
  if cp <? 65536 then [cp]
  else [55296 + (cp - 65536) / 1024; 56320 + (cp - 65536) mod 1024].

Definition estHaut (c : N) : bool := (55296 <=? c) && (c <=? 56319).
Definition estBas (c : N) : bool := (56320 <=? c) && (c <=? 57343).

(** A high surrogate followed by a low one is one code point; any other
    code unit, a lone surrogate too, is a code point by itself. *)
Fixpoint toUpperCase (s : jsstring) : jsstring :=
  match s with
  | [] => []
  | c :: r =>
    match r with
    | d :: r' =>
      if estHaut c && estBas d
      then flat_map unites
                    (upperPoint (65536 + (c - 55296) * 1024 + (d - 56320)))
             ++ toUpperCase r'
      else flat_map unites (upperPoint c) ++ toUpperCase r
    | [] => flat_map unites (upperPoint c)
    end
  end.

(** Truthiness of a string: the empty string is falsy. *)
Definition truthy (s : jsstring) : bool :=
  match s with [] => false | _ => true end.

(** *** Numbers *)

Definition isDigit (c : N) : bool := (48 <=? c) && (c <=? 57).

Fixpoint spanDigits (s : jsstring) : jsstring * jsstring :=
  match s with
  | c :: r =>
    if isDigit c then let '(d, r') := spanDigits r in (c :: d, r')
    else ([], s)
  | [] => ([], [])
  end.

Definition digitsValue (ds : jsstring) : Z :=
  fold_left (fun acc c => (10 * acc + (Z.of_N c - 48))%Z) ds 0%Z.

(** The binary64 value nearest to [(-1)^neg * m * 10^e] (ties to even):
    the Number value of a decimal literal. *)
Definition decimalToNumber (neg : bool) (m e : Z) : float :=
  match (m * 10 ^ Z.max e 0)%Z, (10 ^ Z.max (- e) 0)%Z with
  | Zpos n, Zpos d =>
    SF2Prim (SFdiv prec emax (S754_finite neg n 0) (S754_finite false d 0))
  | _, _ => SF2Prim (S754_zero neg)
  end.

(** The optional ExponentPart: [e] or [E], an optional sign and at least
    one digit; otherwise nothing is consumed. *)
Definition digitsOrZero (sign : Z) (s : jsstring) : Z :=
  match spanDigits s with
  | ([], _) => 0%Z
  | (d, _) => (sign * digitsValue d)%Z
  end.

Definition exponentPart (s : jsstring) : Z :=
  match s with
  | c :: r =>
    if (c =? 101) || (c =? 69) then
      match r with
      | 43 :: r' => digitsOrZero 1 r'
      | 45 :: r' => digitsOrZero (-1) r'
      | _ => digitsOrZero 1 r
      end
    else 0%Z
  | [] => 0%Z
  end.

Definition Infinity_lit : jsstring := js "Infinity".

(** StrUnsignedDecimalLiteral: [Infinity], digits with an optional
    fraction, or a fraction alone, then an optional exponent. *)
Definition unsignedDecimal (neg : bool) (s : jsstring) : float :=
  if startsWith Infinity_lit s then (if neg then neg_infinity else infinity)
  else
    let '(ip, r1) := spanDigits s in
    let '(fp, r2) :=
      match r1 with
      | 46 :: r =>
        let '(fp, r') := spanDigits r in
        match ip, fp with
        | [], [] => ([], r1)
        | _, _ => (fp, r')
        end
      | _ => ([], r1)
      end in
    match ip, fp with
    | [], [] => nan
    | _, _ =>
      decimalToNumber neg (digitsValue (ip ++ fp))
                      (exponentPart r2 - Z.of_nat (length fp))
    end.

(** The global [parseFloat]: leading white space is skipped, the longest
    prefix that is a decimal literal is converted, and [NaN] is returned
    when there is none. *)
Definition parseFloat (s : jsstring) : float :=
  match trimStart s with
  | 43 :: r => unsignedDecimal false r
  | 45 :: r => unsignedDecimal true r
  | r => unsignedDecimal false r
  end.

Definition isNaN (x : float) : bool := PrimFloat.is_nan x.

(** [String.prototype.split] with a separator of one code unit: the
    pieces between the separators, one piece at least. *)
Fixpoint split (sep : N) (s : jsstring) : list jsstring :=
  match s with
  | [] => [[]]
  | c :: r =>
    if c =? sep then [] :: split sep r
    else match split sep r with
         | p :: ps => (c :: p) :: ps
         | [] => [[c]]
         end
  end.

(** A piece of a split in a template literal: a missing piece reads
    "undefined". *)
Definition piece (parts : list jsstring) (i : nat) : jsstring :=
  default (js "undefined") (parts !! i).

(** [String.fromCharCode]. *)
Definition fromCharCode (n : Z) : jsstring := [Z.to_N (n mod 65536)].

End JS.

Import JS.
Local Close Scope N_scope.

(** ** Data shared by the two services *)

(** A school as both services build it: [{uai, nom, resultats}]. The
    [resultats] object holds own properties only, written by [affecter]. *)
Record ecole := Ecole {
  uai : jsstring;
  nom : jsstring;
  resultats : gmap jsstring float
}.

(** The [Map] from UAI to school, in insertion order. *)
Abbreviation ecolesMap := (list (jsstring * ecole)).

Fixpoint mapGet (k : jsstring) (m : ecolesMap) : option ecole :=
  match m with
  | [] => None
  | (k', v) :: r => if decide (k = k') then Some v else mapGet k r
  end.

Definition mapHas (k : jsstring) (m : ecolesMap) : bool :=
  match mapGet k m with Some _ => true | None => false end.

(** [Map.prototype.set]: an existing key keeps its place, a new key goes
    last. *)
Fixpoint mapSet (k : jsstring) (v : ecole) (m : ecolesMap) : ecolesMap :=
  match m with
  | [] => [(k, v)]
  | (k', v') :: r =>
    if decide (k = k') then (k, v) :: r else (k', v') :: mapSet k v r
  end.

(** [Array.from(map.values())]. *)
Definition mapValues (m : ecolesMap) : list ecole := map snd m.

(** [objet[cle] = valeur] for a number, on a result object, which is a
    plain object: the key ["__proto__"] names the accessor of the
    prototype, and assigning a number to it stores nothing. Any other key
    becomes an own property. *)
Definition affecter (cle : jsstring) (valeur : float)
           (objet : gmap jsstring float) : gmap jsstring float :=
  if decide (cle = js "__proto__") then objet else <[cle := valeur]> objet.

(** [Object.assign(target, source)] on result objects. *)
Definition objectAssign (target source : gmap jsstring float)
  : gmap jsstring float := source ∪ target.

(** [for (let i = debut; ...; i++) if (p i) return i], run for [n]
    iterations: the first index that satisfies [p], if any. *)
Fixpoint premierIndice (p : nat -> bool) (debut n : nat) : option nat :=
  match n with
  | O => None
  | S n' => if p debut then Some debut else premierIndice p (S debut) n'
  end.

(** The [some] callback the scanners share: an empty cell is skipped, the
    others are lower-cased and trimmed before the test. *)
Definition contient (test : jsstring -> bool) (ligne : list jsstring) : bool :=
  existsb (fun cellule => truthy cellule && test (trim (toLowerCase cellule)))
          ligne.

(** The test both services apply to the text of a title cell. *)
Definition estCompetence (texte : jsstring) : bool :=
  (10 <=? longueur texte)%nat
  && negb (includes (toLowerCase texte) (js "compétence"))
  && negb (includes (toLowerCase texte) (js "exercice"))
  && negb (includes (toLowerCase texte) (js "participation"))
  && negb (includes (toLowerCase texte) (js "scores")).

(** The marker of a percentage cell. *)
Definition marquePourcentage (texte : jsstring) : bool :=
  includes texte (js "%")
  || includes texte (js "répondants")
  || includes texte (js "repondants").

(** ** [OraceCSVService] (src/services/oraceCSVService.js) *)

Module CSV.

(** The lines [csv-parse] returns: an array of arrays of strings. *)
Abbreviation ligne := (list jsstring).
Abbreviation grille := (list (list jsstring)).

(** What [extraireCompetences] produces: [{nom, colonne}]. *)
Record competence := Competence {
  comp_nom : jsstring;
  colonne : nat
}.

Record config := Config {
  niveau : jsstring;
  matiere : jsstring;
  prefix : jsstring
}.

Definition configs : list config :=
  [ Config (js "CP") (js "francais") (js "cpfr");
    Config (js "CP") (js "maths") (js "cpma");
    Config (js "CE1") (js "francais") (js "ce1fr");
    Config (js "CE1") (js "maths") (js "ce1ma");
    Config (js "CE2") (js "francais") (js "ce2fr");
    Config (js "CE2") (js "maths") (js "ce2ma");
    Config (js "CM1") (js "francais") (js "cm1fr");
    Config (js "CM1") (js "maths") (js "cm1ma");
    Config (js "CM2") (js "francais") (js "cm2fr");
    Config (js "CM2") (js "maths") (js "cm2ma") ].

(** One constructor per [console.warn] site (consecutive calls of one site
    are one warning). *)
Inductive avertissement :=
| FichierNonTrouve (nomFichier : jsstring)
| PatternAttendu (pattern : jsstring)
| IdentificationInvalide
| LigneGroupesNonTrouvee
| LignePourcentagesNonTrouvee
| AucuneCompetence
| PasDeGroupeSatisfaisant (nomC : jsstring) (colDebut colFin : nat)
| ColonnePourcentageNonIdentifiee (nomC : jsstring) (colSuivante : nat).

(** [parsePourcentage]: the argument is a cell, or [undefined] ([None])
    when the line is shorter than the column read. *)
Definition parsePourcentage (valeur : option jsstring) : option float :=
  match valeur with
  | None => None
  | Some [] => None
  | Some v =>
    let valeurStr := trim v in
    let valeurStr := trim (replace valeurStr (js "%") []) in
    let valeurStr := replace valeurStr (js ",") (js ".") in
    let valeurNum := parseFloat valeurStr in
    if isNaN valeurNum then None
    else if PrimFloat.ltb 0 valeurNum && PrimFloat.ltb valeurNum 1
    then Some (PrimFloat.mul valeurNum 100)
    else Some valeurNum
  end.

(** [replace(/\s+/g, "_")]: every maximal run of white space becomes one
    underscore; [dansEspaces] tells that the run has already begun. *)
Fixpoint remplacerEspaces (dansEspaces : bool) (s : jsstring) : jsstring :=
  match s with
  | [] => []
  | c :: r =>
    if isWhiteSpace c then
      (if dansEspaces then [] else [95%N]) ++ remplacerEspaces true r
    else c :: remplacerEspaces false r
  end.

(** [replace(/[...]/g, rep)] for a class of code units. *)
Definition remplacerClasse (classe : list N) (rep : jsstring) (s : jsstring)
  : jsstring :=
  flat_map (fun c => if bool_decide (c ∈ classe) then rep else [c]) s.

Definition normaliserNomCompetence (n : jsstring) : jsstring :=
  substring0 100
    (remplacerClasse (js "'") []
    (remplacerClasse (js "ç") (js "c")
    (remplacerClasse (js "ùû") (js "u")
    (remplacerClasse (js "ôö") (js "o")
    (remplacerClasse (js "îï") (js "i")
    (remplacerClasse (js "àâ") (js "a")
    (remplacerClasse (js "éèê") (js "e")
    (remplacerClasse (js "()") []
    (remplacerEspaces false (trim n)))))))))).

(** The key [`${niveau}_${matiere}_${nomCompetenceNormalise}`]. *)
Definition cleCompetence (niv mat nomC : jsstring) : jsstring :=
  niv ++ js "_" ++ mat ++ js "_" ++ normaliserNomCompetence nomC.

Definition validerIdentification (ligne1 : option ligne)
           (niv mat : jsstring) : bool * list avertissement :=
  match ligne1 with
  | None => (false, [])
  | Some [] => (false, [])
  | Some l =>
    let matiereCode :=
      if bool_decide (mat = js "francais") then js "fr" else js "ma" in
    let patternAttendu := js "evaluation " ++ toLowerCase niv ++ matiereCode in
    let trouve := contient (fun normalise => includes normalise patternAttendu) l in
    (trouve, if trouve then [] else [PatternAttendu patternAttendu])
  end.

Definition contientGroupe (lignes : grille) (i : nat) : bool :=
  match lignes !! i with
  | Some l => contient (fun normalise => includes normalise (js "satisfaisant")) l
  | None => false
  end.

Definition trouverLigneGroupes (lignes : grille) : option nat :=
  premierIndice (contientGroupe lignes) 2 (Nat.min 10 (length lignes) - 2).

Definition contientPourcentage (lignes : grille) (i : nat) : bool :=
  match lignes !! i with
  | Some l => contient marquePourcentage l
  | None => false
  end.

Definition trouverLignePourcentages (lignes : grille) (ligneGroupes : nat)
  : option nat :=
  premierIndice (contientPourcentage lignes) (ligneGroupes + 1)
                (Nat.min (ligneGroupes + 4) (length lignes) - (ligneGroupes + 1)).

(** The test of [trouverPremiereEcole] on one line. *)
Definition estLigneEcole (l : ligne) : bool :=
  let u := trim (default [] (l !! 0)) in
  let n := trim (default [] (l !! 1)) in
  truthy u && truthy n
  && negb (includes (toLowerCase u) (js "uai"))
  && negb (includes (toLowerCase u) (js "total"))
  && negb (includes (toLowerCase u) (js "circonscription"))
  && (7 <=? longueur u).

Definition estLigneEcoleA (lignes : grille) (i : nat) : bool :=
  match lignes !! i with
  | Some l => estLigneEcole l
  | None => false
  end.

Definition trouverPremiereEcole (lignes : grille) (lignePourcentages : nat)
  : nat :=
  default 10
    (premierIndice (estLigneEcoleA lignes) (lignePourcentages + 1)
                   (length lignes - (lignePourcentages + 1))).

(** [(ligne[col] || "").toLowerCase().trim()]. *)
Definition texteColonne (l : ligne) (col : nat) : jsstring :=
  trim (toLowerCase (default [] (l !! col))).

Definition finaliserCompetence (competences : list competence)
           (nomCompetence : jsstring) (colDebut colFin : nat)
           (ligneGroupes lignePourcentages : ligne)
  : list competence * list avertissement :=
  match premierIndice
          (fun col => includes (texteColonne ligneGroupes col) (js "satisfaisant"))
          colDebut (S colFin - colDebut) with
  | None =>
    (competences, [PasDeGroupeSatisfaisant nomCompetence colDebut colFin])
  | Some colonneSatisfaisantGroupe =>
    match premierIndice
            (fun col => marquePourcentage (texteColonne lignePourcentages col))
            colonneSatisfaisantGroupe
            (S (Nat.min (colonneSatisfaisantGroupe + 3) colFin)
             - colonneSatisfaisantGroupe) with
    | Some colonnePourcentage =>
      (competences ++ [Competence nomCompetence colonnePourcentage], [])
    | None =>
      (competences
         ++ [Competence nomCompetence (colonneSatisfaisantGroupe + 1)],
       [ColonnePourcentageNonIdentifiee nomCompetence
                                        (colonneSatisfaisantGroupe + 1)])
    end
  end.

(** The variables the [forEach] of [extraireCompetences] closes over. *)
Record etat := Etat {
  competences : list competence;
  competenceEnCours : option (jsstring * nat);
  journal : list avertissement
}.

(** Finalising the competence in progress, when there is one. *)
Definition cloreEnCours (st : etat) (colFin : nat)
           (ligneGroupes lignePourcentages : ligne) : etat :=
  match competenceEnCours st with
  | Some (nomC, colDebut) =>
    let '(cs, w) := finaliserCompetence (competences st) nomC colDebut colFin
                                        ligneGroupes lignePourcentages in
    Etat cs (competenceEnCours st) (journal st ++ w)
  | None => st
  end.

(** One call of the [forEach] callback, on [cellule] at [index]. *)
Definition pasLigne3 (ligneGroupes lignePourcentages : ligne)
           (st : etat) (cellule : jsstring) (index : nat) : etat :=
  let texte := trim cellule in
  if (0 <? longueur texte)%nat && estCompetence texte then
    let st' := cloreEnCours st (index - 1) ligneGroupes lignePourcentages in
    Etat (competences st') (Some (texte, index)) (journal st')
  else st.

Fixpoint parcourirLigne3 (ligneGroupes lignePourcentages : ligne)
         (cellules : ligne) (index : nat) (st : etat) : etat :=
  match cellules with
  | [] => st
  | cellule :: reste =>
    parcourirLigne3 ligneGroupes lignePourcentages reste (S index)
                    (pasLigne3 ligneGroupes lignePourcentages st cellule index)
  end.

Definition extraireCompetences (ligne3 ligneGroupes lignePourcentages : ligne)
  : list competence * list avertissement :=
  let st := parcourirLigne3 ligneGroupes lignePourcentages ligne3 0
                            (Etat [] None []) in
  let st := cloreEnCours st (length ligne3 - 1) ligneGroupes lignePourcentages in
  (competences st, journal st).

(** The rows [extraireEcoles] skips: no UAI, a total or the district. *)
Definition ligneIgnoree (u : jsstring) : bool :=
  negb (truthy u)
  || includes (toLowerCase u) (js "total")
  || includes (toLowerCase u) (js "circonscription").

(** The inner [forEach] over the competences of one line. *)
Definition resultatsLigne (l : ligne) (comps : list competence)
           (niv mat : jsstring) : gmap jsstring float :=
  fold_left
    (fun res comp =>
       match parsePourcentage (l !! colonne comp) with
       | Some pctSatisfaisant =>
         affecter (cleCompetence niv mat (comp_nom comp)) pctSatisfaisant res
       | None => res
       end)
    comps ∅.

(** One call of the outer [forEach] callback: the schools pushed (none or
    one). *)
Definition extraireEcole (comps : list competence) (niv mat : jsstring)
           (l : ligne) : list ecole :=
  let u := trim (default [] (l !! 0)) in
  let n := trim (default [] (l !! 1)) in
  if ligneIgnoree u then []
  else
    let res := resultatsLigne l comps niv mat in
    if (0 <? size res)%nat then [Ecole u n res] else [].

Definition extraireEcoles (lignesEcoles : grille) (comps : list competence)
           (niv mat : jsstring) : list ecole :=
  flat_map (extraireEcole comps niv mat) lignesEcoles.

(** What reading a file of [data/orace/csv] gives: the file does not exist
    ([existsSync] is false); or [readFileSync] or [csv-parse] throws; or
    [csv-parse] returns lines. *)
Inductive lecture :=
| Absent
| Illisible
| Lu (lignes : list (list jsstring)).

(** The files, by name. *)
Abbreviation fichiers := (jsstring -> lecture).

(** The [catch] logs with [console.error] and warns nothing. *)
Definition chargerFichierCSV (fs : fichiers) (nomFichier niv mat : jsstring)
  : list ecole * list avertissement :=
  match fs nomFichier with
  | Absent => ([], [FichierNonTrouve nomFichier])
  | Illisible => ([], [])
  | Lu lignes =>
    let '(valide, w0) := validerIdentification (lignes !! 0) niv mat in
    if negb valide then ([], w0 ++ [IdentificationInvalide])
    else
      match trouverLigneGroupes lignes with
      | None => ([], [LigneGroupesNonTrouvee])
      | Some ligneGroupes =>
        match trouverLignePourcentages lignes ligneGroupes with
        | None => ([], [LignePourcentagesNonTrouvee])
        | Some lignePourcentages =>
          let '(comps, w) :=
            extraireCompetences (default [] (lignes !! 2))
                                (default [] (lignes !! ligneGroupes))
                                (default [] (lignes !! lignePourcentages)) in
          match comps with
          | [] => ([], w ++ [AucuneCompetence])
          | _ =>
            let premiereLigneEcole :=
              trouverPremiereEcole lignes lignePourcentages in
            (extraireEcoles (drop premiereLigneEcole lignes) comps niv mat, w)
          end
        end
      end
  end.

(** The body of the inner [forEach] of [loadEcoles]: one school of a file
    merged into the map. *)
Definition fusionnerEcole (m : ecolesMap) (e : ecole) : ecolesMap :=
  let m1 :=
    if mapHas (uai e) m then m
    else mapSet (uai e) (Ecole (uai e) (nom e) ∅) m in
  match mapGet (uai e) m1 with
  | Some ecoleExistante =>
    mapSet (uai e)
           (Ecole (uai ecoleExistante) (nom ecoleExistante)
                  (objectAssign (resultats ecoleExistante) (resultats e)))
           m1
  | None => m1
  end.

Definition nomFichier (c : config) : jsstring :=
  js "CIRCO_ecoles_" ++ toUpperCase (prefix c) ++ js ".csv".

(** The body of the outer [forEach]: one configuration. *)
Definition chargerConfig (fs : fichiers)
           (acc : ecolesMap * list avertissement) (c : config)
  : ecolesMap * list avertissement :=
  let '(resultatsFichier, w) :=
    chargerFichierCSV fs (nomFichier c) (niveau c) (matiere c) in
  (fold_left fusionnerEcole resultatsFichier (fst acc), snd acc ++ w).

(** [loadEcoles] over a list of configurations. *)
Definition loadEcolesDe (cfgs : list config) (fs : fichiers)
  : list ecole * list avertissement :=
  let '(m, w) := fold_left (chargerConfig fs) cfgs ([], []) in
  (mapValues m, w).

Definition loadEcoles (fs : fichiers) : list ecole * list avertissement :=
  loadEcolesDe configs fs.

(** The key [`${niveau}_${matiere}`] that [getCompetencesParNiveauMatiere]
    reads back from a result key, split at its underscores. *)
Definition cleGroupe (comp : jsstring) : jsstring :=
  let parts := split 95 comp in
  piece parts 0 ++ js "_" ++ piece parts 1.

(** [getCompetencesParNiveauMatiere] on the schools loaded: the result
    keys of all the schools, grouped under [cleGroupe]. Each group is
    built as a [Set] and returned as the array of its elements; it is
    read here as that set. *)
Definition getCompetencesParNiveauMatiere (ecoles : list ecole)
  : gmap jsstring (gset jsstring) :=
  fold_left
    (fun acc e =>
       set_fold
         (fun comp acc =>
            <[cleGroupe comp := {[comp]} ∪ default ∅ (acc !! cleGroupe comp)]>
              acc)
         acc (dom (resultats e)))
    ecoles ∅.

(** The list of identifiers that [main] (src/index_csv.js) hands to the
    index service: [ecoles.map(e => e.uai).filter(u => u && u.length > 0)]. *)
Definition uaisATraiter (ecoles : list ecole) : list jsstring :=
  filter (fun u => truthy u = true /\ 0 < longueur u) (map uai ecoles).

End CSV.

(** ** [OraceService] (src/services/oraceService.js) *)

Module ODS.

Local Open Scope Z_scope.

(** A merge range of the sheet, [{s: {r, c}, e: {r, c}}]. *)
Record fusion := Fusion {
  s_r : Z;
  s_c : Z;
  e_r : Z;
  e_c : Z
}.

(** A sheet as the service reads it: the text of the value of each cell
    that has one (by row and column), [sheet["!merges"]], the last column
    of [sheet["!ref"]], and the rows [sheet_to_json] returns from row
    index 10 on ([null] cells are [None]). *)
Record feuille := Feuille {
  cellules : gmap (Z * Z) jsstring;
  merges : list fusion;
  derniereColonne : Z;
  rangeData : list (list (option jsstring))
}.

Inductive avertissement :=
| AucuneFusion
| AucuneCompetenceDansFusions
| HeuristiqueDerniereColonne (nomC : jsstring) (offset : Z)
| StructureIrreguliere
| MotCompetenceNonTrouve
| FeuilleIgnoree.

(** [cell && cell.v ? cell.v.toString() : ""]. *)
Definition valeurCellule (sh : feuille) (r c : Z) : jsstring :=
  default [] (cellules sh !! (r, c)).

(** A competence found on line 3, with its merged range. *)
Record plage := Plage {
  plage_nom : jsstring;
  colDebut : Z;
  colFin : Z;
  largeur : Z
}.

Record plageAvecOffset := PlageAvecOffset {
  plage_de : plage;
  offsetPourcentage : Z;
  colonnePourcentage : Z
}.

(** What the analysis returns for one competence: [{nom, colonneDebut}],
    where [colonneDebut] is the column of the percentage. *)
Record competence := Competence {
  comp_nom : jsstring;
  colonneDebut : Z
}.

Record structure := Structure {
  competences : list competence;
  espacement : Z;
  offsetPourcentageSatisfaisant : Z
}.

(** [sort((a, b) => a.s.c - b.s.c)], which is stable. *)
Fixpoint inserer (m : fusion) (l : list fusion) : list fusion :=
  match l with
  | [] => [m]
  | x :: r => if s_c x <? s_c m then x :: inserer m r else m :: l
  end.

Definition trierParColonne (l : list fusion) : list fusion :=
  foldr inserer [] l.

Definition fusionsLigne3 (sh : feuille) : list fusion :=
  trierParColonne
    (filter (fun m => s_r m = 2 /\ s_c m <> e_c m) (merges sh)).

(** Step 1: the merges of line 3 whose text is a competence. *)
Definition plagesLigne3 (sh : feuille) : list plage :=
  flat_map
    (fun f =>
       let texte := trim (valeurCellule sh 2 (s_c f)) in
       if estCompetence texte
       then [Plage texte (s_c f) (e_c f) (e_c f - s_c f + 1)]
       else [])
    (fusionsLigne3 sh).

(** Step 3, the body of the inner loop for one cell: the offset it sets,
    if it sets one. *)
Definition offsetCellule (sh : feuille) (debut col row : Z) : option Z :=
  let valeur := trim (toLowerCase (valeurCellule sh row col)) in
  if truthy valeur && (2 <? longueur valeur)%nat then
    if includes valeur (js "satisfaisant")
       || includes valeur (js "satisf")
       || includes valeur (js "satis")
    then
      if includes valeur (js "nombre") then Some (col + 1 - debut)
      else if includes valeur (js "%") || includes valeur (js "sur le nombre")
      then Some (col - debut)
      else None
    else None
  else None.

(** The rows 3, 4 and 5 of one column. *)
Definition offsetColonne (sh : feuille) (debut col : Z) : option Z :=
  match offsetCellule sh debut col 3 with
  | Some o => Some o
  | None =>
    match offsetCellule sh debut col 4 with
    | Some o => Some o
    | None => offsetCellule sh debut col 5
    end
  end.

(** The outer loop over [n] columns from [col]. *)
Fixpoint chercherOffset (sh : feuille) (debut col : Z) (n : nat) : option Z :=
  match n with
  | O => None
  | S n' =>
    match offsetColonne sh debut col with
    | Some o => Some o
    | None => chercherOffset sh debut (col + 1) n'
    end
  end.

(** Step 3 for one competence. *)
Definition resoudreOffset (sh : feuille) (comp : plage)
  : plageAvecOffset * list avertissement :=
  match chercherOffset sh (colDebut comp) (colDebut comp)
                       (Z.to_nat (colFin comp - colDebut comp + 1)) with
  | Some o => (PlageAvecOffset comp o (colDebut comp + o), [])
  | None =>
    let o := largeur comp - 1 in
    (PlageAvecOffset comp o (colDebut comp + o),
     [HeuristiqueDerniereColonne (plage_nom comp) o])
  end.

Definition competencesAvecOffsets (sh : feuille)
  : list plageAvecOffset * list avertissement :=
  fold_left
    (fun acc comp =>
       let '(c, w) := resoudreOffset sh comp in
       (fst acc ++ [c], snd acc ++ w))
    (plagesLigne3 sh) ([], []).

(** The text of line [r] from column 0 to the last column of the range,
    as [analyserStructureClassique] collects it. *)
Definition ligneTexte (sh : feuille) (r : Z) : list jsstring :=
  map (fun col => trim (valeurCellule sh r col))
      (seqZ 0 (derniereColonne sh + 1)).

(** [findIndex]. *)
Fixpoint findIndex (p : jsstring -> bool) (l : list jsstring) (i : Z)
  : option Z :=
  match l with
  | [] => None
  | x :: r => if p x then Some i else findIndex p r (i + 1)
  end.

(** The columns of line 6 that name the satisfactory group, each with the
    column its percentage is read from. *)
Fixpoint groupesSatisfaisants (ligne6 : list jsstring) (col : Z) : list Z :=
  match ligne6 with
  | [] => []
  | v :: r =>
    let valeurGroupe := toLowerCase v in
    if includes valeurGroupe (js "satisfaisant")
       || includes valeurGroupe (js "satisf")
    then
      (if includes valeurGroupe (js "nombre")
          || negb (includes valeurGroupe (js "%"))
       then col + 1 else col) :: groupesSatisfaisants r (col + 1)
    else groupesSatisfaisants r (col + 1)
  end.

(** The titles of line 3 after the marker column: [{col, nom}]. *)
Fixpoint titresApres (ligne3 : list jsstring) (col marque : Z)
  : list (Z * jsstring) :=
  match ligne3 with
  | [] => []
  | v :: r =>
    if (marque <? col) && truthy v && (10 <=? longueur v)%nat
    then (col, v) :: titresApres r (col + 1) marque
    else titresApres r (col + 1) marque
  end.

Definition structureVide : structure := Structure [] 6 5.

Definition analyserStructureClassique (sh : feuille)
  : structure * list avertissement :=
  let ligne3 := ligneTexte sh 2 in
  let ligne6 := ligneTexte sh 5 in
  match findIndex (fun v => includes (toLowerCase v) (js "compétence"))
                  ligne3 0 with
  | None => (structureVide, [MotCompetenceNonTrouve])
  | Some colonneCompetence =>
    match titresApres ligne3 0 colonneCompetence with
    | [] => (structureVide, [])
    | ((col0, _) :: autres) as comps =>
      let esp := match autres with (col1, _) :: _ => col1 - col0 | [] => 6 end in
      let offset :=
        match groupesSatisfaisants ligne6 0 with
        | colPourcentage :: _ => colPourcentage - col0
        | [] => 5
        end in
      (Structure (map (fun c => Competence (snd c) (fst c + offset)) comps)
                 esp offset, [])
    end
  end.

Definition analyserStructureAvecFusions (sh : feuille)
  : structure * list avertissement :=
  match merges sh with
  | [] =>
    let '(st, w) := analyserStructureClassique sh in (st, AucuneFusion :: w)
  | _ =>
    match plagesLigne3 sh with
    | [] =>
      let '(st, w) := analyserStructureClassique sh in
      (st, AucuneCompetenceDansFusions :: w)
    | c0 :: autres =>
      let esp :=
        match autres with c1 :: _ => colDebut c1 - colDebut c0 | [] => 6 end in
      let '(avecOffsets, w) := competencesAvecOffsets sh in
      let offsets := map offsetPourcentage avecOffsets in
      let w4 :=
        match offsets with
        | o0 :: _ :: _ =>
          if forallb (Z.eqb o0) offsets then [] else [StructureIrreguliere]
        | _ => []
        end in
      (Structure
         (map (fun c => Competence (plage_nom (plage_de c)) (colonnePourcentage c))
              avecOffsets)
         esp
         (default 0 (head offsets)),
       w ++ w4)
    end
  end.

Definition extraireCompetencesLigne3 (sh : feuille)
  : list competence * list avertissement :=
  let '(st, w) := analyserStructureAvecFusions sh in (competences st, w).

(** [parsePourcentage], the same text as in [OraceCSVService]. *)
Definition parsePourcentage (valeur : option jsstring) : option float :=
  match valeur with
  | None => None
  | Some [] => None
  | Some v =>
    let valeurStr := trim v in
    let valeurStr := trim (replace valeurStr (js "%") []) in
    let valeurStr := replace valeurStr (js ",") (js ".") in
    let valeurNum := parseFloat valeurStr in
    if isNaN valeurNum then None
    else if PrimFloat.ltb 0 valeurNum && PrimFloat.ltb valeurNum 1
    then Some (PrimFloat.mul valeurNum 100)
    else Some valeurNum
  end.

Definition normaliserNomCompetence (n : jsstring) : jsstring :=
  CSV.normaliserNomCompetence n.

(** [row[col]] for a column that may be any integer. *)
Definition lire (row : list (option jsstring)) (col : Z) : option jsstring :=
  if col <? 0 then None else mjoin (row !! Z.to_nat col).

Definition extraireResultats (row : list (option jsstring))
           (comps : list competence) (niv mat : jsstring)
  : gmap jsstring float :=
  fold_left
    (fun res comp =>
       match parsePourcentage (lire row (colonneDebut comp)) with
       | Some pctSatisfaisant =>
         affecter
           (niv ++ js "_" ++ mat ++ js "_"
                ++ normaliserNomCompetence (comp_nom comp))
           pctSatisfaisant res
       | None => res
       end)
    comps ∅.

(** [row[i] ? row[i].toString().trim() : ""]. *)
Definition texteLigne (row : list (option jsstring)) (i : nat) : jsstring :=
  trim (default [] (mjoin (row !! i))).

(** The body of [rangeData.forEach] in [loadEcoles]: one row of a sheet. *)
Definition traiterLigne (comps : list competence) (niv mat : jsstring)
           (m : ecolesMap) (row : list (option jsstring)) : ecolesMap :=
  let u := texteLigne row 0 in
  let n := texteLigne row 1 in
  if negb (truthy u)
     || includes (toLowerCase u) (js "total")
     || includes (toLowerCase u) (js "circonscription")
  then m
  else
    let m1 := if mapHas u m then m else mapSet u (Ecole u n ∅) m in
    match mapGet u m1 with
    | Some e =>
      mapSet u
             (Ecole (uai e) (nom e)
                    (objectAssign (resultats e)
                                  (extraireResultats row comps niv mat)))
             m1
    | None => m1
    end.

(** [sheetName.match(/^(CP|CE1|CE2|CM1|CM2)/i)], else the first three
    letters, in capitals. *)
Definition extraireNiveau (sheetName : jsstring) : jsstring :=
  let up := toUpperCase in
  match filter (fun n => startsWith n (toLowerCase sheetName) = true)
               [js "cp"; js "ce1"; js "ce2"; js "cm1"; js "cm2"] with
  | n :: _ => up (take (length n) sheetName)
  | [] => up (take 3 sheetName)
  end.

Definition extraireMatiere (sheetName : jsstring) : jsstring :=
  if includes (toUpperCase sheetName) (js "FR") then js "francais"
  else if includes (toUpperCase sheetName) (js "MA") then js "maths"
  else js "inconnu".

(** The body of [feuillesResultats.forEach]: one sheet. *)
Definition traiterFeuille (acc : ecolesMap * list avertissement)
           (f : jsstring * feuille) : ecolesMap * list avertissement :=
  let '(sheetName, sh) := f in
  let niv := extraireNiveau sheetName in
  let mat := extraireMatiere sheetName in
  let '(comps, w) := extraireCompetencesLigne3 sh in
  match comps with
  | [] => (fst acc, snd acc ++ w ++ [FeuilleIgnoree])
  | _ =>
    (fold_left (traiterLigne comps niv mat) (rangeData sh) (fst acc),
     snd acc ++ w)
  end.

(** [loadEcoles] on a workbook, the list of its sheets by name: the first
    sheet (the reading guide) is skipped. *)
Definition loadEcoles (workbook : list (jsstring * feuille))
  : list ecole * list avertissement :=
  let '(m, w) := fold_left traiterFeuille (drop 1 workbook) ([], []) in
  (mapValues m, w).

(** [colIndexToLetter]: the loop [while (col >= 0)], run for [n] turns at
    most; [letter] is the text built so far. *)
Fixpoint boucleLettres (n : nat) (col : Z) (letter : jsstring) : jsstring :=
  match n with
  | O => letter
  | S n' =>
    if 0 <=? col
    then boucleLettres n' (col / 26 - 1) (fromCharCode (col mod 26 + 65) ++ letter)
    else letter
  end.

(** The loop stops within [col + 1] turns, since [col / 26 - 1 < col]. *)
Definition colIndexToLetter (col : Z) : jsstring :=
  boucleLettres (Z.to_nat (col + 1)) col [].

End ODS.

(** ** Vocabulary of the statements *)

(** The partial record a row of a sheet stands for in [OraceService]. *)
Definition ecoleDeLigne (comps : list ODS.competence) (niv mat : jsstring)
           (row : list (option jsstring)) : ecole :=
  Ecole (ODS.texteLigne row 0) (ODS.texteLigne row 1)
        (ODS.extraireResultats row comps niv mat).

(** The filter on the identifier, the same in both services. *)
Definition identifiantExclu (u : jsstring) : bool :=
  negb (truthy u)
  || includes (toLowerCase u) (js "total")
  || includes (toLowerCase u) (js "circonscription").

(** The number of records the registry holds for an identifier. *)
Definition nombreDeFiches (u : jsstring) (m : ecolesMap) : nat :=
  length (filter (fun p => p.1 = u) m).


(** The prefix [`${niveau}_${matiere}_`] of the keys of a configuration. *)
Definition prefixeCle (c : CSV.config) : jsstring :=
  CSV.niveau c ++ js "_" ++ CSV.matiere c ++ js "_".

(** Two strings that differ at a position both have. *)
Fixpoint divergent (a b : jsstring) : bool :=
  match a, b with
  | x :: a', y :: b' => if N.eqb x y then divergent a' b' else true
  | _, _ => false
  end.

#[global] Instance config_eq_dec : EqDecision CSV.config.
Proof. solve_decision. Defined.

(** The identifier of a line: its first cell, trimmed. *)
Definition identifiant (l : CSV.ligne) : jsstring := trim (default [] (l !! 0)).

(** A line that looks like a school, with the name taken as it stands in
    the cell. *)
Definition ligneEcoleBrute (l : CSV.ligne) : Prop :=
  7 <= longueur (identifiant l)
  /\ includes (toLowerCase (identifiant l)) (js "uai") = false
  /\ includes (toLowerCase (identifiant l)) (js "total") = false
  /\ includes (toLowerCase (identifiant l)) (js "circonscription") = false
  /\ default [] (l !! 1) <> [].

(** The same, with the name trimmed as the identifier is. *)
Definition ligneEcoleValide (l : CSV.ligne) : Prop :=
  7 <= longueur (identifiant l)
  /\ includes (toLowerCase (identifiant l)) (js "uai") = false
  /\ includes (toLowerCase (identifiant l)) (js "total") = false
  /\ includes (toLowerCase (identifiant l)) (js "circonscription") = false
  /\ trim (default [] (l !! 1)) <> [].

(** Line [i] of the grid exists and satisfies [P]. *)
Definition ligneVerifie (P : CSV.ligne -> Prop) (lignes : CSV.grille)
           (i : nat) : Prop :=
  exists l, lignes !! i = Some l /\ P l.

(** The two keyword searches of [finaliserCompetence]: the column of the
    group label in the span, and the column of the percentage marker from
    the label on. *)
Definition chercherSatisfaisant (ligneGroupes : CSV.ligne)
           (colDebut colFin : nat) : option nat :=
  premierIndice
    (fun col => includes (CSV.texteColonne ligneGroupes col) (js "satisfaisant"))
    colDebut (S colFin - colDebut).

Definition chercherPourcentage (lignePourcentages : CSV.ligne)
           (colSatisfaisant colFin : nat) : option nat :=
  premierIndice
    (fun col => marquePourcentage (CSV.texteColonne lignePourcentages col))
    colSatisfaisant
    (S (Nat.min (colSatisfaisant + 3) colFin) - colSatisfaisant).

(** Cell [d] of line 3 is a competence title, named [n] once trimmed. *)
Definition titreEn (ligne3 : CSV.ligne) (d : nat) (n : jsstring) : Prop :=
  exists cellule, ligne3 !! d = Some cellule
                  /\ n = trim cellule /\ estCompetence n = true.

(** Columns [d] to [f] of line 3 are a span named [n]: [d] holds the
    title, no cell after [d] up to [f] is a title, and [f] is the last
    column or the column before the next title. *)
Definition plageEn (ligne3 : CSV.ligne) (d f : nat) (n : jsstring) : Prop :=
  d <= f < length ligne3
  /\ titreEn ligne3 d n
  /\ (forall j n', d < j <= f -> ~ titreEn ligne3 j n')
  /\ (S f = length ligne3 \/ exists n', titreEn ligne3 (S f) n').

(** The keyword search of [OraceService] over the columns of a range. *)
Definition chercherOffsetPlage (sh : ODS.feuille) (comp : ODS.plage)
  : option Z :=
  ODS.chercherOffset sh (ODS.colDebut comp) (ODS.colDebut comp)
                     (Z.to_nat (ODS.colFin comp - ODS.colDebut comp + 1)).

(** A cell of rows 3 to 5 of column [col] is a label of the satisfactory
    group (it holds "satisfaisant", "satisf" or "satis") that names a count
    (it holds "nombre"). *)
Definition libelleNombre (sh : ODS.feuille) (col : Z) : Prop :=
  exists row, (3 <= row <= 5)%Z
    /\ includes (trim (toLowerCase (ODS.valeurCellule sh row col)))
                (js "satisfaisant")
       || includes (trim (toLowerCase (ODS.valeurCellule sh row col)))
                   (js "satisf")
       || includes (trim (toLowerCase (ODS.valeurCellule sh row col)))
                   (js "satis") = true
    /\ includes (trim (toLowerCase (ODS.valeurCellule sh row col)))
                (js "nombre") = true.

(** A cell holds a key word, whatever the case of its letters. *)
Definition celluleContient (mot cellule : jsstring) : bool :=
  includes (toLowerCase cellule) mot.

Definition ligneContient (mot : jsstring) (l : CSV.ligne) : bool :=
  existsb (celluleContient mot) l.

(** The token of a source unit: "evaluation ", the level in lower case and
    the two letters of the subject. *)
Definition jeton (niv mat : jsstring) : jsstring :=
  js "evaluation " ++ toLowerCase niv
     ++ (if bool_decide (mat = js "francais") then js "fr" else js "ma").

(** Every entry of every record of the registry satisfies [P]. *)
Definition entreesVerifient (P : jsstring -> float -> Prop) (m : ecolesMap)
  : Prop :=
  forall u r k y, (u, r) ∈ m -> resultats r !! k = Some y -> P k y.

(** The number [parsePourcentage] reads in a cell. *)
Definition nombreLu (v : jsstring) : float :=
  parseFloat (replace (trim (replace (trim v) (js "%") [])) (js ",") (js ".")).

(** ** Sample data *)

Module Exemples.

Definition cpfr : CSV.config := CSV.Config (js "CP") (js "francais") (js "cpfr").
Definition cpma : CSV.config := CSV.Config (js "CP") (js "maths") (js "cpma").

Definition lecture : jsstring := js "Lecture de mots (10 points)".
Definition calcul : jsstring := js "Calcul mental (10 points)".

(** A data line of a CSV file and the competence read in its last
    column. *)
Definition ligneEcole : CSV.ligne :=
  [js "0070116N"; js "Ecole Test"; js "12"; js "3"; js "5,5"; js "62,5"].

Definition cleLecture : jsstring := js "CP_francais_Lecture_de_mots_10_points".
Definition cleCalcul : jsstring := js "CP_maths_Calcul_mental_10_points".

Definition ecoleFrancais : ecole :=
  Ecole (js "0070116N") (js "Ecole Test") {[ cleLecture := 62.5%float ]}.
Definition ecoleMaths : ecole :=
  Ecole (js "0070116N") (js "EP Test") {[ cleCalcul := 48%float ]}.

(** A row of a sheet with no value in the column of the competence. *)
Definition rowSansValeur : list (option jsstring) :=
  [Some (js "0070116N"); Some (js "Ecole Test"); None; None; None;
   Some (js "abs")].
Definition rowMaths : list (option jsstring) :=
  [Some (js "0070116N"); Some (js "EP Test"); None; None; None;
   Some (js "48")].
Definition compLectureODS : ODS.competence := ODS.Competence lecture 5.
Definition compCalculODS : ODS.competence := ODS.Competence calcul 5.

(** Header lines of a CSV file: one title over columns 2 to 5, the group
    label at a given column, the percentage marker at a given column. *)
Definition vide : jsstring := [].
Definition ligne3Lecture : CSV.ligne := [vide; vide; lecture; vide; vide; vide].
Definition groupesEn (col : nat) : CSV.ligne :=
  <[col := js "Groupe satisfaisant"]> (repeat vide 6).
Definition pourcentEn (col : nat) : CSV.ligne :=
  <[col := js "%"]> (repeat vide 6).
Definition sansLibelle : CSV.ligne := repeat vide 6.

(** A sheet with one title merged over columns 2 to 5 of line 3, and the
    label of the group, as a count, in the last column of the range. *)
Definition feuilleNombre : ODS.feuille :=
  ODS.Feuille
    {[ (2, 2)%Z := lecture; (3, 5)%Z := js "Nombre groupe satisfaisant" ]}
    [ODS.Fusion 2 2 2 5] 5 [].

(** A grid where the first line after the header has a blank name. *)
Definition grilleNomBlanc : CSV.grille :=
  [ [js "%"]; [js "0070116N"; js " "]; [js "0070117P"; js "Ecole B"] ].

(** The grid of the end-to-end scenario: twelve lines, with the title
    over columns 2 to 5 on line index 2, the group label in column 4 of
    line index 6, the percentage marker in column 5 of line index 7 and
    the school on line index 11; the other lines are parameters. *)
Definition grilleScenario (ligne1 l1 l3 l4 l5 l8 l9 l10 donnees : CSV.ligne)
  : CSV.grille :=
  [ ligne1; l1; ligne3Lecture; l3; l4; l5; groupesEn 4; pourcentEn 5;
    l8; l9; l10; donnees ].

(** The same with blank lines, for a configuration and a data line. *)
Definition grilleSimple (c : CSV.config) (donnees : CSV.ligne) : CSV.grille :=
  grilleScenario [js "Evaluation " ++ CSV.prefix c] [] [] [] [] [] [] []
                 donnees.

(** A directory that holds the file of one configuration only. *)
Definition unFichier (c : CSV.config) (lignes : CSV.grille) : CSV.fichiers :=
  fun n => if bool_decide (n = CSV.nomFichier c) then CSV.Lu lignes
           else CSV.Absent.

Definition ligneEcole105 : CSV.ligne :=
  [js "0070116N"; js "Ecole Test"; js "12"; js "3"; js "5,5"; js "105"].

(** A file whose first line names another source unit. *)
Definition grilleAutreUnite : CSV.grille := [[js "Evaluation ce1ma"]].

(** A workbook: the reading guide, then the sheet CPFR with one title
    merged over columns 2 to 5, the percentage of the group in column 5,
    and one data row that has no value there. *)
Definition feuilleSansValeur : ODS.feuille :=
  ODS.Feuille
    {[ (2, 2)%Z := lecture; (3, 5)%Z := js "% groupe satisfaisant" ]}
    [ODS.Fusion 2 2 2 5] 5 [rowSansValeur].
Definition classeurSansValeur : list (jsstring * ODS.feuille) :=
  [ (js "Aide", ODS.Feuille ∅ [] 0 []); (js "CPFR", feuilleSansValeur) ].

End Exemples.

(** ** Vocabulary of the further properties *)

(** A line holds a percentage marker in one of its cells. *)
Definition ligneMarquee (l : CSV.ligne) : bool :=
  ligneContient (js "%") l || ligneContient (js "répondants") l
  || ligneContient (js "repondants") l.

(** A text made of white space only. *)
Definition blancs (s : jsstring) : Prop :=
  Forall (fun c => isWhiteSpace c = true) s.

(** The code units [normaliserNomCompetence] rewrites or removes: white
    space, the brackets, the accented letters it knows and the apostrophe. *)
Definition uniteReecrite (c : N) : bool :=
  isWhiteSpace c || bool_decide (c ∈ js "()éèêàâîïôöùûç'").

(** A name [normaliserNomCompetence] has nothing to do on. *)
Definition nomPropre (s : jsstring) : Prop :=
  Forall (fun c => uniteReecrite c = false) s /\ length s <= 100.

(** A code unit that is not white space and not in the class [L]. *)
Definition horsClasse (L : list N) (c : N) : Prop :=
  isWhiteSpace c = false /\ c ∉ L.

(** The test of the [forEach] of [extraireCompetences] on a cell of line 3. *)
Definition estTitre (cellule : jsstring) : bool :=
  (0 <? longueur (trim cellule)) && estCompetence (trim cellule).

(** The titles of line 3, in the order of the columns. *)
Definition titres (ligne3 : CSV.ligne) : list jsstring :=
  map trim (filter (fun cellule => estTitre cellule = true) ligne3).

(** The warning of a competence that is dropped. *)
Definition estAbandon (w : CSV.avertissement) : bool :=
  match w with CSV.PasDeGroupeSatisfaisant _ _ _ => true | _ => false end.

(** The records of the registry are filed under their own identifier, which
    the filter on identifiers accepts. *)
Definition registreIdentifie (m : ecolesMap) : Prop :=
  forall u r, (u, r) ∈ m -> uai r = u /\ identifiantExclu u = false.

(** The same, and every record holds a result. *)
Definition registreSain (m : ecolesMap) : Prop :=
  forall u r, (u, r) ∈ m ->
    uai r = u /\ identifiantExclu u = false /\ resultats r <> ∅.

(** The column index a name of letters A-Z stands for: the letters are the
    digits 1 to 26 of a number in base 26, and "A" is column 0. *)
Definition valeurLettres (s : jsstring) (acc : Z) : Z :=
  fold_left (fun acc c => acc * 26 + (Z.of_N c - 64))%Z s acc.

Definition indiceDeLettres (s : jsstring) : Z := (valeurLettres s 0 - 1)%Z.

Definition estMajuscule (c : N) : bool := ((65 <=? c) && (c <=? 90))%N.

(** The members of the group filed under [key]. *)
Definition groupe (g : gmap jsstring (gset jsstring)) (key : jsstring)
  : gset jsstring := default ∅ (g !! key).

(** A line with three cells for three columns of the same competence: two
    values, and a text that is no number. *)
Definition ligneTroisLectures : CSV.ligne :=
  [js "0070116N"; js "Ecole Test"; js "40"; js "60"; js "abs"].

(** A sheet without merges whose label of the group, on line 6, is left of
    the title of line 3. *)
Definition feuilleDegradee : ODS.feuille :=
  ODS.Feuille
    {[ (2, 0)%Z := js "Compétence"; (2, 2)%Z := Exemples.lecture;
       (5, 0)%Z := js "% groupe satisfaisant" ]}
    [] 8 [].

(** A sheet without merges: the marker and a title on line 3, the label of
    the group on line 6. *)
Definition feuilleClassique : ODS.feuille :=
  ODS.Feuille
    {[ (2, 0)%Z := js "Compétence"; (2, 2)%Z := Exemples.lecture;
       (5, 6)%Z := js "% groupe satisfaisant" ]}
    [] 8 [].

(** * Properties *)

(** ** The runtime on samples *)

Example parseFloat_samples :
  parseFloat (js "62.5") = 62.5%float
  /\ parseFloat (js "  -12.5e1xyz") = (-125)%float
  /\ parseFloat (js ".5") = 0.5%float
  /\ parseFloat (js "5.") = 5%float
  /\ parseFloat (js "1e") = 1%float
  /\ parseFloat (js "1e400") = infinity
  /\ parseFloat (js "-Infinity") = neg_infinity
  /\ PrimFloat.mul (parseFloat (js "0.07")) 100 = 0x1.c000000000001p+2%float
  /\ isNaN (parseFloat (js "abc")) = true
  /\ isNaN (parseFloat (js ".")) = true
  /\ isNaN (parseFloat (js "")) = true.
Proof. repeat split; vm_compute; reflexivity. Qed.

Example strings_samples :
  js "é" = [233%N]
  /\ longueur (js "compétence") = 10
  /\ trim (js "  Ecole Test ") = js "Ecole Test"
  /\ toLowerCase (js "Groupe SATISFAISANT") = js "groupe satisfaisant"
  /\ toLowerCase (js "COMPÉTENCE") = js "compétence"
  /\ toUpperCase (js "cpfr") = js "CPFR"
  /\ includes (js "groupe satisfaisant") (js "satisfaisant") = true
  /\ replace (js "5,5,5") (js ",") (js ".") = js "5.5,5"
  /\ CSV.normaliserNomCompetence (js "  Résoudre  des problèmes (l'élève) ")
     = js "Resoudre_des_problemes_leleve".
Proof. repeat split; vm_compute; reflexivity. Qed.

Example configs_samples :
  map CSV.nomFichier CSV.configs
  = map (fun p => js "CIRCO_ecoles_" ++ js p ++ js ".csv")
        ["CPFR"; "CPMA"; "CE1FR"; "CE1MA"; "CE2FR"; "CE2MA"; "CM1FR"; "CM1MA";
         "CM2FR"; "CM2MA"]%string
  /\ map ODS.extraireNiveau [js "CPFR"; js "ce1ma"; js "Autre"]
     = [js "CP"; js "CE1"; js "AUT"]
  /\ map ODS.extraireMatiere [js "CPFR"; js "ce1ma"; js "Autre"]
     = [js "francais"; js "maths"; js "inconnu"].
Proof. repeat split; vm_compute; reflexivity. Qed.

Example extraireCompetences_sample :
  let ligne3 := [js "UAI"; js "Nom"; Exemples.lecture; []; []; [];
                 Exemples.calcul; []; []; [];
                 js "Scores moyens par exercice"] in
  let groupes := [[]; []; js "Groupe à besoins"; js "Groupe fragile";
                  js "Groupe satisfaisant"; []; js "Groupe à besoins";
                  js "Groupe fragile"; js "Groupe Satisfaisant"; []; []] in
  let pourcentages := [[]; []; js "Nombre"; js "Nombre"; js "Nombre"; js "%";
                       js "Nombre"; js "Nombre"; js "Nombre";
                       js "Nombre d'élèves répondants"; []] in
  CSV.extraireCompetences ligne3 groupes pourcentages
  = ([CSV.Competence Exemples.lecture 5; CSV.Competence Exemples.calcul 9], [])
  /\ CSV.trouverLigneGroupes [[]; []; ligne3; []; groupes; pourcentages]
     = Some 4
  /\ CSV.trouverLignePourcentages [[]; []; ligne3; []; groupes; pourcentages] 4
     = Some 5.
Proof. repeat split; vm_compute; reflexivity. Qed.

(** ** Strings *)

Section StringFacts.

Local Open Scope N_scope.

Lemma startsWith_spec (pat s : jsstring) :
  startsWith pat s = true <-> exists b, s = pat ++ b.
Proof.
  revert s; induction pat as [|p pat IH]; intros s; simpl.
  - split; [intros _; by exists s | done].
  - destruct s as [|c s'].
    + split; [done | intros [b Hb]; discriminate].
    + rewrite andb_true_iff, N.eqb_eq, IH. split.
      * intros [-> [b ->]]. by exists b.
      * intros [b Hb]. injection Hb as -> ->. split; [done | by exists b].
Qed.

Lemma includes_spec (s pat : jsstring) :
  includes s pat = true <-> exists a b, s = a ++ pat ++ b.
Proof.
  induction s as [|c s IH].
  - simpl. rewrite orb_false_r, startsWith_spec. split.
    + intros [b Hb]. by exists [], b.
    + intros (a & b & Hab). destruct a; [by exists b|discriminate].
  - cbn [includes]. rewrite orb_true_iff, startsWith_spec, IH. split.
    + intros [[b Hb] | (a & b & Hab)].
      * by exists [], b.
      * exists (c :: a), b. by rewrite Hab.
    + intros (a & b & Hab). destruct a as [|c' a]; simpl in Hab.
      * left. by exists b.
      * right. injection Hab as -> ->. by exists a, b.
Qed.

Lemma includes_false_spec (s pat : jsstring) :
  includes s pat = false <-> forall a b, s <> a ++ pat ++ b.
Proof.
  rewrite <- not_true_iff_false, includes_spec. split.
  - intros H a b Hab. apply H. by exists a, b.
  - intros H (a & b & Hab). by apply (H a b).
Qed.

Lemma includes_rev (s pat : jsstring) :
  includes (rev s) (rev pat) = includes s pat.
Proof.
  apply eq_true_iff_eq. rewrite !includes_spec. split.
  - intros (a & b & Hab). exists (rev b), (rev a).
    apply (f_equal (@rev N)) in Hab.
    by rewrite rev_involutive, !rev_app_distr, rev_involutive, <- app_assoc in Hab.
  - intros (a & b & ->). exists (rev b), (rev a).
    by rewrite !rev_app_distr, <- app_assoc.
Qed.

(** A pattern that begins with a letter is found in a string exactly when
    it is found once leading white space is removed. *)
Lemma includes_trimStart (s pat : jsstring) (p : N) (pat' : jsstring) :
  pat = p :: pat' -> isWhiteSpace p = false ->
  includes (trimStart s) pat = includes s pat.
Proof.
  intros -> Hp. induction s as [|c s IH]; [done|].
  cbn [trimStart]. destruct (isWhiteSpace c) eqn:Hc; [|done].
  rewrite IH. cbn [includes startsWith].
  destruct (N.eqb_spec p c) as [->|]; [congruence | done].
Qed.

Lemma includes_trimEnd (s pat : jsstring) (p : N) (pat' : jsstring) :
  rev pat = p :: pat' -> isWhiteSpace p = false ->
  includes (trimEnd s) pat = includes s pat.
Proof.
  intros Hpat Hp. unfold trimEnd.
  rewrite <- (includes_rev (rev _)), rev_involutive.
  rewrite (includes_trimStart _ _ p pat' Hpat Hp).
  apply includes_rev.
Qed.

(** White space around a cell does not change whether it holds a keyword
    that begins and ends with a letter. *)
Lemma includes_trim (s pat : jsstring) (p q : N) (pat1 pat2 : jsstring) :
  pat = p :: pat1 -> isWhiteSpace p = false ->
  rev pat = q :: pat2 -> isWhiteSpace q = false ->
  includes (trim s) pat = includes s pat.
Proof.
  intros H1 H2 H3 H4. unfold trim.
  rewrite (includes_trimEnd _ _ q pat2 H3 H4).
  by apply (includes_trimStart _ _ p pat1).
Qed.

Lemma length_trimStart (s : jsstring) : (length (trimStart s) <= length s)%nat.
Proof.
  induction s as [|c s IH]; simpl; [lia|].
  destruct (isWhiteSpace c); simpl; lia.
Qed.

Lemma length_trim (s : jsstring) : (length (trim s) <= length s)%nat.
Proof.
  unfold trim, trimEnd. rewrite length_rev.
  etrans; [apply length_trimStart|]. rewrite length_rev.
  apply length_trimStart.
Qed.

Lemma truthy_spec (s : jsstring) : truthy s = true <-> s <> [].
Proof. destruct s; simpl; split; congruence. Qed.

Lemma includes_nil_l (pat : jsstring) : pat <> [] -> includes [] pat = false.
Proof. by destruct pat. Qed.

End StringFacts.

(** ** The registry of schools *)

Section Registry.

Implicit Types (m : ecolesMap) (e r : ecole) (k u : jsstring).

Lemma mapGet_None k m : mapGet k m = None <-> k ∉ map fst m.
Proof.
  induction m as [|[k' v] m IH]; simpl.
  - split; [intros _; apply not_elem_of_nil | done].
  - destruct (decide (k = k')) as [->|Hne].
    + split; [done | intros H; exfalso; apply H; left].
    + rewrite IH, not_elem_of_cons. tauto.
Qed.

Lemma mapHas_true k m : mapHas k m = true <-> is_Some (mapGet k m).
Proof.
  unfold mapHas. destruct (mapGet k m); simpl.
  - split; [by eexists | done].
  - split; [done | by intros [? ?]].
Qed.

Lemma mapGet_mapSet_eq k v m : mapGet k (mapSet k v m) = Some v.
Proof.
  induction m as [|[k' v'] m IH]; simpl.
  - by rewrite decide_True.
  - destruct (decide (k = k')) as [->|Hne]; simpl.
    + by rewrite decide_True.
    + by rewrite decide_False.
Qed.

Lemma mapGet_mapSet_ne k k' v m :
  k <> k' -> mapGet k' (mapSet k v m) = mapGet k' m.
Proof.
  intros Hne. induction m as [|[k0 v0] m IH]; simpl.
  - by rewrite decide_False.
  - destruct (decide (k = k0)) as [->|Hne0]; simpl.
    + by rewrite !decide_False.
    + by rewrite IH.
Qed.

Lemma mapSet_present k v m :
  is_Some (mapGet k m) -> map fst (mapSet k v m) = map fst m.
Proof.
  induction m as [|[k' v'] m IH]; simpl; intros Hs.
  - by destruct Hs.
  - destruct (decide (k = k')) as [->|Hne]; simpl; [done|].
    by rewrite IH.
Qed.

Lemma mapSet_absent k v m : mapGet k m = None -> mapSet k v m = m ++ [(k, v)].
Proof.
  induction m as [|[k' v'] m IH]; simpl; [done|].
  destruct (decide (k = k')); [done|]. intros H. by rewrite IH.
Qed.

Lemma mapSet_same k v m : mapGet k m = Some v -> mapSet k v m = m.
Proof.
  induction m as [|[k' v'] m IH]; simpl; [done|].
  destruct (decide (k = k')) as [->|]; [by intros [= ->]|].
  intros H. by rewrite IH.
Qed.

Lemma mapSet_mapSet k v v' m : mapSet k v' (mapSet k v m) = mapSet k v' m.
Proof.
  induction m as [|[k' v0] m IH]; simpl.
  - by rewrite decide_True.
  - destruct (decide (k = k')) as [->|Hne]; simpl.
    + by rewrite decide_True.
    + by rewrite decide_False, IH.
Qed.

(** Merging into a school the registry already holds. *)
Lemma fusionnerEcole_present m e r :
  mapGet (uai e) m = Some r ->
  CSV.fusionnerEcole m e
  = mapSet (uai e)
           (Ecole (uai r) (nom r) (objectAssign (resultats r) (resultats e))) m.
Proof.
  intros H. unfold CSV.fusionnerEcole, mapHas. by rewrite H, H.
Qed.

(** Merging a school the registry does not hold yet. *)
Lemma fusionnerEcole_absent m e :
  mapGet (uai e) m = None ->
  CSV.fusionnerEcole m e = m ++ [(uai e, Ecole (uai e) (nom e) (resultats e))].
Proof.
  intros H. unfold CSV.fusionnerEcole, mapHas. rewrite H.
  rewrite mapGet_mapSet_eq, mapSet_mapSet, mapSet_absent by done.
  unfold objectAssign; simpl. by rewrite (right_id ∅ (∪)).
Qed.

(** A row of a sheet that is not filtered out is merged as the school it
    stands for. *)
Lemma traiterLigne_fusion comps niv mat m row :
  identifiantExclu (ODS.texteLigne row 0) = false ->
  ODS.traiterLigne comps niv mat m row
  = CSV.fusionnerEcole m (ecoleDeLigne comps niv mat row).
Proof.
  unfold ODS.traiterLigne, identifiantExclu. by intros ->.
Qed.

Lemma traiterLigne_exclu comps niv mat m row :
  identifiantExclu (ODS.texteLigne row 0) = true ->
  ODS.traiterLigne comps niv mat m row = m.
Proof.
  unfold ODS.traiterLigne, identifiantExclu. by intros ->.
Qed.

Lemma nombreDeFiches_app u m1 m2 :
  nombreDeFiches u (m1 ++ m2) = nombreDeFiches u m1 + nombreDeFiches u m2.
Proof. unfold nombreDeFiches. by rewrite filter_app, length_app. Qed.

Lemma nombreDeFiches_absent u m : mapGet u m = None -> nombreDeFiches u m = 0.
Proof.
  unfold nombreDeFiches.
  induction m as [|[k v] m IH]; simpl; [done|].
  destruct (decide (u = k)) as [->|Hne]; [done|]. intros H.
  rewrite filter_cons_False by (simpl; congruence). by apply IH.
Qed.

Lemma nombreDeFiches_mapSet u k v m :
  is_Some (mapGet k m) -> nombreDeFiches u (mapSet k v m) = nombreDeFiches u m.
Proof.
  unfold nombreDeFiches.
  induction m as [|[k' v'] m IH]; simpl; intros Hs.
  - by destruct Hs.
  - destruct (decide (k = k')) as [->|Hne].
    + destruct (decide (k' = u)) as [->|Hu].
      * by rewrite !filter_cons_True.
      * by rewrite !filter_cons_False.
    + destruct (decide (k' = u)) as [->|Hu].
      * rewrite !filter_cons_True by done. simpl. by rewrite IH.
      * rewrite !filter_cons_False by done. by rewrite IH.
Qed.

(** Merging one school changes neither the number of records of another
    identifier nor, when the school is known, of its own. *)
Lemma nombreDeFiches_fusion_present u m e :
  is_Some (mapGet (uai e) m) ->
  nombreDeFiches u (CSV.fusionnerEcole m e) = nombreDeFiches u m.
Proof.
  intros [r Hr]. rewrite (fusionnerEcole_present _ _ r Hr).
  apply nombreDeFiches_mapSet. by eexists.
Qed.

Lemma nombreDeFiches_fusion_absent m e :
  mapGet (uai e) m = None ->
  nombreDeFiches (uai e) (CSV.fusionnerEcole m e) = 1.
Proof.
  intros H. rewrite fusionnerEcole_absent, nombreDeFiches_app by done.
  rewrite nombreDeFiches_absent by done.
  unfold nombreDeFiches. by rewrite filter_cons_True.
Qed.

End Registry.

(** ** Filling the results of one row *)

Section Remplir.

Context {A : Type} (cle : A -> jsstring) (valeur : A -> option float).

(** The loop both services run over the competences of a row. *)
Let remplir (comps : list A) (init : gmap jsstring float) :=
  fold_left
    (fun res comp =>
       match valeur comp with
       | Some pct => affecter (cle comp) pct res
       | None => res
       end)
    comps init.

Lemma remplir_lookup comps init k y :
  remplir comps init !! k = Some y ->
  init !! k = Some y
  \/ exists comp, comp ∈ comps /\ cle comp = k /\ valeur comp = Some y.
Proof.
  unfold remplir. revert init.
  induction comps as [|c comps IH]; simpl; intros init H; [by left|].
  apply IH in H as [H | (comp & Hin & Hk & Hv)].
  - destruct (valeur c) as [pct|] eqn:Hc; [|by left].
    unfold affecter in H. case_decide; [by left|].
    destruct (decide (cle c = k)) as [Heq|Hne].
    + rewrite <- Heq, lookup_insert_eq in H. injection H as ->.
      right. exists c. split; [left | done].
    + rewrite lookup_insert_ne in H by done. by left.
  - right. exists comp. split; [by right | done].
Qed.

Lemma remplir_rien comps init :
  (forall comp, comp ∈ comps -> valeur comp = None) ->
  remplir comps init = init.
Proof.
  unfold remplir. revert init.
  induction comps as [|c comps IH]; simpl; intros init H; [done|].
  rewrite (H c) by left. apply IH. intros comp Hin. apply H. by right.
Qed.

Lemma remplir_garde comps init k :
  is_Some (init !! k) -> is_Some (remplir comps init !! k).
Proof.
  unfold remplir. revert init.
  induction comps as [|c comps IH]; simpl; intros init H; [done|].
  apply IH. destruct (valeur c); [|done].
  unfold affecter. case_decide; [done|].
  rewrite lookup_insert_is_Some. destruct (decide (cle c = k)); auto.
Qed.

Lemma remplir_some comps init comp y :
  comp ∈ comps -> valeur comp = Some y -> cle comp <> js "__proto__" ->
  is_Some (remplir comps init !! cle comp).
Proof.
  unfold remplir. revert init.
  induction comps as [|c comps IH]; simpl; intros init Hin Hv Hp.
  - by apply elem_of_nil in Hin.
  - apply elem_of_cons in Hin as [<-|Hin].
    + rewrite Hv. apply remplir_garde. unfold affecter.
      rewrite decide_False by done. rewrite lookup_insert_eq. by eexists.
    + by apply IH.
Qed.

(** The prototype accessor is never among the keys. *)
Lemma remplir_proto comps init :
  init !! js "__proto__" = None -> remplir comps init !! js "__proto__" = None.
Proof.
  unfold remplir. revert init.
  induction comps as [|c comps IH]; simpl; intros init H; [done|].
  apply IH. destruct (valeur c); [|done].
  unfold affecter. case_decide as Hk; [done|].
  by rewrite lookup_insert_ne.
Qed.

End Remplir.

Lemma resultatsLigne_lookup l comps niv mat k y :
  CSV.resultatsLigne l comps niv mat !! k = Some y ->
  exists comp, comp ∈ comps
    /\ k = CSV.cleCompetence niv mat (CSV.comp_nom comp)
    /\ CSV.parsePourcentage (l !! CSV.colonne comp) = Some y.
Proof.
  intros H.
  apply (remplir_lookup (fun c => CSV.cleCompetence niv mat (CSV.comp_nom c))
           (fun c => CSV.parsePourcentage (l !! CSV.colonne c))) in H.
  destruct H as [H | (comp & ? & ? & ?)]; [by rewrite lookup_empty in H|].
  by exists comp.
Qed.

Lemma resultatsLigne_rien l comps niv mat :
  (forall comp, comp ∈ comps ->
     CSV.parsePourcentage (l !! CSV.colonne comp) = None) ->
  CSV.resultatsLigne l comps niv mat = ∅.
Proof.
  intros H.
  by apply (remplir_rien (fun c => CSV.cleCompetence niv mat (CSV.comp_nom c))
              (fun c => CSV.parsePourcentage (l !! CSV.colonne c))).
Qed.

Lemma extraireResultats_lookup row comps niv mat k y :
  ODS.extraireResultats row comps niv mat !! k = Some y ->
  exists comp, comp ∈ comps
    /\ k = niv ++ js "_" ++ mat ++ js "_"
             ++ ODS.normaliserNomCompetence (ODS.comp_nom comp)
    /\ ODS.parsePourcentage (ODS.lire row (ODS.colonneDebut comp)) = Some y.
Proof.
  intros H.
  apply (remplir_lookup
           (fun c => niv ++ js "_" ++ mat ++ js "_"
                       ++ ODS.normaliserNomCompetence (ODS.comp_nom c))
           (fun c => ODS.parsePourcentage (ODS.lire row (ODS.colonneDebut c))))
    in H.
  destruct H as [H | (comp & ? & ? & ?)]; [by rewrite lookup_empty in H|].
  by exists comp.
Qed.

Lemma extraireResultats_rien row comps niv mat :
  (forall comp, comp ∈ comps ->
     ODS.parsePourcentage (ODS.lire row (ODS.colonneDebut comp)) = None) ->
  ODS.extraireResultats row comps niv mat = ∅.
Proof.
  intros H.
  by apply (remplir_rien
              (fun c => niv ++ js "_" ++ mat ++ js "_"
                          ++ ODS.normaliserNomCompetence (ODS.comp_nom c))
              (fun c => ODS.parsePourcentage (ODS.lire row (ODS.colonneDebut c)))).
Qed.

(** ** Keys of distinct source units *)

Lemma divergent_app (a b s t : jsstring) :
  divergent a b = true -> a ++ s <> b ++ t.
Proof.
  revert b; induction a as [|x a IH]; intros [|y b]; simpl; try done.
  destruct (N.eqb_spec x y) as [->|Hne].
  - intros H Heq. injection Heq as Heq. by apply (IH b).
  - intros _ Heq. by injection Heq.
Qed.

Lemma cleCompetence_prefixe (c : CSV.config) (n : jsstring) :
  CSV.cleCompetence (CSV.niveau c) (CSV.matiere c) n
  = prefixeCle c ++ CSV.normaliserNomCompetence n.
Proof. unfold CSV.cleCompetence, prefixeCle. by rewrite <- !app_assoc. Qed.

(** No key of one configuration is a key of another one. *)
Lemma cles_distinctes (c1 c2 : CSV.config) (n1 n2 : jsstring) :
  c1 ∈ CSV.configs -> c2 ∈ CSV.configs -> c1 <> c2 ->
  CSV.cleCompetence (CSV.niveau c1) (CSV.matiere c1) n1
  <> CSV.cleCompetence (CSV.niveau c2) (CSV.matiere c2) n2.
Proof.
  intros H1 H2 Hne. rewrite !cleCompetence_prefixe. apply divergent_app.
  assert (Hall : forallb (fun a => forallb (fun b =>
            bool_decide (a = b) || divergent (prefixeCle a) (prefixeCle b))
            CSV.configs) CSV.configs = true) by (vm_compute; reflexivity).
  rewrite forallb_forall in Hall.
  apply list_elem_of_In in H1, H2.
  specialize (Hall c1 H1). rewrite forallb_forall in Hall.
  specialize (Hall c2 H2). apply orb_true_iff in Hall as [H|H]; [|done].
  by apply bool_decide_eq_true in H.
Qed.

(** ** Rows of a CSV file *)

Lemma extraireEcole_spec comps niv mat l e :
  e ∈ CSV.extraireEcole comps niv mat l ->
  e = Ecole (trim (default [] (l !! 0))) (trim (default [] (l !! 1)))
            (CSV.resultatsLigne l comps niv mat)
  /\ identifiantExclu (uai e) = false
  /\ resultats e <> ∅.
Proof.
  unfold CSV.extraireEcole, CSV.ligneIgnoree, identifiantExclu.
  destruct (_ || _ || _) eqn:Hex; [by intros ?%elem_of_nil|].
  destruct (0 <? _)%nat eqn:Hsz; [|by intros ?%elem_of_nil].
  intros ->%list_elem_of_singleton. simpl. repeat split; [done|].
  intros Hempty. rewrite Hempty, map_size_empty in Hsz. done.
Qed.

(** Every entry of a record of a file is the parsed cell of a line of the
    file, at the column of one of its competences. *)
Lemma extraireEcoles_entry lignes comps niv mat e k y :
  e ∈ CSV.extraireEcoles lignes comps niv mat ->
  resultats e !! k = Some y ->
  exists l comp, l ∈ lignes /\ comp ∈ comps
    /\ uai e = trim (default [] (l !! 0))
    /\ k = CSV.cleCompetence niv mat (CSV.comp_nom comp)
    /\ CSV.parsePourcentage (l !! CSV.colonne comp) = Some y.
Proof.
  unfold CSV.extraireEcoles. rewrite list_elem_of_In, in_flat_map.
  intros (l & Hl & He) Hk. apply list_elem_of_In in Hl, He.
  apply extraireEcole_spec in He as (-> & _ & _). simpl in *.
  apply resultatsLigne_lookup in Hk as (comp & ? & ? & ?).
  by exists l, comp.
Qed.

(** A line none of whose competence cells parses contributes no record. *)
Lemma extraireEcole_rien comps niv mat l :
  (forall comp, comp ∈ comps ->
     CSV.parsePourcentage (l !! CSV.colonne comp) = None) ->
  CSV.extraireEcole comps niv mat l = [].
Proof.
  intros H. unfold CSV.extraireEcole.
  destruct (CSV.ligneIgnoree _); [done|].
  by rewrite resultatsLigne_rien.
Qed.

Lemma extraireEcoles_rien comps niv mat avant l apres :
  (forall comp, comp ∈ comps ->
     CSV.parsePourcentage (l !! CSV.colonne comp) = None) ->
  CSV.extraireEcoles (avant ++ l :: apres) comps niv mat
  = CSV.extraireEcoles (avant ++ apres) comps niv mat.
Proof.
  intros H. unfold CSV.extraireEcoles.
  rewrite !flat_map_app. simpl. by rewrite extraireEcole_rien.
Qed.

(** In [OraceService], a row without a value leaves a school the registry
    already holds as it is. *)
Lemma traiterLigne_rien_present comps niv mat (m : ecolesMap) row r :
  (forall comp, comp ∈ comps ->
     ODS.parsePourcentage (ODS.lire row (ODS.colonneDebut comp)) = None) ->
  mapGet (ODS.texteLigne row 0) m = Some r ->
  ODS.traiterLigne comps niv mat m row = m.
Proof.
  intros Hnone Hget.
  destruct (identifiantExclu (ODS.texteLigne row 0)) eqn:Hex.
  - by apply traiterLigne_exclu.
  - rewrite traiterLigne_fusion by done.
    rewrite (fusionnerEcole_present _ _ r) by done. simpl.
    rewrite extraireResultats_rien by done.
    unfold objectAssign. rewrite (left_id ∅ (∪)).
    apply mapSet_same. rewrite Hget. by destruct r.
Qed.

(** C4, the divergence of [OraceService.loadEcoles]: a row whose
    identifier passes the filter and none of whose competence cells parses
    to a number, for a school the registry does not hold yet, adds a record
    with no result at the end of the registry. [OraceCSVService] does not
    ([extraireEcole_rien]): it pushes a school only when it has a result. *)
Theorem ods_row_without_value_creates_record :
  forall (comps : list ODS.competence) (niv mat : jsstring)
         (m : ecolesMap) (row : list (option jsstring)),
    identifiantExclu (ODS.texteLigne row 0) = false ->
    (forall comp, comp ∈ comps ->
       ODS.parsePourcentage (ODS.lire row (ODS.colonneDebut comp)) = None) ->
    mapGet (ODS.texteLigne row 0) m = None ->
    ODS.traiterLigne comps niv mat m row
    = m ++ [(ODS.texteLigne row 0,
             Ecole (ODS.texteLigne row 0) (ODS.texteLigne row 1) ∅)].
Proof.
  intros comps niv mat m row Hex Hnone Hget.
  rewrite traiterLigne_fusion by done.
  rewrite fusionnerEcole_absent by done. simpl.
  by rewrite extraireResultats_rien.
Qed.

(** ** Merging keeps what the registry holds *)

Lemma mapGet_app (k : jsstring) (m1 m2 : ecolesMap) :
  mapGet k (m1 ++ m2)
  = match mapGet k m1 with Some v => Some v | None => mapGet k m2 end.
Proof.
  induction m1 as [|[k' v] m1 IH]; simpl; [done|].
  by destruct (decide (k = k')).
Qed.

(** One merge, seen from any identifier the registry holds: the record
    keeps its identifier and its name, and its results are the old ones,
    under those of the merged school when it is the same school. *)
Lemma fusionnerEcole_lookup (m : ecolesMap) (e r : ecole) (u : jsstring) :
  mapGet u m = Some r ->
  mapGet u (CSV.fusionnerEcole m e)
  = Some (Ecole (uai r) (nom r)
                (if decide (uai e = u)
                 then objectAssign (resultats r) (resultats e)
                 else resultats r)).
Proof.
  intros Hu. destruct (decide (uai e = u)) as [Heq|Hne].
  - subst u. rewrite (fusionnerEcole_present _ _ r Hu).
    apply mapGet_mapSet_eq.
  - destruct (mapGet (uai e) m) as [r0|] eqn:He.
    + rewrite (fusionnerEcole_present _ _ r0 He).
      rewrite mapGet_mapSet_ne by done. rewrite Hu. by destruct r.
    + rewrite (fusionnerEcole_absent _ _ He), mapGet_app, Hu. by destruct r.
Qed.

Lemma fusionnerEcole_keys (m : ecolesMap) (e : ecole) :
  is_Some (mapGet (uai e) m) ->
  map fst (CSV.fusionnerEcole m e) = map fst m.
Proof.
  intros [r Hr]. rewrite (fusionnerEcole_present _ _ r Hr).
  apply mapSet_present. by eexists.
Qed.

(** A run of merges never drops a school, its identifier, its name, or a
    key of its results. *)
Lemma fusions_lookup (l : list ecole) (m : ecolesMap) (r : ecole) (u : jsstring) :
  mapGet u m = Some r ->
  exists r', mapGet u (fold_left CSV.fusionnerEcole l m) = Some r'
    /\ uai r' = uai r /\ nom r' = nom r
    /\ dom (resultats r) ⊆ dom (resultats r').
Proof.
  revert m r. induction l as [|e l IH]; simpl; intros m r Hu.
  - by exists r.
  - pose proof (fusionnerEcole_lookup m e r u Hu) as H1.
    apply IH in H1 as (r' & Hr' & Hid & Hnom & Hdom).
    exists r'. repeat split; [done..|].
    etrans; [|exact Hdom]. simpl.
    destruct (decide (uai e = u)); [|done].
    unfold objectAssign. rewrite dom_union_L. set_solver.
Qed.

Lemma traiterLignes_lookup comps niv mat (rows : list (list (option jsstring)))
      (m : ecolesMap) (r : ecole) (u : jsstring) :
  mapGet u m = Some r ->
  exists r', mapGet u (fold_left (ODS.traiterLigne comps niv mat) rows m) = Some r'
    /\ uai r' = uai r /\ nom r' = nom r
    /\ dom (resultats r) ⊆ dom (resultats r').
Proof.
  revert m r. induction rows as [|row rows IH]; simpl; intros m r Hu.
  - by exists r.
  - destruct (identifiantExclu (ODS.texteLigne row 0)) eqn:Hex.
    + rewrite traiterLigne_exclu by done. by apply IH.
    + rewrite traiterLigne_fusion by done.
      pose proof (fusionnerEcole_lookup m (ecoleDeLigne comps niv mat row) r u Hu)
        as H1.
      apply IH in H1 as (r' & Hr' & Hid & Hnom & Hdom).
      exists r'. repeat split; [done..|].
      etrans; [|exact Hdom]. simpl.
      destruct (decide (_ = u)); [|done].
      unfold objectAssign. rewrite dom_union_L. set_solver.
Qed.

(** C10: when a partial record is merged for a school the registry already
    holds, the record keeps its identifier and its name, whatever name the
    partial record carries, and only its results change (the results of
    the partial record are assigned over them); the order of the registry
    and the other schools are untouched. This holds for the merge step of
    [OraceCSVService.loadEcoles], for a row of [OraceService.loadEcoles],
    and so after any run of further merges. *)
Theorem merge_keeps_id_and_name :
  forall (m : ecolesMap) (u : jsstring) (r : ecole),
    mapGet u m = Some r ->
    (forall e : ecole, uai e = u ->
       mapGet u (CSV.fusionnerEcole m e)
       = Some (Ecole (uai r) (nom r) (objectAssign (resultats r) (resultats e)))
       /\ map fst (CSV.fusionnerEcole m e) = map fst m
       /\ (forall u', u' <> u ->
             mapGet u' (CSV.fusionnerEcole m e) = mapGet u' m))
    /\ (forall comps niv mat row,
          ODS.texteLigne row 0 = u ->
          identifiantExclu u = false ->
          mapGet u (ODS.traiterLigne comps niv mat m row)
          = Some (Ecole (uai r) (nom r)
                        (objectAssign (resultats r)
                                      (ODS.extraireResultats row comps niv mat)))
          /\ map fst (ODS.traiterLigne comps niv mat m row) = map fst m
          /\ (forall u', u' <> u ->
                mapGet u' (ODS.traiterLigne comps niv mat m row) = mapGet u' m))
    /\ (forall l : list ecole,
          exists r', mapGet u (fold_left CSV.fusionnerEcole l m) = Some r'
            /\ uai r' = uai r /\ nom r' = nom r)
    /\ (forall comps niv mat rows,
          exists r',
            mapGet u (fold_left (ODS.traiterLigne comps niv mat) rows m) = Some r'
            /\ uai r' = uai r /\ nom r' = nom r).
Proof.
  intros m u r Hu.
  assert (Hstep : forall e : ecole, uai e = u ->
       mapGet u (CSV.fusionnerEcole m e)
       = Some (Ecole (uai r) (nom r) (objectAssign (resultats r) (resultats e)))
       /\ map fst (CSV.fusionnerEcole m e) = map fst m
       /\ (forall u', u' <> u ->
             mapGet u' (CSV.fusionnerEcole m e) = mapGet u' m)).
  { intros e He. subst u. split; [|split].
    - rewrite (fusionnerEcole_lookup m e r _ Hu). by rewrite decide_True.
    - apply fusionnerEcole_keys. by eexists.
    - intros u' Hne. rewrite (fusionnerEcole_present _ _ r Hu).
      by apply mapGet_mapSet_ne. }
  split; [exact Hstep|]. split; [|split].
  - intros comps niv mat row Hrow Hex.
    rewrite traiterLigne_fusion by (by rewrite Hrow).
    apply (Hstep (ecoleDeLigne comps niv mat row)). exact Hrow.
  - intros l. destruct (fusions_lookup l m r u Hu) as (r' & ? & ? & ? & _).
    by exists r'.
  - intros comps niv mat rows.
    destruct (traiterLignes_lookup comps niv mat rows m r u Hu)
      as (r' & ? & ? & ? & _).
    by exists r'.
Qed.

(** Membership in a concrete list, by computation. *)
Ltac dans_la_liste := apply list_elem_of_In; vm_compute; tauto.

(** The theorem on a row whose cell of column 5 reads "abs", and the whole
    of [loadEcoles] on a workbook that holds this row only. *)
Lemma ods_row_without_value_creates_record_witness :
  ODS.traiterLigne [Exemples.compLectureODS] (js "CP") (js "francais") []
                   Exemples.rowSansValeur
  = [(js "0070116N", Ecole (js "0070116N") (js "Ecole Test") ∅)].
Proof.
  apply (ods_row_without_value_creates_record
           [Exemples.compLectureODS] (js "CP") (js "francais") []
           Exemples.rowSansValeur).
  - vm_compute; reflexivity.
  - intros comp Hin. apply list_elem_of_singleton in Hin. subst comp.
    vm_compute; reflexivity.
  - reflexivity.
Defined.

Example ods_loadEcoles_creates_empty_record :
  ODS.loadEcoles Exemples.classeurSansValeur
  = ([Ecole (js "0070116N") (js "Ecole Test") ∅], []).
Proof. vm_compute; reflexivity. Qed.

(** The theorem on a school known as "Ecole Test" and merged again under
    the name "EP Test". *)
Lemma merge_keeps_id_and_name_witness :
  mapGet (js "0070116N")
         (CSV.fusionnerEcole [(js "0070116N", Exemples.ecoleFrancais)]
                             Exemples.ecoleMaths)
  = Some (Ecole (js "0070116N") (js "Ecole Test")
                (objectAssign {[ Exemples.cleLecture := 62.5%float ]}
                              {[ Exemples.cleCalcul := 48%float ]})).
Proof.
  apply (merge_keeps_id_and_name
           [(js "0070116N", Exemples.ecoleFrancais)] (js "0070116N")
           Exemples.ecoleFrancais); reflexivity.
Defined.

(** ** Two source units, one school *)


Lemma nombreDeFiches_deux_fusions (m : ecolesMap) (e1 e2 : ecole) :
  uai e1 = uai e2 -> mapGet (uai e1) m = None ->
  nombreDeFiches (uai e1) (CSV.fusionnerEcole (CSV.fusionnerEcole m e1) e2) = 1.
Proof.
  intros Hid Hnew.
  rewrite nombreDeFiches_fusion_present.
  - by apply nombreDeFiches_fusion_absent.
  - rewrite <- Hid, fusionnerEcole_absent, mapGet_app, Hnew by done.
    simpl. rewrite decide_True by done. by eexists.
Qed.

(** The keys of a record of a file are keys of the file's configuration. *)
Lemma extraireEcoles_cle (c : CSV.config) lignes comps e k :
  e ∈ CSV.extraireEcoles lignes comps (CSV.niveau c) (CSV.matiere c) ->
  is_Some (resultats e !! k) ->
  exists n, k = CSV.cleCompetence (CSV.niveau c) (CSV.matiere c) n.
Proof.
  intros He [y Hy].
  destruct (extraireEcoles_entry _ _ _ _ _ _ _ He Hy)
    as (l & comp & _ & _ & _ & -> & _).
  by eexists.
Qed.






(** The identifiers of the registry stay distinct under merges, so every
    registry [loadEcoles] builds from the empty one has distinct
    identifiers. *)
Lemma fusionnerEcole_NoDup (m : ecolesMap) (e : ecole) :
  NoDup (map fst m) -> NoDup (map fst (CSV.fusionnerEcole m e)).
Proof.
  intros Hnd. destruct (mapGet (uai e) m) as [r|] eqn:Hget.
  - rewrite fusionnerEcole_keys by (by eexists). done.
  - rewrite fusionnerEcole_absent, map_app by done. simpl.
    apply NoDup_app. split; [done|]. split; [|apply NoDup_singleton].
    intros k Hk ->%list_elem_of_singleton. by apply mapGet_None in Hget.
Qed.

Lemma fusions_NoDup (l : list ecole) (m : ecolesMap) :
  NoDup (map fst m) -> NoDup (map fst (fold_left CSV.fusionnerEcole l m)).
Proof.
  revert m. induction l as [|e l IH]; intros m H; simpl; [done|].
  by apply IH, fusionnerEcole_NoDup.
Qed.



(** ** Numbers *)

Lemma SFcompare_refl (f : spec_float) :
  f <> S754_nan -> SFcompare f f = Some Eq.
Proof.
  destruct f as [s|s| |s m e]; simpl; try done.
  - by destruct s.
  - intros _. by destruct s; rewrite Z.compare_refl, Pos.compare_cont_refl.
Qed.

(** A number that compares above zero is not [NaN]. *)
Lemma ltb_not_nan (x : float) : PrimFloat.ltb 0 x = true -> isNaN x = false.
Proof.
  rewrite ltb_spec. unfold isNaN, PrimFloat.is_nan.
  rewrite FloatAxioms.eqb_spec.
  intros H. unfold SFeqb. rewrite SFcompare_refl; [done|].
  intros Hn. rewrite Hn in H. vm_compute in H. done.
Qed.

(** Rounding a positive mantissa never gives [NaN]. *)
Lemma shr_1_nonneg (mrs : shr_record) :
  (0 <= shr_m mrs)%Z -> (0 <= shr_m (shr_1 mrs))%Z.
Proof.
  destruct mrs as [m r s]. simpl.
  destruct m as [|[p|p|]|[p|p|]]; simpl; lia.
Qed.

Lemma iter_pos_shr_1_nonneg (p : positive) (mrs : shr_record) :
  (0 <= shr_m mrs)%Z -> (0 <= shr_m (SpecFloat.iter_pos shr_1 p mrs))%Z.
Proof.
  revert mrs. induction p as [p IH|p IH|]; intros mrs H; simpl.
  - apply IH, IH. by apply shr_1_nonneg.
  - by apply IH, IH.
  - by apply shr_1_nonneg.
Qed.

Lemma shr_fexp_nonneg (p e m e0 : Z) (l : location) :
  (0 <= m)%Z -> (0 <= shr_m (shr_fexp p e m e0 l).1)%Z.
Proof.
  intros H. unfold shr_fexp, shr.
  assert (H0 : (0 <= shr_m (shr_record_of_loc m l))%Z).
  { destruct l as [|[]]; simpl; lia. }
  destruct (_ - _)%Z; simpl; try done.
  by apply iter_pos_shr_1_nonneg.
Qed.

Lemma round_nearest_even_nonneg (m : Z) (l : location) :
  (0 <= m)%Z -> (0 <= round_nearest_even m l)%Z.
Proof.
  intros H. destruct l as [|[]]; simpl; try lia.
  destruct (Z.even m); lia.
Qed.

Lemma binary_round_aux_not_nan (p e : Z) (s : bool) (m : positive) (ex : Z)
      (l : location) :
  binary_round_aux p e s (Zpos m) ex l <> S754_nan.
Proof.
  unfold binary_round_aux.
  pose proof (shr_fexp_nonneg p e (Zpos m) ex l ltac:(lia)) as H1.
  destruct (shr_fexp p e (Zpos m) ex l) as [mrs' e'].
  pose proof (shr_fexp_nonneg p e
                (round_nearest_even (shr_m mrs') (loc_of_shr_record mrs'))
                e' loc_Exact (round_nearest_even_nonneg _ _ H1)) as H2.
  destruct (shr_fexp p e _ e' loc_Exact) as [mrs'' e''].
  simpl in H2.
  destruct (shr_m mrs'') as [|q|q]; [done|by destruct (_ <=? _)%Z|lia].
Qed.

(** A fraction times a hundred is a number. *)
Lemma mul_100_not_nan (x : float) :
  PrimFloat.ltb 0 x = true -> PrimFloat.ltb x 1 = true ->
  isNaN (PrimFloat.mul x 100) = false.
Proof.
  rewrite !ltb_spec. intros H0 H1.
  unfold isNaN, PrimFloat.is_nan. rewrite FloatAxioms.eqb_spec, mul_spec.
  unfold SFeqb. rewrite SFcompare_refl; [done|].
  replace (Prim2SF 100) with (S754_finite false 7036874417766400 (-46))
    by (vm_compute; reflexivity).
  destruct (Prim2SF x) as [s|s| |s m e].
  - unfold SF64mul; simpl. done.
  - destruct s; vm_compute in H0, H1; done.
  - vm_compute in H0. done.
  - unfold SF64mul, SFmul. apply binary_round_aux_not_nan.
Qed.

(** The string [parsePourcentage] hands to [parseFloat]: the cell trimmed,
    without its first percent sign, trimmed again, and with its first comma
    turned into a point. *)
Lemma parsePourcentage_unfold (v : jsstring) :
  v <> [] ->
  CSV.parsePourcentage (Some v)
  = let x := parseFloat
               (replace (trim (replace (trim v) (js "%") [])) (js ",") (js "."))
    in if isNaN x then None
       else if PrimFloat.ltb 0 x && PrimFloat.ltb x 1
            then Some (PrimFloat.mul x 100) else Some x.
Proof. by destruct v. Qed.

Lemma parsePourcentage_same (valeur : option jsstring) :
  ODS.parsePourcentage valeur = CSV.parsePourcentage valeur.
Proof. reflexivity. Qed.

(** What [parsePourcentage] returns is the parsed number or a hundred
    times it, and is never [NaN]. *)
Lemma parsePourcentage_Some (valeur : option jsstring) (y : float) :
  CSV.parsePourcentage valeur = Some y ->
  exists v x,
    valeur = Some v /\ v <> []
    /\ x = parseFloat
             (replace (trim (replace (trim v) (js "%") [])) (js ",") (js "."))
    /\ isNaN x = false
    /\ y = (if PrimFloat.ltb 0 x && PrimFloat.ltb x 1
            then PrimFloat.mul x 100 else x)
    /\ isNaN y = false.
Proof.
  destruct valeur as [v|]; [|done].
  destruct (decide (v = [])) as [->|Hv]; [done|].
  rewrite parsePourcentage_unfold by done. cbv zeta.
  destruct (isNaN _) eqn:Hnan; [done|].
  intros Hy. eexists v, _. split; [done|]. split; [done|].
  split; [reflexivity|]. split; [exact Hnan|].
  destruct (PrimFloat.ltb 0 _) eqn:H0, (PrimFloat.ltb _ 1) eqn:H1;
    simpl in *; injection Hy as <-; (split; [done|]); try done.
  by apply mul_100_not_nan.
Qed.

(** C5: [parsePourcentage] gives 50 for "50%", 50.5 for "50,5 %", 50 for
    "0.5", 105 for "105", and [null] for the empty string and for [null];
    for any other cell, with [x] the number [parseFloat] reads in the cell
    once trimmed, rid of its percent sign and with its comma turned into a
    point: [null] when [x] is [NaN], [x * 100] when [0 < x < 1], and [x]
    itself otherwise. The function is total (it never throws), and the two
    services carry the same function. *)
Theorem parsePourcentage_spec :
  (CSV.parsePourcentage (Some (js "50%")) = Some 50%float
   /\ CSV.parsePourcentage (Some (js "50,5 %")) = Some 50.5%float
   /\ CSV.parsePourcentage (Some (js "0.5")) = Some 50%float
   /\ CSV.parsePourcentage (Some (js "105")) = Some 105%float
   /\ CSV.parsePourcentage (Some (js "")) = None
   /\ CSV.parsePourcentage None = None)
  /\ (forall v : jsstring,
        let x := parseFloat
                   (replace (trim (replace (trim v) (js "%") []))
                            (js ",") (js ".")) in
        (isNaN x = true -> CSV.parsePourcentage (Some v) = None)
        /\ (PrimFloat.ltb 0 x = true -> PrimFloat.ltb x 1 = true ->
            CSV.parsePourcentage (Some v) = Some (PrimFloat.mul x 100))
        /\ (isNaN x = false ->
            ~ (PrimFloat.ltb 0 x = true /\ PrimFloat.ltb x 1 = true) ->
            CSV.parsePourcentage (Some v) = Some x))
  /\ (forall valeur, ODS.parsePourcentage valeur = CSV.parsePourcentage valeur).
Proof.
  split; [repeat split; vm_compute; reflexivity|].
  split; [|exact parsePourcentage_same].
  intros v x.
  destruct (decide (v = [])) as [->|Hv].
  - repeat split; intros H; try done; vm_compute in H; try done.
    all: intros; vm_compute in *; try done.
  - rewrite parsePourcentage_unfold by done. cbv zeta. fold x.
    split; [|split].
    + by intros ->.
    + intros H0 H1. by rewrite (ltb_not_nan x H0), H0, H1.
    + intros Hn Hnot. rewrite Hn.
      destruct (PrimFloat.ltb 0 x) eqn:H0, (PrimFloat.ltb x 1) eqn:H1;
        simpl; try done.
      exfalso. by apply Hnot.
Qed.

(** ** Scanning loops *)

Lemma premierIndice_Some (p : nat -> bool) (d n i : nat) :
  premierIndice p d n = Some i ->
  d <= i < d + n /\ p i = true /\ forall j, d <= j < i -> p j = false.
Proof.
  revert d. induction n as [|n IH]; simpl; intros d; [done|].
  destruct (p d) eqn:Hd.
  - intros [= <-]. repeat split; [lia..|done|intros j; lia].
  - intros H. apply IH in H as (Hi & Hp & Hmin).
    repeat split; [lia..|done|].
    intros j Hj. destruct (decide (j = d)) as [->|]; [done|].
    apply Hmin. lia.
Qed.

Lemma premierIndice_None (p : nat -> bool) (d n : nat) :
  premierIndice p d n = None <-> forall j, d <= j < d + n -> p j = false.
Proof.
  revert d. induction n as [|n IH]; simpl; intros d.
  - split; [intros _ j; lia | done].
  - destruct (p d) eqn:Hd.
    + split; [done|]. intros H. rewrite H in Hd by lia. done.
    + rewrite IH. split.
      * intros H j Hj. destruct (decide (j = d)) as [->|]; [done|].
        apply H. lia.
      * intros H j Hj. apply H. lia.
Qed.

(** The first index is found as soon as one is known. *)
Lemma premierIndice_first (p : nat -> bool) (d n i : nat) :
  d <= i < d + n -> p i = true -> (forall j, d <= j < i -> p j = false) ->
  premierIndice p d n = Some i.
Proof.
  intros Hi Hp Hmin.
  destruct (premierIndice p d n) as [i'|] eqn:H.
  - apply premierIndice_Some in H as (Hi' & Hp' & Hmin').
    f_equal. destruct (Nat.lt_trichotomy i i') as [Hlt|[->|Hlt]]; [|done|].
    + rewrite Hmin' in Hp by lia. done.
    + rewrite Hmin in Hp' by lia. done.
  - rewrite premierIndice_None in H. rewrite H in Hp by lia. done.
Qed.

(** ** The first school line *)

Lemma estLigneEcole_spec (l : CSV.ligne) :
  CSV.estLigneEcole l = true <-> ligneEcoleValide l.
Proof.
  unfold CSV.estLigneEcole, ligneEcoleValide, identifiant.
  rewrite !andb_true_iff, !negb_true_iff, !truthy_spec, Nat.leb_le.
  split; [tauto|]. intros (Hlen & ? & ? & ? & ?). repeat split; try done.
  intros Hu. rewrite Hu in Hlen. simpl in Hlen. lia.
Qed.

Lemma estLigneEcoleA_spec (lignes : CSV.grille) (i : nat) :
  CSV.estLigneEcoleA lignes i = true <-> ligneVerifie ligneEcoleValide lignes i.
Proof.
  unfold CSV.estLigneEcoleA, ligneVerifie.
  destruct (lignes !! i) as [l|] eqn:Hl.
  - rewrite estLigneEcole_spec. split.
    + intros H. by exists l.
    + by intros (l' & [= <-] & H).
  - split; [done | by intros (l' & ? & _)].
Qed.

Lemma estLigneEcoleA_false (lignes : CSV.grille) (i : nat) :
  CSV.estLigneEcoleA lignes i = false
  <-> ~ ligneVerifie ligneEcoleValide lignes i.
Proof. rewrite <- estLigneEcoleA_spec. by destruct (CSV.estLigneEcoleA _ _). Qed.

(** Trimming only shortens: a line whose trimmed identifier has seven
    characters has an identifier of seven characters at least. *)
Lemma identifiant_longueur (l : CSV.ligne) :
  longueur (identifiant l) <= longueur (default [] (l !! 0)).
Proof. apply length_trim. Qed.

(** C8, amended: [trouverPremiereEcole] returns the smallest index after
    the line of percentages of a line whose first cell, trimmed, has seven
    characters or more and holds none of "uai", "total", "circonscription"
    (whatever the case), and whose second cell, trimmed, is not empty; it
    returns 10 when there is no such line. So the line it returns, but in
    the default case, has an identifier of seven characters or more. On a
    grid whose names are trimmed already, the name may be taken as it stands. *)
Theorem trouverPremiereEcole_spec :
  forall (lignes : CSV.grille) (lignePourcentages : nat),
    (forall i,
       lignePourcentages < i ->
       ligneVerifie ligneEcoleValide lignes i ->
       (forall j, lignePourcentages < j < i ->
                  ~ ligneVerifie ligneEcoleValide lignes j) ->
       CSV.trouverPremiereEcole lignes lignePourcentages = i)
    /\ ((forall i, lignePourcentages < i ->
                   ~ ligneVerifie ligneEcoleValide lignes i) ->
        CSV.trouverPremiereEcole lignes lignePourcentages = 10)
    /\ ((exists l,
           lignes !! CSV.trouverPremiereEcole lignes lignePourcentages = Some l
           /\ lignePourcentages < CSV.trouverPremiereEcole lignes lignePourcentages
           /\ ligneEcoleValide l
           /\ 7 <= longueur (default [] (l !! 0)))
        \/ (CSV.trouverPremiereEcole lignes lignePourcentages = 10
            /\ forall i, lignePourcentages < i ->
                         ~ ligneVerifie ligneEcoleValide lignes i))
    /\ ((forall l, l ∈ lignes -> trim (default [] (l !! 1)) = default [] (l !! 1)) ->
        forall i, ligneVerifie ligneEcoleValide lignes i
                  <-> ligneVerifie ligneEcoleBrute lignes i).
Proof.
  intros lignes lp. unfold CSV.trouverPremiereEcole.
  assert (Hout : forall i, length lignes <= i ->
                           ~ ligneVerifie ligneEcoleValide lignes i).
  { intros i Hi (l & Hl & _). apply lookup_lt_Some in Hl. lia. }
  split; [|split; [|split]].
  - intros i Hi Hq Hmin.
    rewrite (premierIndice_first _ _ _ i); [done| |by apply estLigneEcoleA_spec|].
    + destruct Hq as (l & Hl & _). apply lookup_lt_Some in Hl. lia.
    + intros j Hj. apply estLigneEcoleA_false, Hmin. lia.
  - intros Hnone.
    replace (premierIndice _ _ _) with (@None nat); [done|].
    symmetry. apply premierIndice_None. intros j Hj.
    apply estLigneEcoleA_false, Hnone. lia.
  - destruct (premierIndice _ _ _) as [i|] eqn:H; simpl.
    + left. apply premierIndice_Some in H as (Hi & Hp & _).
      apply estLigneEcoleA_spec in Hp as (l & Hl & Hq).
      exists l. split; [done|]. split; [lia|]. split; [done|].
      etrans; [apply Hq|apply identifiant_longueur].
    + right. split; [done|]. intros i Hi.
      destruct (decide (i < length lignes)) as [Hlt|Hge]; [|apply Hout; lia].
      rewrite premierIndice_None in H.
      apply estLigneEcoleA_false, H. lia.
  - intros Htrim i. unfold ligneVerifie, ligneEcoleValide, ligneEcoleBrute.
    split; intros (l & Hl & H); exists l; (split; [done|]).
    + rewrite <- (Htrim l); [done|]. by eapply list_elem_of_lookup_2.
    + rewrite (Htrim l); [done|]. by eapply list_elem_of_lookup_2.
Qed.

(** ** The column of a competence, CSV *)

(** The three outcomes of [finaliserCompetence]. *)
Lemma finaliserCompetence_cases comps nomC d f lg lp :
  CSV.finaliserCompetence comps nomC d f lg lp
  = match chercherSatisfaisant lg d f with
    | None => (comps, [CSV.PasDeGroupeSatisfaisant nomC d f])
    | Some s =>
      match chercherPourcentage lp s f with
      | Some c => (comps ++ [CSV.Competence nomC c], [])
      | None =>
        (comps ++ [CSV.Competence nomC (s + 1)],
         [CSV.ColonnePourcentageNonIdentifiee nomC (s + 1)])
      end
    end.
Proof. reflexivity. Qed.

Lemma chercherSatisfaisant_bounds lg d f s :
  chercherSatisfaisant lg d f = Some s -> d <= s <= f.
Proof.
  unfold chercherSatisfaisant. intros H.
  apply premierIndice_Some in H as (? & _ & _). lia.
Qed.

Lemma chercherPourcentage_bounds lp s f c :
  chercherPourcentage lp s f = Some c -> s <= c /\ c <= s + 3 /\ c <= f.
Proof.
  unfold chercherPourcentage. intros H.
  apply premierIndice_Some in H as (? & _ & _). lia.
Qed.

(** What [finaliserCompetence] adds, when it adds a competence. *)
Lemma finaliserCompetence_added comps nomC d f lg lp cs w :
  CSV.finaliserCompetence comps nomC d f lg lp = (cs, w) ->
  cs = comps
  \/ exists c, cs = comps ++ [c] /\ CSV.comp_nom c = nomC
       /\ d <= CSV.colonne c <= f + 1
       /\ (w = [] -> CSV.colonne c <= f).
Proof.
  rewrite finaliserCompetence_cases.
  destruct (chercherSatisfaisant lg d f) as [s|] eqn:Hs; [|intros [= <- <-]; by left].
  apply chercherSatisfaisant_bounds in Hs.
  destruct (chercherPourcentage lp s f) as [c|] eqn:Hc; intros [= <- <-]; right.
  - apply chercherPourcentage_bounds in Hc.
    eexists. split; [done|]. simpl. split; [done|]. split; [lia|]. intros _. lia.
  - eexists. split; [done|]. simpl. split; [done|]. split; [lia|]. done.
Qed.

Lemma finaliserCompetence_column comps nomC d f lg lp c w :
  CSV.finaliserCompetence comps nomC d f lg lp = (comps ++ [c], w) ->
  CSV.comp_nom c = nomC
  /\ d <= CSV.colonne c
  /\ (CSV.colonne c <= f
      \/ (CSV.colonne c = f + 1
          /\ chercherSatisfaisant lg d f = Some f
          /\ chercherPourcentage lp f f = None)).
Proof.
  rewrite finaliserCompetence_cases.
  destruct (chercherSatisfaisant lg d f) as [s|] eqn:Hs.
  - pose proof (chercherSatisfaisant_bounds _ _ _ _ Hs) as Hb.
    destruct (chercherPourcentage lp s f) as [col|] eqn:Hc.
    + intros [= H _]. apply app_inv_head in H. injection H as <-.
      apply chercherPourcentage_bounds in Hc. simpl.
      split; [done|]. split; [lia|]. left; lia.
    + intros [= H _]. apply app_inv_head in H. injection H as <-. simpl.
      split; [done|]. split; [lia|].
      destruct (decide (s = f)) as [->|Hne]; [by right|left; lia].
  - intros [= H _]. apply (f_equal length) in H.
    rewrite length_app in H. simpl in H. lia.
Qed.

Lemma estCompetence_longueur (t : jsstring) :
  (0 <? longueur t) && estCompetence t = estCompetence t.
Proof.
  destruct t as [|c t]; [reflexivity|]. reflexivity.
Qed.

Section Ligne3.

Variables ligne3 lg lp : CSV.ligne.

(** A competence of the result stands for a span of line 3, and its column
    is in the span, or right after it when the label is in the last column
    of the span and no percentage marker is found there. *)
Let issueDunePlage (c : CSV.competence) : Prop :=
  exists d f,
    plageEn ligne3 d f (CSV.comp_nom c)
    /\ d <= CSV.colonne c
    /\ (CSV.colonne c <= f
        \/ (CSV.colonne c = f + 1
            /\ chercherSatisfaisant lg d f = Some f
            /\ chercherPourcentage lp f f = None)).

Let invariant (index : nat) (st : CSV.etat) : Prop :=
  Forall issueDunePlage (CSV.competences st)
  /\ forall n d, CSV.competenceEnCours st = Some (n, d) ->
                 d < index /\ titreEn ligne3 d n
                 /\ forall j n', d < j < index -> ~ titreEn ligne3 j n'.

Lemma titreEn_test (i : nat) (cellule : jsstring) :
  ligne3 !! i = Some cellule ->
  (0 <? longueur (trim cellule)) && estCompetence (trim cellule) = true
  <-> exists n, titreEn ligne3 i n.
Proof.
  intros Hl. rewrite estCompetence_longueur. unfold titreEn. split.
  - intros H. exists (trim cellule), cellule. by repeat split.
  - intros (n & cellule' & Hl' & -> & H). congruence.
Qed.

Lemma cloreEnCours_invariant index st :
  invariant index st -> index <= length ligne3 ->
  (index = length ligne3 \/ exists n', titreEn ligne3 index n') ->
  Forall issueDunePlage
         (CSV.competences (CSV.cloreEnCours st (index - 1) lg lp)).
Proof.
  intros [Hall Hcur] Hidx Hfin. unfold CSV.cloreEnCours.
  destruct (CSV.competenceEnCours st) as [[n d]|] eqn:He; [|done].
  destruct (Hcur n d eq_refl) as (Hd & Ht & Hno).
  destruct (CSV.finaliserCompetence _ _ _ _ _ _) as [cs w] eqn:Hf.
  simpl.
  destruct (finaliserCompetence_added _ _ _ _ _ _ _ _ Hf)
    as [->|(c & -> & _)]; [done|].
  apply finaliserCompetence_column in Hf as (Hn & Hlow & Hcase).
  apply Forall_app. split; [done|]. apply Forall_singleton.
  exists d, (index - 1). rewrite Hn. split; [|done].
  unfold plageEn. split; [lia|]. split; [done|]. split.
  - intros j n' Hj. apply Hno. lia.
  - replace (S (index - 1)) with index by lia. done.
Qed.

Lemma parcourirLigne3_invariant cellules avant st :
  ligne3 = avant ++ cellules ->
  invariant (length avant) st ->
  invariant (length ligne3)
            (CSV.parcourirLigne3 lg lp cellules (length avant) st).
Proof.
  revert avant st. induction cellules as [|cellule reste IH];
    intros avant st Hl Hinv; simpl.
  - by rewrite Hl, app_nil_r.
  - specialize (IH (avant ++ [cellule])).
    rewrite length_app, Nat.add_1_r in IH. apply IH.
    { by rewrite <- app_assoc. }
    assert (Hlook : ligne3 !! length avant = Some cellule).
    { rewrite Hl. by rewrite list_lookup_middle. }
    assert (Hlen : length avant < length ligne3).
    { by apply lookup_lt_Some in Hlook. }
    unfold CSV.pasLigne3.
    destruct (_ && _) eqn:Htest.
    + pose proof (proj1 (titreEn_test _ _ Hlook) Htest) as Htitre.
      split.
      * apply cloreEnCours_invariant; [done|lia|by right].
      * intros n d [= <- <-]. split; [lia|]. split.
        -- exists cellule. repeat split; [done|].
           rewrite estCompetence_longueur in Htest. done.
        -- intros j n' Hj. lia.
    + destruct Hinv as [Hall Hcur]. split; [done|].
      intros n d He. destruct (Hcur n d He) as (Hd & Ht & Hno).
      split; [lia|]. split; [done|].
      intros j n' Hj Hn'.
      destruct (decide (j = length avant)) as [->|Hne].
      * apply not_true_iff_false in Htest. apply Htest.
        apply (titreEn_test _ _ Hlook). by exists n'.
      * apply (Hno j n'); [lia|done].
Qed.

Lemma extraireCompetences_plages c :
  c ∈ (CSV.extraireCompetences ligne3 lg lp).1 -> issueDunePlage c.
Proof.
  unfold CSV.extraireCompetences. simpl.
  set (st := CSV.parcourirLigne3 lg lp ligne3 0 (CSV.Etat [] None [])).
  assert (Hinv : invariant (length ligne3) st).
  { apply (parcourirLigne3_invariant ligne3 []); [done|].
    split; [constructor|]. intros n d. by simpl. }
  intros Hin.
  pose proof (cloreEnCours_invariant (length ligne3) st Hinv
                (Nat.le_refl _) (or_introl eq_refl)) as Hall.
  rewrite Forall_forall in Hall. by apply Hall.
Qed.

End Ligne3.


(** ** The column of a competence, merged sheets *)

Section Fusions.

Local Open Scope Z_scope.

Variable sh : ODS.feuille.

Local Abbreviation libelleNombre := (libelleNombre sh).

Lemma offsetCellule_Some debut col row o :
  ODS.offsetCellule sh debut col row = Some o ->
  o = col - debut
  \/ (o = col + 1 - debut
      /\ includes (trim (toLowerCase (ODS.valeurCellule sh row col)))
                  (js "satisfaisant")
         || includes (trim (toLowerCase (ODS.valeurCellule sh row col)))
                     (js "satisf")
         || includes (trim (toLowerCase (ODS.valeurCellule sh row col)))
                     (js "satis") = true
      /\ includes (trim (toLowerCase (ODS.valeurCellule sh row col)))
                  (js "nombre") = true).
Proof.
  unfold ODS.offsetCellule. cbv zeta.
  destruct (_ && _); [|done].
  destruct (_ || _ || _) eqn:Hs; [|done].
  destruct (includes _ (js "nombre")) eqn:Hn.
  - intros [= <-]. by right.
  - destruct (includes _ (js "%") || _); [|done]. intros [= <-]. by left.
Qed.

Lemma offsetColonne_Some debut col o :
  ODS.offsetColonne sh debut col = Some o ->
  o = col - debut \/ (o = col + 1 - debut /\ libelleNombre col).
Proof.
  unfold ODS.offsetColonne, libelleNombre.
  destruct (ODS.offsetCellule sh debut col 3) as [o3|] eqn:H3.
  { intros [= <-]. apply offsetCellule_Some in H3 as [?|(? & ? & ?)];
      [by left|].
    right. split; [done|]. exists 3. split; [lia|done]. }
  destruct (ODS.offsetCellule sh debut col 4) as [o4|] eqn:H4.
  { intros [= <-]. apply offsetCellule_Some in H4 as [?|(? & ? & ?)];
      [by left|].
    right. split; [done|]. exists 4. split; [lia|done]. }
  intros H5. apply offsetCellule_Some in H5 as [?|(? & ? & ?)]; [by left|].
  right. split; [done|]. exists 5. split; [lia|done].
Qed.

Lemma chercherOffset_Some debut col n o :
  ODS.chercherOffset sh debut col n = Some o ->
  exists c, col <= c < col + Z.of_nat n
    /\ (o = c - debut \/ (o = c + 1 - debut /\ libelleNombre c)).
Proof.
  revert col. induction n as [|n IH]; intros col; simpl; [done|].
  destruct (ODS.offsetColonne sh debut col) as [o'|] eqn:Hc.
  - intros [= <-]. exists col. split; [lia|]. by apply offsetColonne_Some.
  - intros H. apply IH in H as (c & Hc' & Ho). exists c. split; [lia|done].
Qed.

(** A key word search that finds nothing leaves the last column of the
    range, with a warning. *)
Lemma resoudreOffset_None (comp : ODS.plage) :
  chercherOffsetPlage sh comp = None ->
  ODS.resoudreOffset sh comp
  = (ODS.PlageAvecOffset comp (ODS.largeur comp - 1)
                         (ODS.colDebut comp + (ODS.largeur comp - 1)),
     [ODS.HeuristiqueDerniereColonne (ODS.plage_nom comp)
                                     (ODS.largeur comp - 1)]).
Proof. unfold chercherOffsetPlage, ODS.resoudreOffset. by intros ->. Qed.

Lemma resoudreOffset_Some (comp : ODS.plage) (o : Z) :
  chercherOffsetPlage sh comp = Some o ->
  ODS.resoudreOffset sh comp
  = (ODS.PlageAvecOffset comp o (ODS.colDebut comp + o), []).
Proof. unfold chercherOffsetPlage, ODS.resoudreOffset. by intros ->. Qed.

Lemma resoudreOffset_bounds (comp : ODS.plage) :
  ODS.largeur comp = ODS.colFin comp - ODS.colDebut comp + 1 ->
  let c := (ODS.resoudreOffset sh comp).1 in
  ODS.plage_de c = comp
  /\ ODS.colonnePourcentage c = ODS.colDebut comp + ODS.offsetPourcentage c
  /\ ODS.colonnePourcentage c <= ODS.colFin comp + 1
  /\ (ODS.colDebut comp <= ODS.colFin comp ->
      ODS.colDebut comp <= ODS.colonnePourcentage c)
  /\ (ODS.colonnePourcentage c <= ODS.colFin comp
      \/ (ODS.colonnePourcentage c = ODS.colFin comp + 1
          /\ libelleNombre (ODS.colFin comp))).
Proof.
  intros Hl. destruct (chercherOffsetPlage sh comp) as [o|] eqn:Ho.
  - rewrite (resoudreOffset_Some _ _ Ho). simpl.
    apply chercherOffset_Some in Ho as (c & Hc & Hoc).
    do 2 (split; [done|]).
    destruct Hoc as [->|[-> Hn]].
    + split; [lia|]. split; [lia|]. left; lia.
    + split; [lia|]. split; [lia|].
      destruct (decide (c = ODS.colFin comp)) as [->|Hne].
      * right. split; [lia|done].
      * left; lia.
  - rewrite (resoudreOffset_None _ Ho). simpl.
    do 2 (split; [done|]). split; [lia|]. split; [lia|]. left; lia.
Qed.

(** The loop of step 3 resolves every range of step 1, in order. *)
Lemma competencesAvecOffsets_map :
  (ODS.competencesAvecOffsets sh).1
  = map (fun comp => (ODS.resoudreOffset sh comp).1) (ODS.plagesLigne3 sh).
Proof.
  unfold ODS.competencesAvecOffsets.
  assert (H : forall l acc,
    (fold_left (fun acc comp =>
                  let '(c, w) := ODS.resoudreOffset sh comp in
                  (acc.1 ++ [c], acc.2 ++ w)) l acc).1
    = acc.1 ++ map (fun comp => (ODS.resoudreOffset sh comp).1) l).
  { induction l as [|comp l IH]; intros acc; simpl.
    - by rewrite app_nil_r.
    - rewrite IH. destruct (ODS.resoudreOffset sh comp) as [c w]. simpl.
      by rewrite <- app_assoc. }
  by rewrite H.
Qed.

Lemma inserer_elem (x m : ODS.fusion) (l : list ODS.fusion) :
  x ∈ ODS.inserer m l -> x = m \/ x ∈ l.
Proof.
  induction l as [|y l IH]; simpl.
  - intros ->%list_elem_of_singleton. by left.
  - destruct (ODS.s_c y <? ODS.s_c m).
    + intros [->|H]%elem_of_cons; [right; left|].
      apply IH in H as [->|H]; [by left|right; by right].
    + intros [->|H]%elem_of_cons; [by left|by right].
Qed.

Lemma trierParColonne_elem (x : ODS.fusion) (l : list ODS.fusion) :
  x ∈ ODS.trierParColonne l -> x ∈ l.
Proof.
  unfold ODS.trierParColonne. induction l as [|y l IH]; simpl; [done|].
  intros [->|H]%inserer_elem; [left|right; by apply IH].
Qed.

(** A range of step 1 is a merge of line 3, named by the text of its
    first cell, which is a competence title. *)
Lemma plagesLigne3_fusion (comp : ODS.plage) :
  comp ∈ ODS.plagesLigne3 sh ->
  exists f, f ∈ ODS.merges sh /\ ODS.s_r f = 2 /\ ODS.s_c f <> ODS.e_c f
    /\ comp = ODS.Plage (trim (ODS.valeurCellule sh 2 (ODS.s_c f)))
                        (ODS.s_c f) (ODS.e_c f) (ODS.e_c f - ODS.s_c f + 1)
    /\ estCompetence (ODS.plage_nom comp) = true.
Proof.
  unfold ODS.plagesLigne3. rewrite list_elem_of_In, in_flat_map.
  intros (f & Hf & Hin). apply list_elem_of_In in Hf.
  unfold ODS.fusionsLigne3 in Hf.
  apply trierParColonne_elem, list_elem_of_filter in Hf as [[Hr Hc] Hf].
  destruct (estCompetence _) eqn:He; [|done].
  destruct Hin as [<-|[]]. exists f. by repeat split.
Qed.

Lemma plagesLigne3_largeur (comp : ODS.plage) :
  comp ∈ ODS.plagesLigne3 sh ->
  ODS.largeur comp = ODS.colFin comp - ODS.colDebut comp + 1
  /\ estCompetence (ODS.plage_nom comp) = true.
Proof.
  intros (f & _ & _ & _ & -> & He)%plagesLigne3_fusion. by split.
Qed.

End Fusions.

(** C8, as stated, fails on a name made of blanks: line 1 has an
    identifier of eight characters and a second cell that is not empty,
    yet [trouverPremiereEcole] passes it and returns line 2. *)
Lemma trouverPremiereEcole_blank_name :
  ligneVerifie ligneEcoleBrute Exemples.grilleNomBlanc 1
  /\ CSV.trouverPremiereEcole Exemples.grilleNomBlanc 0 = 2.
Proof.
  split; [|vm_compute; reflexivity].
  exists [js "0070116N"; js " "]. split; [vm_compute; reflexivity|].
  unfold ligneEcoleBrute. repeat split; try (vm_compute; reflexivity).
  - vm_compute. lia.
  - vm_compute. discriminate.
Qed.

(** ** The column of a competence, sheets without a titled merge *)

Section Classique.

Local Open Scope Z_scope.

Lemma titresApres_elem (l : list jsstring) (c0 marque col : Z) (v : jsstring) :
  (col, v) ∈ ODS.titresApres l c0 marque ->
  exists i : nat, l !! i = Some v /\ col = c0 + Z.of_nat i
                  /\ marque < col /\ (10 <= longueur v)%nat.
Proof.
  revert c0. induction l as [|x l IH]; simpl; intros c0 Hin.
  - by apply elem_of_nil in Hin.
  - assert (Hrec : (col, v) ∈ ODS.titresApres l (c0 + 1) marque ->
                   exists i : nat, (x :: l) !! i = Some v
                     /\ col = c0 + Z.of_nat i /\ marque < col
                     /\ (10 <= longueur v)%nat).
    { intros H. apply IH in H as (i & Hi & -> & ? & ?).
      exists (S i). repeat split; [done|lia|done..]. }
    destruct (_ && _) eqn:Ht; [|by apply Hrec].
    apply elem_of_cons in Hin as [[= -> ->]|Hin]; [|by apply Hrec].
    apply andb_true_iff in Ht as [Ht Hlen].
    apply andb_true_iff in Ht as [Hm _].
    exists 0%nat. repeat split; [lia|by apply Z.ltb_lt|by apply Nat.leb_le].
Qed.

Lemma findIndex_Some (p : jsstring -> bool) (l : list jsstring) (i k : Z) :
  ODS.findIndex p l i = Some k ->
  exists (j : nat) x, l !! j = Some x /\ p x = true /\ k = i + Z.of_nat j.
Proof.
  revert i. induction l as [|x l IH]; simpl; intros i H; [done|].
  destruct (p x) eqn:Hp.
  - injection H as <-. exists 0%nat, x. repeat split; [done|lia].
  - apply IH in H as (j & y & Hj & Hy & ->). exists (S j), y.
    repeat split; [done..|lia].
Qed.

Lemma ligneTexte_lookup (sh : ODS.feuille) (r : Z) (i : nat) (v : jsstring) :
  ODS.ligneTexte sh r !! i = Some v ->
  v = trim (ODS.valeurCellule sh r (Z.of_nat i))
  /\ Z.of_nat i <= ODS.derniereColonne sh.
Proof.
  unfold ODS.ligneTexte. change (map ?f ?l) with (f <$> l).
  rewrite list_lookup_fmap. intros H.
  apply fmap_Some in H as (col & Hcol & ->).
  apply lookup_seqZ in Hcol as [-> ?]. split; [by rewrite Z.add_0_l|lia].
Qed.

(** Without a merge of line 3 that bears a title, the competences are those
    of the classic analysis. *)
Lemma extraireCompetencesLigne3_classique (sh : ODS.feuille) :
  ODS.plagesLigne3 sh = [] ->
  (ODS.extraireCompetencesLigne3 sh).1
  = ODS.competences (ODS.analyserStructureClassique sh).1.
Proof.
  intros Hp. unfold ODS.extraireCompetencesLigne3,
    ODS.analyserStructureAvecFusions.
  rewrite Hp. destruct (ODS.merges sh);
    by destruct (ODS.analyserStructureClassique sh).
Qed.

(** With one, they are the ranges of line 3, each with the column the key
    word search resolved for it. *)
Lemma extraireCompetencesLigne3_fusions (sh : ODS.feuille) :
  ODS.plagesLigne3 sh <> [] ->
  (ODS.extraireCompetencesLigne3 sh).1
  = map (fun c => ODS.Competence (ODS.plage_nom (ODS.plage_de c))
                                 (ODS.colonnePourcentage c))
        (ODS.competencesAvecOffsets sh).1.
Proof.
  intros Hne. unfold ODS.extraireCompetencesLigne3,
    ODS.analyserStructureAvecFusions.
  destruct (ODS.merges sh) as [|m ms] eqn:Hm.
  { exfalso. apply Hne. unfold ODS.plagesLigne3, ODS.fusionsLigne3.
    by rewrite Hm. }
  destruct (ODS.plagesLigne3 sh) as [|c0 autres]; [done|].
  by destruct (ODS.competencesAvecOffsets sh) as [avec w].
Qed.

(** The classic analysis reads every competence at the column of its title
    plus the one offset of the structure. *)
Lemma classique_colonne (sh : ODS.feuille) (c : ODS.competence) :
  c ∈ ODS.competences (ODS.analyserStructureClassique sh).1 ->
  exists col,
    0 <= col <= ODS.derniereColonne sh
    /\ ODS.comp_nom c = trim (ODS.valeurCellule sh 2 col)
    /\ ODS.colonneDebut c
       = col + ODS.offsetPourcentageSatisfaisant
                 (ODS.analyserStructureClassique sh).1.
Proof.
  unfold ODS.analyserStructureClassique.
  destruct (ODS.findIndex _ _ _) as [marque|]; cbn [fst ODS.competences];
    [|by intros ?%elem_of_nil].
  destruct (ODS.titresApres _ _ _) as [|[col0 n0] autres] eqn:Ht;
    cbn [fst ODS.competences ODS.offsetPourcentageSatisfaisant];
    [by intros ?%elem_of_nil|].
  set (offset := match ODS.groupesSatisfaisants _ _ with
                 | [] => 5 | colPourcentage :: _ => colPourcentage - col0 end).
  intros Hin.
  assert (Hc : exists col v, (col, v) ∈ (col0, n0) :: autres
                             /\ c = ODS.Competence v (col + offset)).
  { apply elem_of_cons in Hin as [->|Hin].
    - exists col0, n0. split; [left|done].
    - change (map ?f ?l) with (f <$> l) in Hin.
      apply list_elem_of_fmap in Hin as ([col v] & -> & Hin).
      exists col, v. split; [by right|done]. }
  destruct Hc as (col & v & Hcv & ->). rewrite <- Ht in Hcv.
  apply titresApres_elem in Hcv as (i & Hi & -> & _ & _).
  apply ligneTexte_lookup in Hi as [-> Himax].
  exists (0 + Z.of_nat i). simpl. split; [lia|done].
Qed.

End Classique.

(** C2, amended. Where a span is computed, the column of a competence is
    in its span or right after it,
    [0 <= column - columnStart <= columnEnd - columnStart + 1]. In
    [OraceCSVService] every competence of [extraireCompetences] stands for
    a span of line 3 that starts at its title, and the column is past the
    span only when the group label is in the last column of the span and
    no percentage marker is found there. In [OraceService], when a merge of
    line 3 bears a title, every competence of [extraireCompetencesLigne3]
    stands for such a merge, and the column is past the merge only when a
    cell of rows 3 to 5 of its last column is a label of the satisfactory
    group that names a count ("nombre"). When no merge of line 3 bears a
    title, [OraceService] computes no span: the competences are those of
    [analyserStructureClassique], each read at the column of its title
    plus the one offset of the sheet, which no bound ties to the title. *)
Theorem resolved_column_in_or_after_span :
  (forall (ligne3 lg lp : CSV.ligne) (c : CSV.competence),
     c ∈ (CSV.extraireCompetences ligne3 lg lp).1 ->
     exists d f,
       plageEn ligne3 d f (CSV.comp_nom c)
       /\ d <= CSV.colonne c
       /\ (CSV.colonne c <= f
           \/ (CSV.colonne c = f + 1
               /\ chercherSatisfaisant lg d f = Some f
               /\ chercherPourcentage lp f f = None)))
  /\ (forall comps nomC d f (lg lp : CSV.ligne) c w,
        CSV.finaliserCompetence comps nomC d f lg lp = (comps ++ [c], w) ->
        d <= CSV.colonne c
        /\ (CSV.colonne c <= f
            \/ (CSV.colonne c = f + 1
                /\ chercherSatisfaisant lg d f = Some f
                /\ chercherPourcentage lp f f = None)))
  /\ (forall (sh : ODS.feuille) (c : ODS.plageAvecOffset),
        c ∈ (ODS.competencesAvecOffsets sh).1 ->
        exists f,
          f ∈ ODS.merges sh /\ ODS.s_r f = 2%Z
          /\ ODS.colDebut (ODS.plage_de c) = ODS.s_c f
          /\ ODS.colFin (ODS.plage_de c) = ODS.e_c f
          /\ (ODS.colonnePourcentage c - ODS.s_c f = ODS.offsetPourcentage c)%Z
          /\ ((ODS.s_c f <= ODS.e_c f)%Z ->
              (0 <= ODS.colonnePourcentage c - ODS.s_c f
               <= ODS.e_c f - ODS.s_c f + 1)%Z)
          /\ ((ODS.colonnePourcentage c <= ODS.e_c f)%Z
              \/ (ODS.colonnePourcentage c = ODS.e_c f + 1)%Z
                 /\ libelleNombre sh (ODS.e_c f)))
  /\ (forall (sh : ODS.feuille) (c : ODS.competence),
        ODS.plagesLigne3 sh <> [] ->
        c ∈ (ODS.extraireCompetencesLigne3 sh).1 ->
        exists f,
          f ∈ ODS.merges sh /\ ODS.s_r f = 2%Z /\ ODS.s_c f <> ODS.e_c f
          /\ ODS.comp_nom c = trim (ODS.valeurCellule sh 2 (ODS.s_c f))
          /\ estCompetence (ODS.comp_nom c) = true
          /\ ((ODS.s_c f <= ODS.e_c f)%Z ->
              (0 <= ODS.colonneDebut c - ODS.s_c f
               <= ODS.e_c f - ODS.s_c f + 1)%Z)
          /\ ((ODS.colonneDebut c <= ODS.e_c f)%Z
              \/ (ODS.colonneDebut c = ODS.e_c f + 1)%Z
                 /\ libelleNombre sh (ODS.e_c f)))
  /\ (forall sh : ODS.feuille,
        ODS.plagesLigne3 sh = [] ->
        (ODS.extraireCompetencesLigne3 sh).1
        = ODS.competences (ODS.analyserStructureClassique sh).1)
  /\ (forall (sh : ODS.feuille) (c : ODS.competence),
        c ∈ ODS.competences (ODS.analyserStructureClassique sh).1 ->
        exists col,
          (0 <= col <= ODS.derniereColonne sh)%Z
          /\ ODS.comp_nom c = trim (ODS.valeurCellule sh 2 col)
          /\ ODS.colonneDebut c
             = (col + ODS.offsetPourcentageSatisfaisant
                        (ODS.analyserStructureClassique sh).1)%Z).
Proof.
  assert (Hplage : forall (sh : ODS.feuille) (c : ODS.plageAvecOffset),
    c ∈ (ODS.competencesAvecOffsets sh).1 ->
    exists f,
      f ∈ ODS.merges sh /\ ODS.s_r f = 2%Z /\ ODS.s_c f <> ODS.e_c f
      /\ ODS.plage_de c
         = ODS.Plage (trim (ODS.valeurCellule sh 2 (ODS.s_c f)))
                     (ODS.s_c f) (ODS.e_c f) (ODS.e_c f - ODS.s_c f + 1)%Z
      /\ estCompetence (ODS.plage_nom (ODS.plage_de c)) = true
      /\ (ODS.colonnePourcentage c - ODS.s_c f = ODS.offsetPourcentage c)%Z
      /\ ((ODS.s_c f <= ODS.e_c f)%Z ->
          (0 <= ODS.colonnePourcentage c - ODS.s_c f
           <= ODS.e_c f - ODS.s_c f + 1)%Z)
      /\ ((ODS.colonnePourcentage c <= ODS.e_c f)%Z
          \/ (ODS.colonnePourcentage c = ODS.e_c f + 1)%Z
             /\ libelleNombre sh (ODS.e_c f))).
  { intros sh c.
    rewrite competencesAvecOffsets_map, list_elem_of_In, in_map_iff.
    intros (comp & <- & Hin). apply list_elem_of_In in Hin.
    destruct (plagesLigne3_largeur sh comp Hin) as [Hl Hest].
    destruct (resoudreOffset_bounds sh comp Hl)
      as (-> & Hc & Hup & Hlow & Hcase).
    destruct (plagesLigne3_fusion sh comp Hin)
      as (f & Hf & Hr & Hh & Hcomp & _).
    exists f. rewrite Hcomp in *. simpl in *.
    split; [done|]. split; [done|]. split; [done|]. split; [done|].
    split; [done|]. split; [lia|]. split; [|done].
    intros Hwf. specialize (Hlow Hwf). lia. }
  split; [exact extraireCompetences_plages|]. split; [|split; [|split]].
  - intros comps nomC d f lg lp c w H.
    by apply finaliserCompetence_column in H as (_ & ? & ?).
  - intros sh c Hc.
    destruct (Hplage sh c Hc) as (f & Hf & Hr & _ & Hp & _ & Ho & Hb & Hcase).
    exists f. rewrite Hp. cbn [ODS.colDebut ODS.colFin].
    split; [done|]. split; [done|]. split; [done|]. split; [done|].
    split; [done|]. split; [done|done].
  - intros sh c Hne Hc.
    rewrite (extraireCompetencesLigne3_fusions sh Hne) in Hc.
    change (map ?g ?l) with (g <$> l) in Hc.
    apply list_elem_of_fmap in Hc as (pa & -> & Hpa).
    destruct (Hplage sh pa Hpa)
      as (f & Hf & Hr & Hh & Hp & Hest & _ & Hb & Hcase).
    exists f. cbn [ODS.comp_nom ODS.colonneDebut].
    split; [done|]. split; [done|]. split; [done|].
    split; [by rewrite Hp|]. split; [done|]. split; [done|done].
  - split; [exact extraireCompetencesLigne3_classique|].
    exact classique_colonne.
Qed.

(** C2, as stated, fails on every path. CSV: over the span 2-5, with the
    group label in column 5 and no percentage marker there, the column is
    6. Sheets with a titled merge: over the merge 2-5, with a label that
    names a count in column 5, the column is 6. Sheets without one: with
    the title in column 2 and the group label in column 0 of line 6, the
    one offset is -2 and the column is 0, left of the title. *)
Lemma resolved_column_outside_span :
  (CSV.extraireCompetences Exemples.ligne3Lecture (Exemples.groupesEn 5)
                           (Exemples.pourcentEn 0)).1
  = [CSV.Competence Exemples.lecture 6]
  /\ CSV.finaliserCompetence [] Exemples.lecture 2 5 (Exemples.groupesEn 5)
                             (Exemples.pourcentEn 0)
     = ([CSV.Competence Exemples.lecture 6],
        [CSV.ColonnePourcentageNonIdentifiee Exemples.lecture 6])
  /\ ~ (6 - 2 <= 5 - 2)
  /\ (ODS.competencesAvecOffsets Exemples.feuilleNombre).1
     = [ODS.PlageAvecOffset (ODS.Plage Exemples.lecture 2 5 4) 4 6]
  /\ ODS.extraireCompetencesLigne3 Exemples.feuilleNombre
     = ([ODS.Competence Exemples.lecture 6], [])
  /\ ~ (6 - 2 <= 5 - 2)%Z
  /\ ODS.extraireCompetencesLigne3 feuilleDegradee
     = ([ODS.Competence Exemples.lecture 0], [ODS.AucuneFusion])
  /\ ODS.offsetPourcentageSatisfaisant
       (ODS.analyserStructureClassique feuilleDegradee).1 = (-2)%Z
  /\ ~ (0 <= 0 - 2)%Z.
Proof.
  split; [vm_compute; reflexivity|]. split; [vm_compute; reflexivity|].
  split; [lia|]. split; [vm_compute; reflexivity|].
  split; [vm_compute; reflexivity|]. split; [lia|].
  split; [vm_compute; reflexivity|]. split; [vm_compute; reflexivity|lia].
Qed.

(** C3, amended. In [OraceService], a range of line 3 where the key word
    search finds nothing gets the last column of the range, with a
    warning, and every range yields a competence. In [OraceCSVService], a
    span without the group label yields no competence, with a warning; a
    span with the label in column [s] and no percentage marker from [s]
    to [min (s + 3) columnEnd] yields the competence with column [s + 1],
    with a warning. *)
Theorem default_column_when_search_fails :
  (forall (sh : ODS.feuille) (comp : ODS.plage),
     comp ∈ ODS.plagesLigne3 sh ->
     chercherOffsetPlage sh comp = None ->
     ODS.resoudreOffset sh comp
     = (ODS.PlageAvecOffset comp (ODS.colFin comp - ODS.colDebut comp)%Z
                            (ODS.colFin comp),
        [ODS.HeuristiqueDerniereColonne
           (ODS.plage_nom comp) (ODS.colFin comp - ODS.colDebut comp)%Z]))
  /\ (forall sh : ODS.feuille,
        map ODS.plage_de (ODS.competencesAvecOffsets sh).1
        = ODS.plagesLigne3 sh)
  /\ (forall comps nomC d f (lg lp : CSV.ligne),
        chercherSatisfaisant lg d f = None ->
        CSV.finaliserCompetence comps nomC d f lg lp
        = (comps, [CSV.PasDeGroupeSatisfaisant nomC d f]))
  /\ (forall comps nomC d f (lg lp : CSV.ligne) s,
        chercherSatisfaisant lg d f = Some s ->
        chercherPourcentage lp s f = None ->
        CSV.finaliserCompetence comps nomC d f lg lp
        = (comps ++ [CSV.Competence nomC (s + 1)],
           [CSV.ColonnePourcentageNonIdentifiee nomC (s + 1)])).
Proof.
  split; [|split; [|split]].
  - intros sh comp Hin Hnone.
    destruct (plagesLigne3_largeur sh comp Hin) as [Hl _].
    rewrite (resoudreOffset_None sh comp Hnone), Hl.
    by replace (ODS.colFin comp - ODS.colDebut comp + 1 - 1)%Z
      with (ODS.colFin comp - ODS.colDebut comp)%Z by lia;
      replace (ODS.colDebut comp + (ODS.colFin comp - ODS.colDebut comp))%Z
        with (ODS.colFin comp) by lia.
  - intros sh. rewrite competencesAvecOffsets_map, map_map.
    induction (ODS.plagesLigne3 sh) as [|comp l IH]; simpl; [done|].
    f_equal; [|done].
    unfold ODS.resoudreOffset. by destruct (ODS.chercherOffset _ _ _ _).
  - intros comps nomC d f lg lp H. by rewrite finaliserCompetence_cases, H.
  - intros comps nomC d f lg lp s Hs Hp.
    by rewrite finaliserCompetence_cases, Hs, Hp.
Qed.

(** C3, as stated, fails in [OraceCSVService]: over the span 2-5, with the
    group label in column 2 and no percentage marker in the span, the
    column is 3, not 5; and without a group label the span yields no
    competence. *)
Lemma default_column_is_not_span_end :
  chercherPourcentage (Exemples.pourcentEn 0) 2 5 = None
  /\ CSV.finaliserCompetence [] Exemples.lecture 2 5 (Exemples.groupesEn 2)
                             (Exemples.pourcentEn 0)
     = ([CSV.Competence Exemples.lecture 3],
        [CSV.ColonnePourcentageNonIdentifiee Exemples.lecture 3])
  /\ 3 <> 5
  /\ CSV.finaliserCompetence [] Exemples.lecture 2 5 Exemples.sansLibelle
                             (Exemples.pourcentEn 0)
     = ([], [CSV.PasDeGroupeSatisfaisant Exemples.lecture 2 5]).
Proof. repeat split; try (vm_compute; reflexivity). lia. Qed.

(** ** Key words in cells *)

(** The scanners lower-case and trim a cell before the test; for a key
    word that begins and ends with a letter this is the plain search of
    the key word in the cell, whatever the case. *)
Lemma contient_ligneContient (mot : jsstring) (p q : N) (m1 m2 : jsstring)
      (l : CSV.ligne) :
  mot = p :: m1 -> isWhiteSpace p = false ->
  rev mot = q :: m2 -> isWhiteSpace q = false ->
  contient (fun normalise => includes normalise mot) l = ligneContient mot l.
Proof.
  intros H1 H2 H3 H4. unfold contient, ligneContient, celluleContient.
  induction l as [|cellule l IH]; simpl; [done|]. rewrite IH. f_equal.
  rewrite (includes_trim _ mot p q m1 m2) by done.
  destruct cellule as [|c r]; simpl; [|done].
  by rewrite H1.
Qed.

Lemma contient_satisfaisant (l : CSV.ligne) :
  contient (fun normalise => includes normalise (js "satisfaisant")) l
  = ligneContient (js "satisfaisant") l.
Proof.
  eapply contient_ligneContient; [vm_compute; reflexivity|done
                                 |vm_compute; reflexivity|done].
Qed.

Lemma contient_ext (f g : jsstring -> bool) (l : CSV.ligne) :
  (forall s, f s = g s) -> contient f l = contient g l.
Proof.
  intros H. unfold contient. induction l as [|c l IH]; simpl; [done|].
  by rewrite H, IH.
Qed.

Lemma contient_or (f g : jsstring -> bool) (l : CSV.ligne) :
  contient (fun s => f s || g s) l = contient f l || contient g l.
Proof.
  unfold contient. induction l as [|c l IH]; simpl; [done|].
  rewrite IH. destruct (truthy c), (f _), (g _); simpl; try done;
    by destruct (existsb _ l), (existsb _ l).
Qed.

Lemma contient_pourcentage (l : CSV.ligne) :
  contient marquePourcentage l
  = ligneContient (js "%") l
    || ligneContient (js "répondants") l
    || ligneContient (js "repondants") l.
Proof.
  unfold marquePourcentage. rewrite !contient_or. f_equal; [f_equal|].
  - eapply contient_ligneContient; [vm_compute; reflexivity|done
                                   |vm_compute; reflexivity|done].
  - eapply contient_ligneContient; [vm_compute; reflexivity|done
                                   |vm_compute; reflexivity|done].
  - eapply contient_ligneContient; [vm_compute; reflexivity|done
                                   |vm_compute; reflexivity|done].
Qed.

Lemma contient_jeton (niv mat : jsstring) (l : CSV.ligne) :
  contient (fun normalise => includes normalise (jeton niv mat)) l
  = ligneContient (jeton niv mat) l.
Proof.
  unfold jeton.
  replace (js "evaluation ") with (101%N :: js "valuation ")
    by (vm_compute; reflexivity).
  destruct (bool_decide _).
  - eapply (contient_ligneContient _ 101%N 114%N); [done|done| |done].
    rewrite app_assoc, rev_app_distr.
    replace (rev (js "fr")) with [114%N; 102%N] by (vm_compute; reflexivity).
    done.
  - eapply (contient_ligneContient _ 101%N 97%N); [done|done| |done].
    rewrite app_assoc, rev_app_distr.
    replace (rev (js "ma")) with [97%N; 109%N] by (vm_compute; reflexivity).
    done.
Qed.

Lemma existsb_false_iff {A} (f : A -> bool) (l : list A) :
  existsb f l = false <-> forall x, x ∈ l -> f x = false.
Proof.
  induction l as [|a l IH]; simpl.
  - split; [intros _ x Hx; by apply elem_of_nil in Hx | done].
  - rewrite orb_false_iff, IH. split.
    + intros [Ha Hl] x Hx. apply elem_of_cons in Hx as [->|Hx]; auto.
    + intros H. split; [apply H; left | intros x Hx; apply H; by right].
Qed.

(** ** Rejected source units *)

Lemma validerIdentification_jeton (ligne1 : option CSV.ligne) (niv mat : jsstring) :
  (CSV.validerIdentification ligne1 niv mat).1
  = match ligne1 with
    | Some l => ligneContient (jeton niv mat) l
    | None => false
    end.
Proof.
  unfold CSV.validerIdentification.
  destruct ligne1 as [[|c l]|]; [reflexivity| |reflexivity].
  cbv zeta. cbn [fst]. rewrite <- contient_jeton. reflexivity.
Qed.

Lemma validerIdentification_true ligne1 niv mat :
  (CSV.validerIdentification ligne1 niv mat).1 = true ->
  CSV.validerIdentification ligne1 niv mat = (true, []).
Proof.
  unfold CSV.validerIdentification.
  destruct ligne1 as [[|c l]|]; [discriminate| |discriminate].
  cbv zeta. cbn [fst]. by intros ->.
Qed.

Lemma trouverLigneGroupes_None (lignes : CSV.grille) :
  (forall i l, 2 <= i <= 9 -> lignes !! i = Some l ->
               ligneContient (js "satisfaisant") l = false) ->
  CSV.trouverLigneGroupes lignes = None.
Proof.
  intros H. apply premierIndice_None. intros j Hj. unfold CSV.contientGroupe.
  destruct (lignes !! j) as [l|] eqn:Hl; [|done].
  rewrite contient_satisfaisant. apply (H j); [lia|done].
Qed.

Lemma trouverLignePourcentages_None (lignes : CSV.grille) (g : nat) :
  (forall i l, g + 1 <= i <= g + 3 -> lignes !! i = Some l ->
               ligneContient (js "%") l = false
               /\ ligneContient (js "répondants") l = false
               /\ ligneContient (js "repondants") l = false) ->
  CSV.trouverLignePourcentages lignes g = None.
Proof.
  intros H. apply premierIndice_None. intros j Hj.
  unfold CSV.contientPourcentage.
  destruct (lignes !! j) as [l|] eqn:Hl; [|done].
  rewrite contient_pourcentage.
  destruct (H j l) as (-> & -> & ->); [lia|done|done].
Qed.

(** The registry after a list of configurations depends on the registry
    before it only. *)
Lemma chargerConfig_fst fs acc c :
  (CSV.chargerConfig fs acc c).1
  = fold_left CSV.fusionnerEcole
      (CSV.chargerFichierCSV fs (CSV.nomFichier c) (CSV.niveau c)
                             (CSV.matiere c)).1
      acc.1.
Proof.
  unfold CSV.chargerConfig. by destruct (CSV.chargerFichierCSV _ _ _ _).
Qed.

Lemma fold_chargerConfig_fst fs cfgs acc acc' :
  acc.1 = acc'.1 ->
  (fold_left (CSV.chargerConfig fs) cfgs acc).1
  = (fold_left (CSV.chargerConfig fs) cfgs acc').1.
Proof.
  revert acc acc'. induction cfgs as [|c cfgs IH]; intros acc acc' H; simpl;
    [done|].
  apply IH. by rewrite !chargerConfig_fst, H.
Qed.

Lemma loadEcolesDe_fst cfgs fs :
  (CSV.loadEcolesDe cfgs fs).1
  = mapValues (fold_left (CSV.chargerConfig fs) cfgs ([], [])).1.
Proof.
  unfold CSV.loadEcolesDe. by destruct (fold_left _ _ _).
Qed.

(** A configuration whose file yields no school can be left out. *)
Lemma loadEcolesDe_skip fs c avant apres :
  (CSV.chargerFichierCSV fs (CSV.nomFichier c) (CSV.niveau c)
                         (CSV.matiere c)).1 = [] ->
  (CSV.loadEcolesDe (avant ++ c :: apres) fs).1
  = (CSV.loadEcolesDe (avant ++ apres) fs).1.
Proof.
  intros H. rewrite !loadEcolesDe_fst, !fold_left_app. simpl. f_equal.
  apply fold_chargerConfig_fst. by rewrite chargerConfig_fst, H.
Qed.

(** C6: the file of a configuration contributes no school, with a
    warning, and the registry is what the other configurations alone
    give, as soon as no cell of its first line holds the token of the
    configuration, or no line of index 2 to 9 holds "satisfaisant", or
    none of the three lines after the line of groups holds "%" or a key
    word of respondents, or no competence is resolved. *)
Theorem rejected_unit_contributes_nothing :
  forall (fs : CSV.fichiers) (c : CSV.config) (lignes : CSV.grille),
    fs (CSV.nomFichier c) = CSV.Lu lignes ->
    (forall cellule,
       cellule ∈ default [] (lignes !! 0) ->
       celluleContient (jeton (CSV.niveau c) (CSV.matiere c)) cellule = false)
    \/ (forall i l, 2 <= i <= 9 -> lignes !! i = Some l ->
                    ligneContient (js "satisfaisant") l = false)
    \/ (exists g,
          CSV.trouverLigneGroupes lignes = Some g
          /\ forall i l, g + 1 <= i <= g + 3 -> lignes !! i = Some l ->
               ligneContient (js "%") l = false
               /\ ligneContient (js "répondants") l = false
               /\ ligneContient (js "repondants") l = false)
    \/ (exists g p,
          CSV.trouverLigneGroupes lignes = Some g
          /\ CSV.trouverLignePourcentages lignes g = Some p
          /\ (CSV.extraireCompetences (default [] (lignes !! 2))
                                      (default [] (lignes !! g))
                                      (default [] (lignes !! p))).1 = []) ->
    (CSV.chargerFichierCSV fs (CSV.nomFichier c) (CSV.niveau c)
                           (CSV.matiere c)).1 = []
    /\ (CSV.chargerFichierCSV fs (CSV.nomFichier c) (CSV.niveau c)
                              (CSV.matiere c)).2 <> []
    /\ forall avant apres,
         (CSV.loadEcolesDe (avant ++ c :: apres) fs).1
         = (CSV.loadEcolesDe (avant ++ apres) fs).1.
Proof.
  intros fs c lignes Hfs Hcas.
  assert (Hrej :
    (CSV.chargerFichierCSV fs (CSV.nomFichier c) (CSV.niveau c)
                           (CSV.matiere c)).1 = []
    /\ (CSV.chargerFichierCSV fs (CSV.nomFichier c) (CSV.niveau c)
                              (CSV.matiere c)).2 <> []).
  { unfold CSV.chargerFichierCSV. rewrite Hfs.
    pose proof (validerIdentification_jeton (lignes !! 0) (CSV.niveau c)
                                            (CSV.matiere c)) as Hid.
    destruct (CSV.validerIdentification _ _ _) as [valide w0].
    cbn [fst] in Hid. destruct valide; cbn [negb].
    2:{ split; [done|]. by destruct w0. }
    destruct (CSV.trouverLigneGroupes lignes) as [g|] eqn:Hg; [|done].
    destruct (CSV.trouverLignePourcentages lignes g) as [p|] eqn:Hp; [|done].
    destruct (CSV.extraireCompetences _ _ _) as [comps w] eqn:Hc.
    destruct comps as [|comp comps]; [split; [done|by destruct w]|].
    exfalso. destruct Hcas as [HA|[HB|[(g' & Hg' & HC)|(g' & p' & Hg' & Hp' & HD)]]].
    - destruct (lignes !! 0) as [l|]; [|done].
      symmetry in Hid. unfold ligneContient in Hid.
      apply not_false_iff_true in Hid. apply Hid.
      apply existsb_false_iff. exact HA.
    - rewrite trouverLigneGroupes_None in Hg by done. done.
    - assert (g' = g) as -> by congruence.
      rewrite trouverLignePourcentages_None in Hp by done. done.
    - assert (g' = g) as -> by congruence.
      assert (p' = p) as -> by congruence.
      rewrite Hc in HD. done. }
  destruct Hrej as [H1 H2]. split; [done|]. split; [done|].
  intros avant apres. by apply loadEcolesDe_skip.
Qed.

(** The theorem on a file of CP French whose first line names CE1
    mathematics. *)
Lemma rejected_unit_contributes_nothing_witness :
  (CSV.chargerFichierCSV
     (Exemples.unFichier Exemples.cpfr Exemples.grilleAutreUnite)
     (CSV.nomFichier Exemples.cpfr) (CSV.niveau Exemples.cpfr)
     (CSV.matiere Exemples.cpfr)).1 = [].
Proof.
  refine (proj1 (rejected_unit_contributes_nothing
                   (Exemples.unFichier Exemples.cpfr Exemples.grilleAutreUnite)
                   Exemples.cpfr Exemples.grilleAutreUnite _ _)).
  - vm_compute; reflexivity.
  - left. intros cellule Hin.
    apply list_elem_of_In in Hin. destruct Hin as [<-|[]].
    vm_compute; reflexivity.
Defined.

(** A file that does not exist is reported by a warning; a file that
    cannot be read or parsed ends in the [catch], which warns nothing.
    Neither gives a school. *)
Example fichier_absent_ou_illisible (nomF niv mat : jsstring) :
  CSV.chargerFichierCSV (fun _ => CSV.Absent) nomF niv mat
  = ([], [CSV.FichierNonTrouve nomF])
  /\ CSV.chargerFichierCSV (fun _ => CSV.Illisible) nomF niv mat = ([], []).
Proof. split; reflexivity. Qed.

(** ** Where a stored value comes from *)

Lemma mapGet_elem (u : jsstring) (m : ecolesMap) (r : ecole) :
  mapGet u m = Some r -> (u, r) ∈ m.
Proof.
  induction m as [|[k v] m IH]; simpl; [done|].
  destruct (decide (u = k)) as [->|].
  - intros [= ->]. left.
  - intros H. right. by apply IH.
Qed.

Lemma mapSet_elem (k : jsstring) (v : ecole) (m : ecolesMap) p :
  p ∈ mapSet k v m -> p = (k, v) \/ p ∈ m.
Proof.
  induction m as [|[k' v'] m IH]; simpl.
  - intros ->%list_elem_of_singleton. by left.
  - destruct (decide (k = k')).
    + intros [->|H]%elem_of_cons; [by left|]. right. by right.
    + intros [->|H]%elem_of_cons; [right; left|].
      apply IH in H as [->|H]; [by left|]. right. by right.
Qed.

Lemma fusionnerEcole_entrees P (m : ecolesMap) (e : ecole) :
  entreesVerifient P m ->
  (forall k y, resultats e !! k = Some y -> P k y) ->
  entreesVerifient P (CSV.fusionnerEcole m e).
Proof.
  intros Hm He u r k y Hin Hk.
  destruct (mapGet (uai e) m) as [r0|] eqn:Hget.
  - rewrite (fusionnerEcole_present _ _ _ Hget) in Hin.
    apply mapSet_elem in Hin as [[= -> ->]|Hin]; [|by eapply Hm].
    simpl in Hk. unfold objectAssign in Hk.
    apply lookup_union_Some_raw in Hk as [Hk|[_ Hk]]; [by apply He|].
    eapply Hm; [|done]. by apply mapGet_elem.
  - rewrite (fusionnerEcole_absent _ _ Hget) in Hin.
    apply elem_of_app in Hin as [Hin|Hin]; [by eapply Hm|].
    apply list_elem_of_singleton in Hin. injection Hin as -> ->.
    by apply He.
Qed.

Lemma fusions_entrees P (l : list ecole) (m : ecolesMap) :
  entreesVerifient P m ->
  (forall e k y, e ∈ l -> resultats e !! k = Some y -> P k y) ->
  entreesVerifient P (fold_left CSV.fusionnerEcole l m).
Proof.
  revert m. induction l as [|e l IH]; intros m Hm Hl; simpl; [done|].
  apply IH.
  - apply fusionnerEcole_entrees; [done|]. intros k y. apply Hl. left.
  - intros e' k y Hin. apply Hl. by right.
Qed.

(** The schools of a file are schools of lines of the file. *)
Lemma chargerFichierCSV_source fs nomF niv mat e :
  e ∈ (CSV.chargerFichierCSV fs nomF niv mat).1 ->
  exists lignes comps n,
    fs nomF = CSV.Lu lignes
    /\ e ∈ CSV.extraireEcoles (drop n lignes) comps niv mat.
Proof.
  unfold CSV.chargerFichierCSV.
  destruct (fs nomF) as [| |lignes]; [by intros ?%elem_of_nil..|].
  destruct (CSV.validerIdentification _ _ _) as [valide w0].
  destruct valide; cbn [negb]; [|by intros ?%elem_of_nil].
  destruct (CSV.trouverLigneGroupes lignes) as [g|]; [|by intros ?%elem_of_nil].
  destruct (CSV.trouverLignePourcentages lignes g) as [p|];
    [|by intros ?%elem_of_nil].
  destruct (CSV.extraireCompetences _ _ _) as [comps w].
  destruct comps as [|comp comps]; [by intros ?%elem_of_nil|].
  cbn [fst]. intros H.
  by exists lignes, (comp :: comps), (CSV.trouverPremiereEcole lignes p).
Qed.

(** A value of a school of a file is read in a line of the file from the
    first school line on, whose identifier is the school's, in the column
    of a competence of line 3 that names the key. *)
Lemma chargerFichierCSV_origine fs nomF niv mat e k y :
  e ∈ (CSV.chargerFichierCSV fs nomF niv mat).1 ->
  resultats e !! k = Some y ->
  exists lignes g p comp i l,
    fs nomF = CSV.Lu lignes
    /\ CSV.trouverLigneGroupes lignes = Some g
    /\ CSV.trouverLignePourcentages lignes g = Some p
    /\ comp ∈ (CSV.extraireCompetences (default [] (lignes !! 2))
                                       (default [] (lignes !! g))
                                       (default [] (lignes !! p))).1
    /\ CSV.trouverPremiereEcole lignes p <= i
    /\ lignes !! i = Some l
    /\ identifiant l = uai e
    /\ k = CSV.cleCompetence niv mat (CSV.comp_nom comp)
    /\ CSV.parsePourcentage (l !! CSV.colonne comp) = Some y.
Proof.
  unfold CSV.chargerFichierCSV.
  destruct (fs nomF) as [| |lignes]; [by intros ?%elem_of_nil..|].
  destruct (CSV.validerIdentification _ _ _) as [valide w0].
  destruct valide; cbn [negb]; [|by intros ?%elem_of_nil].
  destruct (CSV.trouverLigneGroupes lignes) as [g|] eqn:Hg;
    [|by intros ?%elem_of_nil].
  destruct (CSV.trouverLignePourcentages lignes g) as [p|] eqn:Hpc;
    [|by intros ?%elem_of_nil].
  destruct (CSV.extraireCompetences _ _ _) as [comps w] eqn:Hc.
  destruct comps as [|comp0 comps]; [by intros ?%elem_of_nil|].
  cbn [fst]. intros He Hk.
  destruct (extraireEcoles_entry _ _ _ _ _ _ _ He Hk)
    as (l & comp & Hl & Hcomp & Hu & -> & Hp).
  apply list_elem_of_lookup in Hl as [j Hj]. rewrite lookup_drop in Hj.
  exists lignes, g, p, comp, (CSV.trouverPremiereEcole lignes p + j), l.
  split; [done|]. split; [done|]. split; [done|].
  split; [by rewrite Hc|]. split; [lia|]. split; [done|]. split; [by rewrite Hu|]. split; [done|done].
Qed.

Section Origine.

Variable P : jsstring -> jsstring -> float -> Prop.

(** Every record is filed under its own identifier, and every entry of
    every record satisfies [P] with that identifier. *)
Let issu (m : ecolesMap) : Prop :=
  forall u r, (u, r) ∈ m ->
    uai r = u /\ forall k y, resultats r !! k = Some y -> P u k y.

Lemma fusionnerEcole_issu (m : ecolesMap) (e : ecole) :
  issu m ->
  (forall k y, resultats e !! k = Some y -> P (uai e) k y) ->
  issu (CSV.fusionnerEcole m e).
Proof.
  intros Hm He u r Hin.
  destruct (mapGet (uai e) m) as [r0|] eqn:Hget.
  - rewrite (fusionnerEcole_present _ _ _ Hget) in Hin.
    apply mapSet_elem in Hin as [[= -> ->]|Hin]; [|by apply Hm].
    apply mapGet_elem, Hm in Hget as [Hu H0]. split; [done|].
    intros k y Hk. simpl in Hk. unfold objectAssign in Hk.
    apply lookup_union_Some_raw in Hk as [Hk|[_ Hk]]; [by apply He|].
    by apply H0.
  - rewrite (fusionnerEcole_absent _ _ Hget) in Hin.
    apply elem_of_app in Hin as [Hin|Hin]; [by apply Hm|].
    apply list_elem_of_singleton in Hin. injection Hin as -> ->.
    split; [done|]. exact He.
Qed.

Lemma fusions_issu (l : list ecole) (m : ecolesMap) :
  issu m ->
  (forall e k y, e ∈ l -> resultats e !! k = Some y -> P (uai e) k y) ->
  issu (fold_left CSV.fusionnerEcole l m).
Proof.
  revert m. induction l as [|e l IH]; intros m Hm Hl; simpl; [done|].
  apply IH.
  - apply fusionnerEcole_issu; [done|]. intros k y. apply Hl. left.
  - intros e' k y Hin. apply Hl. by right.
Qed.

Lemma chargerConfigs_issu fs (cfgs : list CSV.config) acc :
  (forall c e k y,
     c ∈ cfgs ->
     e ∈ (CSV.chargerFichierCSV fs (CSV.nomFichier c) (CSV.niveau c)
                                (CSV.matiere c)).1 ->
     resultats e !! k = Some y -> P (uai e) k y) ->
  issu acc.1 ->
  issu (fold_left (CSV.chargerConfig fs) cfgs acc).1.
Proof.
  revert acc. induction cfgs as [|c cfgs IH]; intros acc HP Hacc; simpl;
    [done|].
  apply IH.
  - intros c' e k y Hc'. apply HP. by right.
  - rewrite chargerConfig_fst. apply fusions_issu; [done|].
    intros e k y. apply HP. left.
Qed.

Lemma loadEcolesDe_issu fs (cfgs : list CSV.config) e k y :
  (forall c e k y,
     c ∈ cfgs ->
     e ∈ (CSV.chargerFichierCSV fs (CSV.nomFichier c) (CSV.niveau c)
                                (CSV.matiere c)).1 ->
     resultats e !! k = Some y -> P (uai e) k y) ->
  e ∈ (CSV.loadEcolesDe cfgs fs).1 ->
  resultats e !! k = Some y -> P (uai e) k y.
Proof.
  intros HP He Hk.
  rewrite loadEcolesDe_fst in He. unfold mapValues in He.
  apply list_elem_of_In, in_map_iff in He as ([u r] & <- & Hin).
  apply list_elem_of_In in Hin.
  destruct (chargerConfigs_issu fs cfgs ([], []) HP) with (u := u) (r := r)
    as [Hu Hr]; [by intros ? ? ?%elem_of_nil|done|].
  simpl. rewrite Hu. by apply Hr.
Qed.

End Origine.

(** C9, amended: every value stored in the results of a school comes from
    a cell of a data line of the file of a configuration: a line at or
    after the first school line [trouverPremiereEcole] returns, in a file
    in which the line of the groups and the line of the percentages were
    found, whose identifier (its first cell, trimmed) is the school's; the
    cell is in the column resolved for a competence of line 3, and the key
    is the key of that competence. The value is what [parsePourcentage]
    returns for that cell, that is, with [x] the number read in the cell
    (never [NaN]), [x * 100] when [0 < x < 1] and [x] itself otherwise; it
    is a number (never [NaN]). No bound is applied to it. *)
Theorem stored_percentage_is_parsed_cell :
  forall (cfgs : list CSV.config) (fs : CSV.fichiers)
         (e : ecole) (k : jsstring) (y : float),
    e ∈ (CSV.loadEcolesDe cfgs fs).1 ->
    resultats e !! k = Some y ->
    exists c lignes g p comp i l v,
      c ∈ cfgs /\ fs (CSV.nomFichier c) = CSV.Lu lignes
      /\ CSV.trouverLigneGroupes lignes = Some g
      /\ CSV.trouverLignePourcentages lignes g = Some p
      /\ comp ∈ (CSV.extraireCompetences (default [] (lignes !! 2))
                                         (default [] (lignes !! g))
                                         (default [] (lignes !! p))).1
      /\ CSV.trouverPremiereEcole lignes p <= i
      /\ lignes !! i = Some l
      /\ identifiant l = uai e
      /\ k = CSV.cleCompetence (CSV.niveau c) (CSV.matiere c)
                               (CSV.comp_nom comp)
      /\ l !! CSV.colonne comp = Some v
      /\ CSV.parsePourcentage (Some v) = Some y
      /\ isNaN (nombreLu v) = false
      /\ y = (if PrimFloat.ltb 0 (nombreLu v) && PrimFloat.ltb (nombreLu v) 1
              then PrimFloat.mul (nombreLu v) 100 else nombreLu v)
      /\ isNaN y = false.
Proof.
  intros cfgs fs e k y He Hk.
  refine (loadEcolesDe_issu
            (fun u k y => exists c lignes g p comp i l v,
               c ∈ cfgs /\ fs (CSV.nomFichier c) = CSV.Lu lignes
               /\ CSV.trouverLigneGroupes lignes = Some g
               /\ CSV.trouverLignePourcentages lignes g = Some p
               /\ comp ∈ (CSV.extraireCompetences
                            (default [] (lignes !! 2))
                            (default [] (lignes !! g))
                            (default [] (lignes !! p))).1
               /\ CSV.trouverPremiereEcole lignes p <= i
               /\ lignes !! i = Some l
               /\ identifiant l = u
               /\ k = CSV.cleCompetence (CSV.niveau c) (CSV.matiere c)
                                        (CSV.comp_nom comp)
               /\ l !! CSV.colonne comp = Some v
               /\ CSV.parsePourcentage (Some v) = Some y
               /\ isNaN (nombreLu v) = false
               /\ y = (if PrimFloat.ltb 0 (nombreLu v)
                          && PrimFloat.ltb (nombreLu v) 1
                       then PrimFloat.mul (nombreLu v) 100 else nombreLu v)
               /\ isNaN y = false)
            fs cfgs e k y _ He Hk).
  clear. intros c e k y Hc He Hk.
  destruct (chargerFichierCSV_origine _ _ _ _ _ _ _ He Hk)
    as (lignes & g & p & comp & i & l & Hfs & Hg & Hp & Hcomp & Hi & Hl
        & Hu & -> & Hy).
  destruct (parsePourcentage_Some _ _ Hy)
    as (v & x & Hv & _ & -> & Hnan & Hyx & Hynan).
  exists c, lignes, g, p, comp, i, l, v. rewrite <- Hv.
  split; [done|]. split; [done|]. split; [done|]. split; [done|].
  split; [done|]. split; [done|]. split; [done|]. split; [done|].
  split; [done|]. split; [done|]. split; [done|]. split; [done|].
  split; [done|done].
Qed.

(** The theorem on the value 62.5 of the scenario, read from "62,5" in
    column 5 of line 11, the line of school 0070116N. *)
Lemma stored_percentage_is_parsed_cell_witness :
  exists c lignes g p comp i l v,
    c ∈ [Exemples.cpfr]
    /\ Exemples.unFichier Exemples.cpfr
         (Exemples.grilleSimple Exemples.cpfr Exemples.ligneEcole)
         (CSV.nomFichier c) = CSV.Lu lignes
    /\ CSV.trouverLigneGroupes lignes = Some g
    /\ CSV.trouverLignePourcentages lignes g = Some p
    /\ comp ∈ (CSV.extraireCompetences (default [] (lignes !! 2))
                                       (default [] (lignes !! g))
                                       (default [] (lignes !! p))).1
    /\ CSV.trouverPremiereEcole lignes p <= i
    /\ lignes !! i = Some l
    /\ identifiant l = uai Exemples.ecoleFrancais
    /\ Exemples.cleLecture
       = CSV.cleCompetence (CSV.niveau c) (CSV.matiere c) (CSV.comp_nom comp)
    /\ l !! CSV.colonne comp = Some v
    /\ CSV.parsePourcentage (Some v) = Some 62.5%float
    /\ isNaN (nombreLu v) = false
    /\ 62.5%float
       = (if PrimFloat.ltb 0 (nombreLu v) && PrimFloat.ltb (nombreLu v) 1
          then PrimFloat.mul (nombreLu v) 100 else nombreLu v)
    /\ isNaN 62.5%float = false.
Proof.
  refine (stored_percentage_is_parsed_cell
            [Exemples.cpfr]
            (Exemples.unFichier Exemples.cpfr
               (Exemples.grilleSimple Exemples.cpfr Exemples.ligneEcole))
            Exemples.ecoleFrancais Exemples.cleLecture 62.5%float _ _).
  - dans_la_liste.
  - vm_compute; reflexivity.
Defined.

(** C9, as stated, fails: a cell "105" in the column of the competence is
    stored as 105, which is above 100. *)
Lemma stored_percentage_above_100 :
  (CSV.loadEcoles
     (Exemples.unFichier Exemples.cpfr
        (Exemples.grilleSimple Exemples.cpfr Exemples.ligneEcole105))).1
  = [Ecole (js "0070116N") (js "Ecole Test")
           {[ Exemples.cleLecture := 105%float ]}]
  /\ PrimFloat.leb 105 100 = false.
Proof. split; vm_compute; reflexivity. Qed.

(** ** The end-to-end scenario *)

Lemma cleCompetence_lecture (niv mat : jsstring) :
  CSV.cleCompetence niv mat Exemples.lecture
  = niv ++ js "_" ++ mat ++ js "_" ++ js "Lecture_de_mots_10_points".
Proof.
  unfold CSV.cleCompetence.
  by replace (CSV.normaliserNomCompetence Exemples.lecture)
    with (js "Lecture_de_mots_10_points") by (vm_compute; reflexivity).
Qed.

Lemma scenario_ecoles (niv mat : jsstring) :
  CSV.extraireEcoles [Exemples.ligneEcole] [CSV.Competence Exemples.lecture 5]
                     niv mat
  = [Ecole (js "0070116N") (js "Ecole Test")
           {[ niv ++ js "_" ++ mat ++ js "_" ++ js "Lecture_de_mots_10_points"
              := 62.5%float ]}].
Proof.
  unfold CSV.extraireEcoles. cbn [flat_map]. rewrite app_nil_r.
  unfold CSV.extraireEcole.
  replace (trim (default [] (Exemples.ligneEcole !! 0))) with (js "0070116N")
    by (vm_compute; reflexivity).
  replace (trim (default [] (Exemples.ligneEcole !! 1))) with (js "Ecole Test")
    by (vm_compute; reflexivity).
  replace (CSV.ligneIgnoree (js "0070116N")) with false
    by (vm_compute; reflexivity).
  unfold CSV.resultatsLigne. cbn [fold_left CSV.colonne CSV.comp_nom].
  replace (CSV.parsePourcentage (Exemples.ligneEcole !! 5))
    with (Some 62.5%float) by (vm_compute; reflexivity).
  rewrite cleCompetence_lecture. unfold affecter.
  rewrite decide_False.
  - rewrite insert_empty, map_size_singleton. reflexivity.
  - intros H. apply (f_equal length) in H. rewrite !length_app in H.
    change (length (js "_")) with 1 in H.
    change (length (js "Lecture_de_mots_10_points")) with 25 in H.
    change (length (js "__proto__")) with 9 in H. lia.
Qed.

Lemma lookup_scenario ligne1 l1 l3 l4 l5 l8 l9 l10 donnees :
  let g := Exemples.grilleScenario ligne1 l1 l3 l4 l5 l8 l9 l10 donnees in
  g !! 0 = Some ligne1 /\ g !! 2 = Some Exemples.ligne3Lecture
  /\ g !! 3 = Some l3 /\ g !! 4 = Some l4 /\ g !! 5 = Some l5
  /\ g !! 6 = Some (Exemples.groupesEn 4)
  /\ g !! 7 = Some (Exemples.pourcentEn 5)
  /\ g !! 8 = Some l8 /\ g !! 9 = Some l9 /\ g !! 10 = Some l10
  /\ g !! 11 = Some donnees /\ length g = 12
  /\ drop 11 g = [donnees].
Proof. repeat split. Qed.

(** C1: on a grid of twelve lines whose first line holds the token of
    the source unit, whose line of index 2 holds the title "Lecture de
    mots (10 points)" in column 2 of columns 2 to 5, whose line of index 6
    holds "Groupe satisfaisant" in column 4, whose line of index 7 holds
    "%" in column 5 and whose line of index 11 is the school
    ["0070116N"; "Ecole Test"; "12"; "3"; "5,5"; "62,5"], the other lines
    holding neither the group label (lines 3 to 5) nor a school (lines 8
    to 10), [chargerFichierCSV] returns one school, "0070116N", whose
    results hold 62.5 under the key of the level, the subject and
    "Lecture_de_mots_10_points", and gives no warning. *)
Theorem end_to_end_scenario :
  forall (fs : CSV.fichiers) (nomF niv mat : jsstring)
         (ligne1 l1 l3 l4 l5 l8 l9 l10 : CSV.ligne),
    fs nomF = CSV.Lu (Exemples.grilleScenario ligne1 l1 l3 l4 l5 l8 l9 l10
                                            Exemples.ligneEcole) ->
    ligneContient (jeton niv mat) ligne1 = true ->
    ligneContient (js "satisfaisant") l3 = false ->
    ligneContient (js "satisfaisant") l4 = false ->
    ligneContient (js "satisfaisant") l5 = false ->
    ~ ligneEcoleValide l8 -> ~ ligneEcoleValide l9 -> ~ ligneEcoleValide l10 ->
    CSV.chargerFichierCSV fs nomF niv mat
    = ([Ecole (js "0070116N") (js "Ecole Test")
              {[ niv ++ js "_" ++ mat ++ js "_"
                     ++ js "Lecture_de_mots_10_points" := 62.5%float ]}],
       []).
Proof.
  intros fs nomF niv mat ligne1 l1 l3 l4 l5 l8 l9 l10
         Hfs Hid H3 H4 H5 H8 H9 H10.
  destruct (lookup_scenario ligne1 l1 l3 l4 l5 l8 l9 l10 Exemples.ligneEcole)
    as (G0 & G2 & G3 & G4 & G5 & G6 & G7 & G8 & G9 & G10 & G11 & Glen & Gdrop).
  set (g := Exemples.grilleScenario _ _ _ _ _ _ _ _ _) in *.
  assert (Hg : CSV.trouverLigneGroupes g = Some 6).
  { apply premierIndice_first.
    - rewrite Glen. simpl. lia.
    - unfold CSV.contientGroupe. rewrite G6. vm_compute; reflexivity.
    - intros j Hj. unfold CSV.contientGroupe.
      assert (j = 2 \/ j = 3 \/ j = 4 \/ j = 5) as [-> | [-> | [-> | ->]]] by lia.
      + rewrite G2. vm_compute; reflexivity.
      + by rewrite G3, contient_satisfaisant.
      + by rewrite G4, contient_satisfaisant.
      + by rewrite G5, contient_satisfaisant. }
  assert (Hp : CSV.trouverLignePourcentages g 6 = Some 7).
  { apply premierIndice_first.
    - rewrite Glen. simpl. lia.
    - unfold CSV.contientPourcentage. rewrite G7. vm_compute; reflexivity.
    - intros j Hj. lia. }
  assert (He : CSV.trouverPremiereEcole g 7 = 11).
  { unfold CSV.trouverPremiereEcole.
    rewrite (premierIndice_first _ _ _ 11); [done| | |].
    - rewrite Glen. simpl. lia.
    - unfold CSV.estLigneEcoleA. rewrite G11. vm_compute; reflexivity.
    - intros j Hj. apply estLigneEcoleA_false. intros (l & Hl & Hv).
      assert (j = 8 \/ j = 9 \/ j = 10) as [-> | [-> | ->]] by lia; congruence. }
  unfold CSV.chargerFichierCSV. rewrite Hfs, G0.
  rewrite (validerIdentification_true (Some ligne1) niv mat)
    by (by rewrite validerIdentification_jeton).
  cbn [negb]. rewrite Hg, Hp, G2, G6, G7. cbn [default].
  replace (CSV.extraireCompetences _ _ _)
    with ([CSV.Competence Exemples.lecture 5], @nil CSV.avertissement)
    by (vm_compute; reflexivity).
  rewrite He, Gdrop, scenario_ecoles. reflexivity.
Qed.

(** The theorem on the file of CP French, with blank lines between the
    lines of the scenario. *)
Lemma end_to_end_scenario_witness :
  CSV.chargerFichierCSV
    (Exemples.unFichier Exemples.cpfr
       (Exemples.grilleSimple Exemples.cpfr Exemples.ligneEcole))
    (CSV.nomFichier Exemples.cpfr) (js "CP") (js "francais")
  = ([Ecole (js "0070116N") (js "Ecole Test")
            {[ js "CP" ++ js "_" ++ js "francais" ++ js "_"
                  ++ js "Lecture_de_mots_10_points" := 62.5%float ]}],
     []).
Proof.
  refine (end_to_end_scenario
            (Exemples.unFichier Exemples.cpfr
               (Exemples.grilleSimple Exemples.cpfr Exemples.ligneEcole))
            (CSV.nomFichier Exemples.cpfr) (js "CP") (js "francais")
            [js "Evaluation " ++ CSV.prefix Exemples.cpfr]
            [] [] [] [] [] [] [] _ _ _ _ _ _ _ _).
  - vm_compute; reflexivity.
  - vm_compute; reflexivity.
  - reflexivity.
  - reflexivity.
  - reflexivity.
  - intros (H & _). vm_compute in H. lia.
  - intros (H & _). vm_compute in H. lia.
  - intros (H & _). vm_compute in H. lia.
Defined.

(** * Further properties of the services *)

(** ** The header rows of a CSV file *)

(** X1: [trouverLigneGroupes] returns the first line among the lines of
    index 2 to 9 of which a cell holds "satisfaisant", in any case of
    letters; it returns no line exactly when none of these lines holds
    it. *)
Theorem trouverLigneGroupes_first_labelled_row (lignes : CSV.grille) :
  match CSV.trouverLigneGroupes lignes with
  | Some i =>
    2 <= i <= 9
    /\ ligneVerifie (fun l => ligneContient (js "satisfaisant") l = true) lignes i
    /\ forall j l, 2 <= j < i -> lignes !! j = Some l ->
                   ligneContient (js "satisfaisant") l = false
  | None =>
    forall j l, 2 <= j <= 9 -> lignes !! j = Some l ->
                ligneContient (js "satisfaisant") l = false
  end.
Proof.
  unfold CSV.trouverLigneGroupes.
  destruct (premierIndice _ _ _) as [i|] eqn:H.
  - apply premierIndice_Some in H as (Hi & Hp & Hmin).
    unfold CSV.contientGroupe in Hp.
    destruct (lignes !! i) as [l|] eqn:Hl; [|done].
    rewrite contient_satisfaisant in Hp.
    split; [lia|]. split; [by exists l|].
    intros j l' Hj Hl'. specialize (Hmin j ltac:(lia)).
    unfold CSV.contientGroupe in Hmin. rewrite Hl' in Hmin.
    by rewrite contient_satisfaisant in Hmin.
  - rewrite premierIndice_None in H. intros j l Hj Hl.
    assert (j < length lignes) by (apply lookup_lt_is_Some; eauto).
    specialize (H j ltac:(lia)).
    unfold CSV.contientGroupe in H. rewrite Hl in H.
    by rewrite contient_satisfaisant in H.
Qed.

(** X2: [trouverLignePourcentages] returns the first of the three lines
    after the line of the groups of which a cell holds a percentage marker
    ("%", "répondants" or "repondants"); it returns no line exactly when
    none of the three holds one. *)
Theorem trouverLignePourcentages_first_marked_row (lignes : CSV.grille) (g : nat) :
  match CSV.trouverLignePourcentages lignes g with
  | Some i =>
    g < i <= g + 3
    /\ ligneVerifie (fun l => ligneMarquee l = true) lignes i
    /\ forall j l, g < j < i -> lignes !! j = Some l -> ligneMarquee l = false
  | None =>
    forall j l, g < j <= g + 3 -> lignes !! j = Some l -> ligneMarquee l = false
  end.
Proof.
  unfold CSV.trouverLignePourcentages, ligneMarquee.
  destruct (premierIndice _ _ _) as [i|] eqn:H.
  - apply premierIndice_Some in H as (Hi & Hp & Hmin).
    unfold CSV.contientPourcentage in Hp.
    destruct (lignes !! i) as [l|] eqn:Hl; [|done].
    rewrite contient_pourcentage in Hp.
    split; [lia|]. split; [by exists l|].
    intros j l' Hj Hl'. specialize (Hmin j ltac:(lia)).
    unfold CSV.contientPourcentage in Hmin. rewrite Hl' in Hmin.
    by rewrite contient_pourcentage in Hmin.
  - rewrite premierIndice_None in H. intros j l Hj Hl.
    assert (j < length lignes) by (apply lookup_lt_is_Some; eauto).
    specialize (H j ltac:(lia)).
    unfold CSV.contientPourcentage in H. rewrite Hl in H.
    by rewrite contient_pourcentage in H.
Qed.

Lemma jeton_prefix (c : CSV.config) :
  c ∈ CSV.configs ->
  jeton (CSV.niveau c) (CSV.matiere c) = js "evaluation " ++ CSV.prefix c.
Proof.
  intros Hc. apply list_elem_of_In in Hc. simpl in Hc.
  repeat (destruct Hc as [<-|Hc]; [vm_compute; reflexivity|]). done.
Qed.

(** X3: for each of the ten configurations, [validerIdentification]
    accepts a file exactly when a cell of its first line holds, in any case
    of letters, "evaluation " followed by the prefix of the file name; when
    it refuses a first line that has cells, the warning names that text. *)
Theorem validerIdentification_file_prefix (c : CSV.config)
        (ligne1 : option CSV.ligne) :
  c ∈ CSV.configs ->
  ((CSV.validerIdentification ligne1 (CSV.niveau c) (CSV.matiere c)).1 = true
   <-> exists l cellule,
         ligne1 = Some l /\ cellule ∈ l
         /\ includes (toLowerCase cellule) (js "evaluation " ++ CSV.prefix c)
            = true)
  /\ ((CSV.validerIdentification ligne1 (CSV.niveau c) (CSV.matiere c)).2 = []
      \/ (CSV.validerIdentification ligne1 (CSV.niveau c) (CSV.matiere c))
         = (false, [CSV.PatternAttendu (js "evaluation " ++ CSV.prefix c)])).
Proof.
  intros Hc. split.
  - rewrite validerIdentification_jeton, (jeton_prefix c Hc).
    destruct ligne1 as [l|].
    + unfold ligneContient. rewrite existsb_exists. split.
      * intros (x & Hx & Hin). exists l, x. by rewrite list_elem_of_In.
      * intros (l' & x & [= <-] & Hx & Hin). exists x. by rewrite <- list_elem_of_In.
    + split; [done|]. by intros (? & ? & ? & _).
  - pose proof (jeton_prefix c Hc) as Hj. unfold jeton in Hj.
    unfold CSV.validerIdentification.
    destruct ligne1 as [[|x l]|]; [by left| |by left].
    cbv zeta. rewrite Hj.
    destruct (contient _ _); [by left|by right].
Qed.

Lemma validerIdentification_file_prefix_witness :
  ((CSV.validerIdentification (Some [js "Evaluation CPFR 2025"])
      (CSV.niveau Exemples.cpfr) (CSV.matiere Exemples.cpfr)).1 = true
   <-> exists l cellule,
         Some [js "Evaluation CPFR 2025"] = Some l /\ cellule ∈ l
         /\ includes (toLowerCase cellule)
                     (js "evaluation " ++ CSV.prefix Exemples.cpfr) = true)
  /\ ((CSV.validerIdentification (Some [js "Evaluation CPFR 2025"])
         (CSV.niveau Exemples.cpfr) (CSV.matiere Exemples.cpfr)).2 = []
      \/ (CSV.validerIdentification (Some [js "Evaluation CPFR 2025"])
            (CSV.niveau Exemples.cpfr) (CSV.matiere Exemples.cpfr))
         = (false, [CSV.PatternAttendu
                      (js "evaluation " ++ CSV.prefix Exemples.cpfr)])).
Proof.
  apply (validerIdentification_file_prefix Exemples.cpfr).
  apply list_elem_of_In; vm_compute; tauto.
Defined.

(** X4: a school that [chargerFichierCSV] returns comes from a file that
    exists, whose first line holds the token of the unit, in which the line
    of the groups and then the line of the percentages were found, and of
    which line 3 gave a competence at least; the school is read from the
    lines from [trouverPremiereEcole] on, and the only warnings are those
    of [extraireCompetences]. *)
Theorem chargerFichierCSV_schools_from_validated_file
        (fs : CSV.fichiers) (nomF niv mat : jsstring) (e : ecole) :
  e ∈ (CSV.chargerFichierCSV fs nomF niv mat).1 ->
  exists lignes ligne1 g p,
    fs nomF = CSV.Lu lignes
    /\ lignes !! 0 = Some ligne1
    /\ ligneContient (jeton niv mat) ligne1 = true
    /\ CSV.trouverLigneGroupes lignes = Some g
    /\ CSV.trouverLignePourcentages lignes g = Some p
    /\ 2 <= g < p
    /\ (let r := CSV.extraireCompetences (default [] (lignes !! 2))
                                         (default [] (lignes !! g))
                                         (default [] (lignes !! p)) in
        r.1 <> []
        /\ e ∈ CSV.extraireEcoles
                 (drop (CSV.trouverPremiereEcole lignes p) lignes) r.1 niv mat
        /\ (CSV.chargerFichierCSV fs nomF niv mat).2 = r.2).
Proof.
  unfold CSV.chargerFichierCSV.
  destruct (fs nomF) as [| |lignes] eqn:Hfs; cbn [fst].
  1,2: by intros H; apply elem_of_nil in H.
  pose proof (validerIdentification_jeton (lignes !! 0) niv mat) as Hj.
  destruct (CSV.validerIdentification (lignes !! 0) niv mat) as [[|] w0] eqn:Hv;
    cbn [fst negb] in *.
  2:{ intros H. by apply elem_of_nil in H. }
  apply (f_equal fst) in Hv as Hv1.
  apply validerIdentification_true in Hv1. rewrite Hv in Hv1.
  injection Hv1 as ->.
  destruct (lignes !! 0) as [ligne1|] eqn:H0; [|done].
  destruct (CSV.trouverLigneGroupes lignes) as [g|] eqn:Hg; cbn [fst].
  2:{ intros H. by apply elem_of_nil in H. }
  destruct (CSV.trouverLignePourcentages lignes g) as [p|] eqn:Hp; cbn [fst].
  2:{ intros H. by apply elem_of_nil in H. }
  cbv zeta.
  destruct (CSV.extraireCompetences (default [] (lignes !! 2))
                                    (default [] (lignes !! g))
                                    (default [] (lignes !! p)))
    as [comps w] eqn:Hc.
  destruct comps as [|c comps]; cbn [fst snd].
  { intros H. by apply elem_of_nil in H. }
  intros He. exists lignes, ligne1, g, p.
  assert (2 <= g < p).
  { unfold CSV.trouverLigneGroupes in Hg.
    apply premierIndice_Some in Hg as (? & _ & _).
    unfold CSV.trouverLignePourcentages in Hp.
    apply premierIndice_Some in Hp as (? & _ & _). lia. }
  rewrite Hc. cbn [fst snd].
  split; [done|]. split; [done|]. split; [done|]. split; [done|].
  split; [done|]. split; [done|]. split; [done|]. split; [done|done].
Qed.

Lemma chargerFichierCSV_schools_from_validated_file_witness :
  exists lignes ligne1 g p,
    Exemples.unFichier Exemples.cpfr
      (Exemples.grilleSimple Exemples.cpfr Exemples.ligneEcole)
      (CSV.nomFichier Exemples.cpfr) = CSV.Lu lignes
    /\ lignes !! 0 = Some ligne1
    /\ ligneContient (jeton (CSV.niveau Exemples.cpfr)
                            (CSV.matiere Exemples.cpfr)) ligne1 = true
    /\ CSV.trouverLigneGroupes lignes = Some g
    /\ CSV.trouverLignePourcentages lignes g = Some p
    /\ 2 <= g < p
    /\ (let r := CSV.extraireCompetences (default [] (lignes !! 2))
                                         (default [] (lignes !! g))
                                         (default [] (lignes !! p)) in
        r.1 <> []
        /\ Exemples.ecoleFrancais
           ∈ CSV.extraireEcoles
               (drop (CSV.trouverPremiereEcole lignes p) lignes) r.1
               (CSV.niveau Exemples.cpfr) (CSV.matiere Exemples.cpfr)
        /\ (CSV.chargerFichierCSV
              (Exemples.unFichier Exemples.cpfr
                 (Exemples.grilleSimple Exemples.cpfr Exemples.ligneEcole))
              (CSV.nomFichier Exemples.cpfr) (CSV.niveau Exemples.cpfr)
              (CSV.matiere Exemples.cpfr)).2 = r.2).
Proof.
  apply (chargerFichierCSV_schools_from_validated_file
           (Exemples.unFichier Exemples.cpfr
              (Exemples.grilleSimple Exemples.cpfr Exemples.ligneEcole))
           (CSV.nomFichier Exemples.cpfr) (CSV.niveau Exemples.cpfr)
           (CSV.matiere Exemples.cpfr) Exemples.ecoleFrancais).
  apply list_elem_of_In; vm_compute; tauto.
Defined.

(** ** White space around a percentage *)

Lemma trimStart_blancs (a s : jsstring) :
  blancs a -> trimStart (a ++ s) = trimStart s.
Proof. induction 1 as [|c a Hc _ IH]; simpl; [done|]. by rewrite Hc. Qed.

Lemma trimStart_app (s b : jsstring) :
  trimStart (s ++ b)
  = match trimStart s with [] => trimStart b | t => t ++ b end.
Proof.
  induction s as [|c s IH]; simpl; [done|].
  destruct (isWhiteSpace c); [exact IH|done].
Qed.

Lemma trimEnd_blancs (s b : jsstring) :
  blancs b -> trimEnd (s ++ b) = trimEnd s.
Proof.
  intros Hb. unfold trimEnd. rewrite rev_app_distr, trimStart_blancs; [done|].
  by apply Forall_rev.
Qed.

Lemma trim_blancs (a s b : jsstring) :
  blancs a -> blancs b -> trim (a ++ s ++ b) = trim s.
Proof.
  intros Ha Hb. unfold trim. rewrite (trimStart_blancs a _ Ha), trimStart_app.
  destruct (trimStart s) as [|c t] eqn:Hs.
  - pose proof (trimStart_blancs b [] Hb) as H. rewrite app_nil_r in H.
    by rewrite H.
  - by apply trimEnd_blancs.
Qed.

(** X5: white space before and after the text of a cell does not change
    what [parsePourcentage] reads in it, in both services. *)
Theorem parsePourcentage_ignores_padding (a v b : jsstring) :
  blancs a -> blancs b ->
  CSV.parsePourcentage (Some (a ++ v ++ b)) = CSV.parsePourcentage (Some v)
  /\ ODS.parsePourcentage (Some (a ++ v ++ b)) = ODS.parsePourcentage (Some v).
Proof.
  intros Ha Hb.
  rewrite (parsePourcentage_same (Some (a ++ v ++ b))).
  rewrite (parsePourcentage_same (Some v)).
  enough (CSV.parsePourcentage (Some (a ++ v ++ b))
          = CSV.parsePourcentage (Some v)) as -> by done.
  destruct (decide (a ++ v ++ b = [])) as [Hnil|Hne].
  { rewrite Hnil. apply app_eq_nil in Hnil as [_ Hnil].
    apply app_eq_nil in Hnil as [-> _]. done. }
  rewrite (parsePourcentage_unfold _ Hne), (trim_blancs a v b Ha Hb).
  destruct v as [|c v]; [vm_compute; reflexivity|].
  by rewrite (parsePourcentage_unfold (c :: v)).
Qed.

Lemma parsePourcentage_ignores_padding_witness :
  CSV.parsePourcentage (Some (js "  " ++ js "50,5 %" ++ js " "))
  = CSV.parsePourcentage (Some (js "50,5 %"))
  /\ ODS.parsePourcentage (Some (js "  " ++ js "50,5 %" ++ js " "))
     = ODS.parsePourcentage (Some (js "50,5 %")).
Proof.
  apply (parsePourcentage_ignores_padding (js "  ") (js "50,5 %") (js " "));
    repeat constructor.
Defined.

(** ** The normal form of competence names *)

Lemma remplacerEspaces_sans_blanc (b : bool) (s : jsstring) :
  Forall (horsClasse []) (CSV.remplacerEspaces b s).
Proof.
  revert b. induction s as [|c s IH]; intros b; simpl; [constructor|].
  destruct (isWhiteSpace c) eqn:Hc.
  - destruct b; simpl; [apply IH|].
    constructor; [|apply IH]. split; [reflexivity|apply not_elem_of_nil].
  - constructor; [|apply IH]. split; [done|apply not_elem_of_nil].
Qed.

Lemma remplacerClasse_hors (cls L : list N) (rep s : jsstring) :
  Forall (horsClasse L) s ->
  Forall (horsClasse (cls ++ L)) rep ->
  Forall (horsClasse (cls ++ L)) (CSV.remplacerClasse cls rep s).
Proof.
  intros Hs Hrep. unfold CSV.remplacerClasse.
  induction Hs as [|c s [Hw Hc] _ IH]; simpl; [constructor|].
  apply Forall_app. split; [|exact IH].
  case_bool_decide as Hin; [exact Hrep|].
  constructor; [|constructor]. split; [done|].
  rewrite elem_of_app. tauto.
Qed.

Ltac lettres_propres :=
  repeat constructor; try (vm_compute; reflexivity);
  (intros H; apply list_elem_of_In in H; vm_compute in H; intuition discriminate).

Lemma normaliser_hors (n : jsstring) :
  Forall (horsClasse (js "'" ++ js "ç" ++ js "ùû" ++ js "ôö" ++ js "îï"
                         ++ js "àâ" ++ js "éèê" ++ js "()" ++ []))
         (CSV.normaliserNomCompetence n).
Proof.
  unfold CSV.normaliserNomCompetence, substring0.
  apply Forall_take.
  repeat (apply remplacerClasse_hors; [|lettres_propres]).
  apply remplacerEspaces_sans_blanc.
Qed.

Lemma uniteReecrite_false (c : N) :
  uniteReecrite c = false
  <-> horsClasse (js "'" ++ js "ç" ++ js "ùû" ++ js "ôö" ++ js "îï"
                     ++ js "àâ" ++ js "éèê" ++ js "()" ++ []) c.
Proof.
  unfold uniteReecrite, horsClasse.
  rewrite orb_false_iff, bool_decide_eq_false.
  split; intros [Hw Hc]; (split; [done|]); intros Hin; apply Hc;
    apply list_elem_of_In in Hin; apply list_elem_of_In;
    vm_compute in Hin; vm_compute; tauto.
Qed.

Lemma trimStart_propre (s : jsstring) :
  Forall (fun c => isWhiteSpace c = false) s -> trimStart s = s.
Proof. intros [|c r Hc _]; simpl; [done|]. by rewrite Hc. Qed.

Lemma trim_propre (s : jsstring) :
  Forall (fun c => isWhiteSpace c = false) s -> trim s = s.
Proof.
  intros H. unfold trim, trimEnd. rewrite (trimStart_propre s H).
  rewrite trimStart_propre; [apply rev_involutive|].
  by apply Forall_rev.
Qed.

Lemma remplacerEspaces_propre (s : jsstring) :
  Forall (fun c => isWhiteSpace c = false) s -> CSV.remplacerEspaces false s = s.
Proof.
  induction 1 as [|c s Hc _ IH]; simpl; [done|]. rewrite Hc. by f_equal.
Qed.

Lemma remplacerClasse_propre (cls : list N) (rep s : jsstring) :
  Forall (fun c => c ∉ cls) s -> CSV.remplacerClasse cls rep s = s.
Proof.
  unfold CSV.remplacerClasse.
  induction 1 as [|c s Hc _ IH]; simpl; [done|].
  rewrite bool_decide_eq_false_2 by done. simpl. by f_equal.
Qed.

Lemma normaliser_propre (s : jsstring) :
  nomPropre s -> CSV.normaliserNomCompetence s = s.
Proof.
  intros [Hs Hl]. unfold CSV.normaliserNomCompetence, substring0.
  assert (Hw : Forall (fun c => isWhiteSpace c = false) s).
  { eapply Forall_impl; [exact Hs|]. intros c Hc.
    by apply uniteReecrite_false in Hc as [? _]. }
  rewrite (trim_propre s Hw), (remplacerEspaces_propre s Hw).
  assert (Hcl : forall cls : list N, (forall x, x ∈ cls -> x ∈ js "()éèêàâîïôöùûç'") ->
                            Forall (fun c => c ∉ cls) s).
  { intros cls Hsub. eapply Forall_impl; [exact Hs|]. intros c Hc Hin.
    unfold uniteReecrite in Hc. apply orb_false_iff in Hc as [_ Hc].
    apply bool_decide_eq_false in Hc. by apply Hc, Hsub. }
  repeat (rewrite (remplacerClasse_propre _ _ s);
          [|apply Hcl; intros x Hx; apply list_elem_of_In in Hx;
            apply list_elem_of_In; vm_compute in Hx; vm_compute; tauto]).
  by apply take_ge.
Qed.

Lemma normaliser_nomPropre (n : jsstring) :
  nomPropre (CSV.normaliserNomCompetence n).
Proof.
  split.
  - eapply Forall_impl; [apply normaliser_hors|].
    intros c Hc. by apply uniteReecrite_false.
  - unfold CSV.normaliserNomCompetence, substring0.
    rewrite length_take. lia.
Qed.

(** X6: a name that [normaliserNomCompetence] returns has 100 code units
    at most and holds no white space, bracket, apostrophe or accented
    letter of the list; the names it leaves unchanged are exactly those, so
    normalising twice is normalising once. [OraceService] carries the same
    function. *)
Theorem normaliserNomCompetence_normal_form :
  (forall n, nomPropre (CSV.normaliserNomCompetence n))
  /\ (forall s, CSV.normaliserNomCompetence s = s <-> nomPropre s)
  /\ (forall n, CSV.normaliserNomCompetence (CSV.normaliserNomCompetence n)
                = CSV.normaliserNomCompetence n)
  /\ (forall n, ODS.normaliserNomCompetence n = CSV.normaliserNomCompetence n).
Proof.
  split; [exact normaliser_nomPropre|]. split; [|split].
  - intros s. split; [|apply normaliser_propre].
    intros <-. apply normaliser_nomPropre.
  - intros n. apply normaliser_propre, normaliser_nomPropre.
  - reflexivity.
Qed.

(** X7: two result keys of the ten configurations are equal exactly when
    they belong to the same configuration and their names normalise
    alike. *)
Theorem cleCompetence_unambiguous (c1 c2 : CSV.config) (n1 n2 : jsstring) :
  c1 ∈ CSV.configs -> c2 ∈ CSV.configs ->
  CSV.cleCompetence (CSV.niveau c1) (CSV.matiere c1) n1
  = CSV.cleCompetence (CSV.niveau c2) (CSV.matiere c2) n2
  <-> c1 = c2
      /\ CSV.normaliserNomCompetence n1 = CSV.normaliserNomCompetence n2.
Proof.
  intros H1 H2. split.
  - intros Heq. destruct (decide (c1 = c2)) as [->|Hne].
    + split; [done|]. rewrite !cleCompetence_prefixe in Heq.
      by apply app_inv_head in Heq.
    + by destruct (cles_distinctes c1 c2 n1 n2 H1 H2 Hne).
  - intros [-> Hn]. by rewrite !cleCompetence_prefixe, Hn.
Qed.

Lemma cleCompetence_unambiguous_witness :
  CSV.cleCompetence (CSV.niveau Exemples.cpfr) (CSV.matiere Exemples.cpfr)
                    (js "écrire  des mots")
  = CSV.cleCompetence (CSV.niveau Exemples.cpfr) (CSV.matiere Exemples.cpfr)
                      (js " ecrire des mots ")
  <-> Exemples.cpfr = Exemples.cpfr
      /\ CSV.normaliserNomCompetence (js "écrire  des mots")
         = CSV.normaliserNomCompetence (js " ecrire des mots ").
Proof.
  apply (cleCompetence_unambiguous Exemples.cpfr Exemples.cpfr);
    apply list_elem_of_In; vm_compute; tauto.
Defined.

(** ** The competences of line 3, CSV *)

(** X8: when [finaliserCompetence] adds a competence without a warning,
    its column holds a percentage marker on the line of the percentages,
    and is the first such column from the first column of the span whose
    group label holds "satisfaisant", three columns further at most and
    inside the span. *)
Theorem finaliserCompetence_marked_column comps nomC d f lg lp cs :
  CSV.finaliserCompetence comps nomC d f lg lp = (cs, []) ->
  exists s c,
    cs = comps ++ [CSV.Competence nomC c]
    /\ d <= s <= f /\ s <= c <= Nat.min (s + 3) f
    /\ includes (CSV.texteColonne lg s) (js "satisfaisant") = true
    /\ (forall j, d <= j < s ->
          includes (CSV.texteColonne lg j) (js "satisfaisant") = false)
    /\ marquePourcentage (CSV.texteColonne lp c) = true
    /\ (forall j, s <= j < c ->
          marquePourcentage (CSV.texteColonne lp j) = false).
Proof.
  rewrite finaliserCompetence_cases.
  destruct (chercherSatisfaisant lg d f) as [s|] eqn:Hs; [|discriminate].
  destruct (chercherPourcentage lp s f) as [c|] eqn:Hc; [|discriminate].
  intros [= <-]. exists s, c.
  apply premierIndice_Some in Hs as (Hs1 & Hs2 & Hs3).
  apply premierIndice_Some in Hc as (Hc1 & Hc2 & Hc3).
  repeat split; try done; lia.
Qed.

Lemma finaliserCompetence_marked_column_witness :
  exists s c,
    [CSV.Competence Exemples.lecture 5]
    = [] ++ [CSV.Competence Exemples.lecture c]
    /\ 2 <= s <= 5 /\ s <= c <= Nat.min (s + 3) 5
    /\ includes (CSV.texteColonne (Exemples.groupesEn 4) s)
                (js "satisfaisant") = true
    /\ (forall j, 2 <= j < s ->
          includes (CSV.texteColonne (Exemples.groupesEn 4) j)
                   (js "satisfaisant") = false)
    /\ marquePourcentage (CSV.texteColonne (Exemples.pourcentEn 5) c) = true
    /\ (forall j, s <= j < c ->
          marquePourcentage (CSV.texteColonne (Exemples.pourcentEn 5) j)
          = false).
Proof.
  apply (finaliserCompetence_marked_column [] Exemples.lecture 2 5
           (Exemples.groupesEn 4) (Exemples.pourcentEn 5)).
  vm_compute; reflexivity.
Defined.

Lemma finaliserCompetence_issue comps nomC d f lg lp :
  let r := CSV.finaliserCompetence comps nomC d f lg lp in
  (r.1 = comps /\ r.2 = [CSV.PasDeGroupeSatisfaisant nomC d f])
  \/ exists c, r.1 = comps ++ [CSV.Competence nomC c]
               /\ (r.2 = [] \/ r.2 = [CSV.ColonnePourcentageNonIdentifiee nomC c]).
Proof.
  cbv zeta. rewrite finaliserCompetence_cases.
  destruct (chercherSatisfaisant lg d f) as [s|]; [|by left].
  right. destruct (chercherPourcentage lp s f) as [c|].
  - exists c. split; [done|by left].
  - exists (s + 1). split; [done|by right].
Qed.

Section Comptes.

Variables lg lp : CSV.ligne.

Let enCours (st : CSV.etat) : list jsstring :=
  match CSV.competenceEnCours st with Some (n, _) => [n] | None => [] end.

Let bilan (vus : list jsstring) (st : CSV.etat) : Prop :=
  length (CSV.competences st)
  + length (filter (fun w => estAbandon w = true) (CSV.journal st))
  + length (enCours st) = length vus
  /\ length (CSV.journal st) + length (enCours st) <= length vus
  /\ sublist (map CSV.comp_nom (CSV.competences st) ++ enCours st) vus.

Lemma cloreEnCours_bilan vus st colFin :
  bilan vus st ->
  bilan vus (CSV.Etat (CSV.competences (CSV.cloreEnCours st colFin lg lp)) None
                      (CSV.journal (CSV.cloreEnCours st colFin lg lp))).
Proof.
  unfold bilan, CSV.cloreEnCours, enCours.
  destruct (CSV.competenceEnCours st) as [[n d]|] eqn:He; simpl.
  - intros (H1 & H2 & H3).
    pose proof (finaliserCompetence_issue (CSV.competences st) n d colFin lg lp)
      as Hf.
    destruct (CSV.finaliserCompetence _ _ _ _ _ _) as [cs w]. simpl in Hf.
    simpl. rewrite app_nil_r.
    destruct Hf as [[-> ->]|(c & -> & [->| ->])].
    + rewrite filter_app, !length_app. simpl. split; [lia|]. split; [lia|].
      etrans; [|exact H3]. by apply sublist_inserts_r.
    + rewrite app_nil_r, map_app, length_app. simpl. split; [lia|].
      split; [lia|done].
    + rewrite filter_app, map_app, !length_app. simpl. split; [lia|].
      split; [lia|done].
  - done.
Qed.

Lemma parcourirLigne3_bilan cellules index vus st :
  bilan vus st ->
  bilan (vus ++ titres cellules) (CSV.parcourirLigne3 lg lp cellules index st).
Proof.
  revert index vus st.
  induction cellules as [|cellule reste IH]; intros index vus st Hb.
  - unfold titres. simpl. by rewrite app_nil_r.
  - cbn [CSV.parcourirLigne3].
    unfold titres. rewrite filter_cons. unfold CSV.pasLigne3.
    change ((0 <? longueur (trim cellule))%nat && estCompetence (trim cellule))
      with (estTitre cellule).
    case_decide as Ht; [rewrite Ht|apply not_true_is_false in Ht; rewrite Ht].
    + simpl.
      change (map trim (filter _ reste)) with (titres reste).
      rewrite (cons_middle (trim cellule)), app_assoc. apply IH.
      apply (cloreEnCours_bilan _ _ (index - 1)) in Hb.
      destruct Hb as (H1 & H2 & H3). unfold bilan, enCours in *. simpl in *.
      rewrite app_nil_r in H3. rewrite length_app. simpl.
      split; [lia|]. split; [lia|]. by apply sublist_app.
    + change (map trim (filter _ reste)) with (titres reste). by apply IH.
Qed.

End Comptes.

(** X9: every title cell of line 3 gives one competence or one "no
    satisfactory group" warning: the competences and these warnings are as
    many as the titles; there is one warning per title at most; and the
    competences bear the trimmed titles, in the order of the columns. *)
Theorem extraireCompetences_accounts_for_titles (ligne3 lg lp : CSV.ligne) :
  let r := CSV.extraireCompetences ligne3 lg lp in
  length r.1 + length (filter (fun w => estAbandon w = true) r.2)
  = length (titres ligne3)
  /\ length r.2 <= length (titres ligne3)
  /\ sublist (map CSV.comp_nom r.1) (titres ligne3).
Proof.
  cbv zeta. unfold CSV.extraireCompetences. simpl.
  set (st := CSV.parcourirLigne3 lg lp ligne3 0 (CSV.Etat [] None [])).
  pose proof (parcourirLigne3_bilan lg lp ligne3 0 [] (CSV.Etat [] None []))
    as Hb.
  simpl in Hb. fold st in Hb.
  specialize (Hb (conj eq_refl (conj (le_n 0) (sublist_nil)))).
  apply (cloreEnCours_bilan lg lp _ _ (length ligne3 - 1)) in Hb.
  simpl in Hb. rewrite app_nil_r in Hb.
  destruct Hb as (H1 & H2 & H3). split; [lia|]. split; [lia|done].
Qed.

(** ** The rows and the registry, CSV *)

Section DernierGagne.

Context {A : Type} (cle : A -> jsstring) (valeur : A -> option float).

Let remplir (comps : list A) (init : gmap jsstring float) :=
  fold_left
    (fun res comp =>
       match valeur comp with
       | Some pct => affecter (cle comp) pct res
       | None => res
       end)
    comps init.

Lemma remplir_conserve comps init k :
  (forall c, c ∈ comps -> cle c = k -> valeur c = None) ->
  remplir comps init !! k = init !! k.
Proof.
  unfold remplir. revert init.
  induction comps as [|c comps IH]; simpl; intros init H; [done|].
  rewrite IH by (intros c' Hin; apply H; by right).
  destruct (valeur c) as [y|] eqn:Hv; [|done].
  unfold affecter. case_decide; [done|].
  apply lookup_insert_ne. intros Hk. rewrite (H c) in Hv; [done|by left|done].
Qed.

Lemma remplir_dernier avant c apres init y :
  valeur c = Some y -> cle c <> js "__proto__" ->
  (forall c', c' ∈ apres -> cle c' = cle c -> valeur c' = None) ->
  remplir (avant ++ c :: apres) init !! cle c = Some y.
Proof.
  intros Hv Hp Hap. unfold remplir. rewrite fold_left_app. simpl. rewrite Hv.
  etrans; [apply (remplir_conserve apres _ (cle c) Hap)|].
  unfold affecter. rewrite decide_False by done. apply lookup_insert_eq.
Qed.

End DernierGagne.

(** X10: when several competences of a line share a normalised name, the
    last one whose cell parses gives the value stored under the key,
    unless the key is ["__proto__"], under which a plain object stores
    nothing. *)
Theorem resultatsLigne_last_column_wins
        (l : CSV.ligne) (avant apres : list CSV.competence) (c : CSV.competence)
        (niv mat : jsstring) (y : float) :
  CSV.parsePourcentage (l !! CSV.colonne c) = Some y ->
  CSV.cleCompetence niv mat (CSV.comp_nom c) <> js "__proto__" ->
  (forall c', c' ∈ apres ->
     CSV.normaliserNomCompetence (CSV.comp_nom c')
     = CSV.normaliserNomCompetence (CSV.comp_nom c) ->
     CSV.parsePourcentage (l !! CSV.colonne c') = None) ->
  CSV.resultatsLigne l (avant ++ c :: apres) niv mat
    !! CSV.cleCompetence niv mat (CSV.comp_nom c) = Some y
  /\ CSV.resultatsLigne l (avant ++ c :: apres) niv mat !! js "__proto__"
     = None.
Proof.
  intros Hv Hp Hap. split.
  - apply (remplir_dernier
             (fun c => CSV.cleCompetence niv mat (CSV.comp_nom c))
             (fun c => CSV.parsePourcentage (l !! CSV.colonne c))); [done..|].
    intros c' Hin Hk. apply Hap; [done|].
    unfold CSV.cleCompetence in Hk. rewrite !app_assoc in Hk.
    by apply app_inv_head in Hk.
  - by apply (remplir_proto
                (fun c => CSV.cleCompetence niv mat (CSV.comp_nom c))
                (fun c => CSV.parsePourcentage (l !! CSV.colonne c))).
Qed.

Lemma resultatsLigne_last_column_wins_witness :
  CSV.resultatsLigne ligneTroisLectures
    ([CSV.Competence (js "écrire  des mots") 2]
       ++ CSV.Competence (js " ecrire des mots ") 3
       :: [CSV.Competence (js "ecrire des mots") 4])
    (js "CP") (js "francais")
    !! CSV.cleCompetence (js "CP") (js "francais")
         (CSV.comp_nom (CSV.Competence (js " ecrire des mots ") 3))
  = Some 60%float
  /\ CSV.resultatsLigne ligneTroisLectures
       ([CSV.Competence (js "écrire  des mots") 2]
          ++ CSV.Competence (js " ecrire des mots ") 3
          :: [CSV.Competence (js "ecrire des mots") 4])
       (js "CP") (js "francais") !! js "__proto__"
     = None.
Proof.
  apply (resultatsLigne_last_column_wins ligneTroisLectures
           [CSV.Competence (js "écrire  des mots") 2]
           [CSV.Competence (js "ecrire des mots") 4]
           (CSV.Competence (js " ecrire des mots ") 3)).
  - vm_compute; reflexivity.
  - vm_compute; discriminate.
  - intros c' Hin _. apply list_elem_of_singleton in Hin as ->.
    vm_compute; reflexivity.
Defined.

(** The three columns of the sample bear one normalised name, and a plain
    object has no own key ["__proto__"]: with an empty level and an empty
    subject, the name "proto__" gives that key, and the line gives no
    school. *)
Example resultatsLigne_samples :
  map (fun n => CSV.cleCompetence (js "CP") (js "francais") n)
      [js "écrire  des mots"; js " ecrire des mots "; js "ecrire des mots"]
  = [js "CP_francais_ecrire_des_mots"; js "CP_francais_ecrire_des_mots";
     js "CP_francais_ecrire_des_mots"]
  /\ CSV.resultatsLigne ligneTroisLectures
       [CSV.Competence (js "écrire  des mots") 2;
        CSV.Competence (js " ecrire des mots ") 3;
        CSV.Competence (js "ecrire des mots") 4]
       (js "CP") (js "francais")
     = {[ js "CP_francais_ecrire_des_mots" := 60%float ]}
  /\ CSV.cleCompetence [] [] (js "proto__") = js "__proto__"
  /\ CSV.extraireEcoles [ligneTroisLectures]
                        [CSV.Competence (js "proto__") 2] [] []
     = [].
Proof. repeat split; vm_compute; reflexivity. Qed.

Lemma lire_texte (l : CSV.ligne) (col : nat) :
  ODS.lire (map Some l) (Z.of_nat col) = l !! col.
Proof.
  unfold ODS.lire.
  destruct (Z.ltb_spec (Z.of_nat col) 0) as [?|_]; [lia|].
  rewrite Nat2Z.id. change (map Some l) with (Some <$> l).
  rewrite list_lookup_fmap. by destruct (l !! col).
Qed.

(** X11: on the same cells and the same columns, [extraireResultats] of
    [OraceService] and the loop of [extraireEcoles] of [OraceCSVService]
    build the same results. *)
Theorem extraireResultats_agrees_with_resultatsLigne
        (l : CSV.ligne) (comps : list CSV.competence) (niv mat : jsstring) :
  ODS.extraireResultats
    (map Some l)
    (map (fun c => ODS.Competence (CSV.comp_nom c) (Z.of_nat (CSV.colonne c)))
         comps)
    niv mat
  = CSV.resultatsLigne l comps niv mat.
Proof.
  unfold ODS.extraireResultats, CSV.resultatsLigne.
  generalize (∅ : gmap jsstring float).
  induction comps as [|c comps IH]; intros init; simpl; [done|].
  rewrite lire_texte, parsePourcentage_same. apply IH.
Qed.

Lemma fusionnerEcole_sain (m : ecolesMap) (e : ecole) :
  registreSain m ->
  identifiantExclu (uai e) = false -> resultats e <> ∅ ->
  registreSain (CSV.fusionnerEcole m e).
Proof.
  intros Hm He1 He2.
  destruct (mapGet (uai e) m) as [r|] eqn:Hg.
  - rewrite (fusionnerEcole_present m e r Hg).
    intros u r' Hin. apply mapSet_elem in Hin as [[= -> ->]|Hin]; [|by apply Hm].
    apply mapGet_elem, Hm in Hg as (Hu & _ & _). simpl.
    split; [done|]. split; [done|].
    unfold objectAssign. intros Hempty.
    apply map_positive_l in Hempty. done.
  - rewrite (fusionnerEcole_absent m e Hg).
    intros u r' Hin. apply elem_of_app in Hin as [Hin|Hin]; [by apply Hm|].
    apply list_elem_of_singleton in Hin as [= -> ->]. done.
Qed.

Lemma fusions_sain (l : list ecole) (m : ecolesMap) :
  registreSain m ->
  (forall e, e ∈ l -> identifiantExclu (uai e) = false /\ resultats e <> ∅) ->
  registreSain (fold_left CSV.fusionnerEcole l m).
Proof.
  revert m. induction l as [|e l IH]; simpl; intros m Hm Hl; [done|].
  apply IH.
  - apply fusionnerEcole_sain; [done|apply Hl; left..].
  - intros e' Hin. apply Hl. by right.
Qed.

Lemma chargerFichierCSV_sain fs nomF niv mat e :
  e ∈ (CSV.chargerFichierCSV fs nomF niv mat).1 ->
  identifiantExclu (uai e) = false /\ resultats e <> ∅.
Proof.
  intros Hin. apply chargerFichierCSV_source in Hin as (lignes & comps & n & _ & Hin).
  unfold CSV.extraireEcoles in Hin. apply list_elem_of_In, in_flat_map in Hin.
  destruct Hin as (l & _ & Hin). apply list_elem_of_In in Hin.
  by apply extraireEcole_spec in Hin as (_ & ? & ?).
Qed.

Lemma chargerConfigs_sain fs cfgs acc :
  registreSain acc.1 -> NoDup (map fst acc.1) ->
  registreSain (fold_left (CSV.chargerConfig fs) cfgs acc).1
  /\ NoDup (map fst (fold_left (CSV.chargerConfig fs) cfgs acc).1).
Proof.
  revert acc. induction cfgs as [|c cfgs IH]; simpl; intros acc Hs Hn; [done|].
  apply IH; rewrite chargerConfig_fst.
  - apply fusions_sain; [done|]. intros e. apply chargerFichierCSV_sain.
  - by apply fusions_NoDup.
Qed.

Lemma registreSain_uai (m : ecolesMap) :
  registreSain m -> map uai (mapValues m) = map fst m.
Proof.
  unfold mapValues. induction m as [|[u r] m IH]; simpl; intros H; [done|].
  f_equal.
  - by destruct (H u r ltac:(left)).
  - apply IH. intros u' r' Hin. apply H. by right.
Qed.

Lemma filter_tous {A} (P : A -> Prop) `{!forall x, Decision (P x)}
      (l : list A) :
  Forall P l -> filter P l = l.
Proof.
  induction 1 as [|x l Hx _ IH]; [done|].
  rewrite filter_cons_True by done. by f_equal.
Qed.

(** X12: the schools [loadEcoles] returns have distinct identifiers, none
    of which is empty, a total or the district, and each holds a result at
    least; so the filter [main] applies to the identifiers keeps them
    all. *)
Theorem loadEcoles_registry_sound (cfgs : list CSV.config) (fs : CSV.fichiers) :
  let ecoles := (CSV.loadEcolesDe cfgs fs).1 in
  NoDup (map uai ecoles)
  /\ Forall (fun e => identifiantExclu (uai e) = false /\ resultats e <> ∅)
            ecoles
  /\ CSV.uaisATraiter ecoles = map uai ecoles.
Proof.
  cbv zeta. rewrite loadEcolesDe_fst.
  destruct (chargerConfigs_sain fs cfgs ([], [])) as [Hs Hn].
  { intros u r Hin. by apply elem_of_nil in Hin. }
  { constructor. }
  set (m := (fold_left (CSV.chargerConfig fs) cfgs ([], [])).1) in *.
  assert (Hall : Forall (fun e => identifiantExclu (uai e) = false
                                  /\ resultats e <> ∅) (mapValues m)).
  { apply Forall_forall. intros e Hin. unfold mapValues in Hin.
    apply list_elem_of_fmap in Hin as ([u r] & -> & Hin).
    destruct (Hs u r Hin) as (Hu & ? & ?). simpl. by rewrite Hu. }
  split; [by rewrite registreSain_uai|]. split; [done|].
  unfold CSV.uaisATraiter. apply filter_tous.
  apply Forall_map. eapply Forall_impl; [exact Hall|].
  intros e [He _]. unfold identifiantExclu in He.
  apply orb_false_iff in He as [He _]. apply orb_false_iff in He as [He _].
  apply negb_false_iff in He. split; [done|].
  unfold longueur. destruct (uai e); [done|simpl; lia].
Qed.

Lemma fusionnerEcole_length (m : ecolesMap) (e : ecole) :
  length m <= length (CSV.fusionnerEcole m e)
  /\ 1 <= length (CSV.fusionnerEcole m e).
Proof.
  destruct (mapGet (uai e) m) as [r|] eqn:Hg.
  - assert (Hk := fusionnerEcole_keys m e ltac:(by eexists)).
    apply (f_equal length) in Hk. rewrite !length_map in Hk. rewrite Hk.
    split; [done|]. destruct m; [done|simpl; lia].
  - rewrite (fusionnerEcole_absent m e Hg), length_app. simpl. lia.
Qed.

Lemma fusions_length (l : list ecole) (m : ecolesMap) :
  length m <= length (fold_left CSV.fusionnerEcole l m)
  /\ (l <> [] -> 1 <= length (fold_left CSV.fusionnerEcole l m)).
Proof.
  revert m. induction l as [|e l IH]; simpl; intros m; [done|].
  destruct (IH (CSV.fusionnerEcole m e)) as [H1 _].
  pose proof (fusionnerEcole_length m e). split; [lia|]. intros _. lia.
Qed.

Lemma chargerConfigs_length fs cfgs acc :
  length acc.1 <= length (fold_left (CSV.chargerConfig fs) cfgs acc).1.
Proof.
  revert acc. induction cfgs as [|c cfgs IH]; simpl; intros acc; [done|].
  etrans; [|apply IH]. rewrite chargerConfig_fst. apply fusions_length.
Qed.

(** X13: [loadEcoles] returns no school (and [main] stops with an error)
    exactly when no file of the configurations gives a school. *)
Theorem loadEcoles_empty_iff (cfgs : list CSV.config) (fs : CSV.fichiers) :
  (CSV.loadEcolesDe cfgs fs).1 = []
  <-> forall c, c ∈ cfgs ->
        (CSV.chargerFichierCSV fs (CSV.nomFichier c) (CSV.niveau c)
                               (CSV.matiere c)).1 = [].
Proof.
  rewrite loadEcolesDe_fst. unfold mapValues.
  rewrite <- length_zero_iff_nil, length_map.
  assert (Hgen : forall acc,
    length (fold_left (CSV.chargerConfig fs) cfgs acc).1 = 0
    <-> length acc.1 = 0
        /\ forall c, c ∈ cfgs ->
             (CSV.chargerFichierCSV fs (CSV.nomFichier c) (CSV.niveau c)
                                    (CSV.matiere c)).1 = []).
  { induction cfgs as [|c cfgs IH]; simpl; intros acc.
    - split; [|by intros [? _]]. intros H. split; [done|].
      intros c Hc. by apply elem_of_nil in Hc.
    - rewrite IH, chargerConfig_fst.
      set (l := (CSV.chargerFichierCSV fs _ _ _).1).
      pose proof (fusions_length l acc.1) as [H1 H2].
      split.
      + intros [H0 Hall]. destruct l as [|e l'] eqn:Hl.
        * simpl in H0. split; [done|].
          intros c' Hc'. apply elem_of_cons in Hc' as [->|Hc']; [done|].
          by apply Hall.
        * specialize (H2 ltac:(done)). lia.
      + intros [H0 Hall]. split.
        * unfold l. rewrite (Hall c) by left. done.
        * intros c' Hc'. apply Hall. by right. }
  rewrite Hgen. simpl. split; [by intros [_ ?]|done].
Qed.

(** X14: merging again a record of a school whose results the registry
    has just received changes nothing, whatever name the record bears; in
    particular merging the same record twice is merging it once. *)
Theorem fusionnerEcole_absorbs_known_results (m : ecolesMap) (e e' : ecole) :
  uai e' = uai e -> resultats e' ⊆ resultats e ->
  CSV.fusionnerEcole (CSV.fusionnerEcole m e) e' = CSV.fusionnerEcole m e.
Proof.
  intros Hu Hsub.
  destruct (mapGet (uai e) m) as [r|] eqn:Hg.
  - rewrite (fusionnerEcole_present m e r Hg).
    erewrite fusionnerEcole_present; [|rewrite Hu; apply mapGet_mapSet_eq].
    rewrite Hu, mapSet_mapSet. simpl. f_equal. f_equal.
    unfold objectAssign. apply map_subseteq_union.
    etrans; [exact Hsub|]. apply map_union_subseteq_l.
  - rewrite (fusionnerEcole_absent m e Hg).
    erewrite fusionnerEcole_present.
    2:{ rewrite Hu, mapGet_app, Hg. simpl. rewrite decide_True by done. done. }
    simpl. apply mapSet_same.
    rewrite Hu, mapGet_app, Hg. simpl. rewrite decide_True by done.
    f_equal. f_equal. unfold objectAssign. symmetry. by apply map_subseteq_union.
Qed.

Lemma fusionnerEcole_absorbs_known_results_witness :
  CSV.fusionnerEcole (CSV.fusionnerEcole [] Exemples.ecoleFrancais)
                     Exemples.ecoleFrancais
  = CSV.fusionnerEcole [] Exemples.ecoleFrancais.
Proof.
  apply (fusionnerEcole_absorbs_known_results [] Exemples.ecoleFrancais
           Exemples.ecoleFrancais); [reflexivity|done].
Defined.

(** ** Competences by level and subject *)

Lemma split_separateur (a b : jsstring) :
  95%N ∉ a -> split 95 (a ++ 95%N :: b) = a :: split 95 b.
Proof.
  induction a as [|c a IH]; simpl; intros Ha; [done|].
  apply not_elem_of_cons in Ha as [Hc Ha].
  destruct (N.eqb_spec c 95) as [->|_]; [done|].
  by rewrite IH.
Qed.

Lemma cleGroupe_cle (niv mat n : jsstring) :
  95%N ∉ niv -> 95%N ∉ mat ->
  CSV.cleGroupe (CSV.cleCompetence niv mat n) = niv ++ js "_" ++ mat.
Proof.
  intros Hn Hm. unfold CSV.cleGroupe, CSV.cleCompetence.
  change (js "_") with [95%N]. simpl.
  by rewrite (split_separateur niv), (split_separateur mat).
Qed.

Lemma cleGroupe_config (c : CSV.config) (n : jsstring) :
  c ∈ CSV.configs ->
  CSV.cleGroupe (CSV.cleCompetence (CSV.niveau c) (CSV.matiere c) n)
  = CSV.niveau c ++ js "_" ++ CSV.matiere c.
Proof.
  intros Hc. apply list_elem_of_In in Hc. simpl in Hc.
  repeat (destruct Hc as [<-|Hc];
          [apply cleGroupe_cle; intros H; apply list_elem_of_In in H;
           vm_compute in H; intuition discriminate|]).
  done.
Qed.

Section Groupes.

Let pas (comp : jsstring) (acc : gmap jsstring (gset jsstring)) :=
  <[CSV.cleGroupe comp := {[comp]} ∪ default ∅ (acc !! CSV.cleGroupe comp)]> acc.

Let fidele (vus : jsstring -> Prop) (g : gmap jsstring (gset jsstring)) : Prop :=
  (forall key s, g !! key = Some s -> s <> ∅)
  /\ forall key comp, comp ∈ groupe g key <-> CSV.cleGroupe comp = key /\ vus comp.

Lemma pas_fidele (vus : jsstring -> Prop) comp g :
  fidele vus g -> fidele (fun c => c = comp \/ vus c) (pas comp g).
Proof.
  intros [Hne Hg]. unfold pas, groupe in *. split.
  - intros key s. destruct (decide (CSV.cleGroupe comp = key)) as [<-|Hk].
    + rewrite lookup_insert_eq. intros [= <-].
      apply (non_empty_inhabited_L comp).
      apply elem_of_union_l. by apply elem_of_singleton.
    + rewrite lookup_insert_ne by done. apply Hne.
  - intros key c. destruct (decide (CSV.cleGroupe comp = key)) as [<-|Hk].
    + rewrite lookup_insert_eq. simpl. rewrite elem_of_union, elem_of_singleton.
      rewrite Hg. split.
      * intros [->|[? ?]]; auto.
      * intros [Hc [->|?]]; auto.
    + rewrite lookup_insert_ne by done. rewrite Hg. split.
      * intros [? ?]; auto.
      * intros [Hc [->|?]]; [done|auto].
Qed.

Lemma fidele_ext (vus vus' : jsstring -> Prop) g :
  (forall c, vus c <-> vus' c) -> fidele vus g -> fidele vus' g.
Proof.
  intros H [Hne Hg]. split; [done|]. intros key c. by rewrite Hg, H.
Qed.

Lemma ecole_fidele (vus : jsstring -> Prop) (X : gset jsstring) g :
  fidele vus g -> fidele (fun c => vus c \/ c ∈ X) (set_fold pas g X).
Proof.
  intros Hg.
  apply (set_fold_ind_L (fun r Y => fidele (fun c => vus c \/ c ∈ Y) r)).
  - eapply fidele_ext; [|exact Hg]. intros c. rewrite elem_of_empty. tauto.
  - intros x Y r _ Hr. apply (pas_fidele _ x) in Hr.
    eapply fidele_ext; [|exact Hr]. intros c. simpl.
    rewrite elem_of_union, elem_of_singleton. tauto.
Qed.

Lemma ecoles_fidele (vus : jsstring -> Prop) ecoles g :
  fidele vus g ->
  fidele (fun c => vus c \/ exists e, e ∈ ecoles /\ c ∈ dom (resultats e))
         (fold_left (fun acc e => set_fold pas acc (dom (resultats e)))
                    ecoles g).
Proof.
  revert vus g. induction ecoles as [|e ecoles IH]; simpl; intros vus g Hg.
  - eapply fidele_ext; [|exact Hg]. intros c. split; [auto|].
    intros [?|(e & He & _)]; [done|]. by apply elem_of_nil in He.
  - apply (ecole_fidele _ (dom (resultats e))), IH in Hg.
    eapply fidele_ext; [|exact Hg]. intros c. split.
    + intros [[?|?]|(e' & ? & ?)]; [by left| |].
      * right. exists e. split; [left|done].
      * right. exists e'. split; [by right|done].
    + intros [?|(e' & He' & ?)]; [by left; left|].
      apply elem_of_cons in He' as [->|?]; [by left; right|].
      right. by exists e'.
Qed.

Lemma getCompetences_fidele ecoles :
  fidele (fun c => exists e, e ∈ ecoles /\ c ∈ dom (resultats e))
         (CSV.getCompetencesParNiveauMatiere ecoles).
Proof.
  unfold CSV.getCompetencesParNiveauMatiere.
  eapply fidele_ext; [|apply (ecoles_fidele (fun _ => False))].
  - intros c. split; [|auto]. by intros [[]|?].
  - split; [by intros key s; rewrite lookup_empty|].
    intros key c. unfold groupe. rewrite lookup_empty. simpl.
    rewrite elem_of_empty. tauto.
Qed.

End Groupes.

(** X15: [getCompetencesParNiveauMatiere] files every result key of
    every school under the key made of its first two pieces between
    underscores, and nothing else; no group is empty; and the group of a
    key built for one of the ten configurations is [niveau_matiere]. *)
Theorem getCompetencesParNiveauMatiere_groups (ecoles : list ecole) :
  (forall key comp,
     comp ∈ groupe (CSV.getCompetencesParNiveauMatiere ecoles) key
     <-> CSV.cleGroupe comp = key
         /\ exists e, e ∈ ecoles /\ is_Some (resultats e !! comp))
  /\ (forall key s,
        CSV.getCompetencesParNiveauMatiere ecoles !! key = Some s -> s <> ∅)
  /\ (forall c n, c ∈ CSV.configs ->
        CSV.cleGroupe (CSV.cleCompetence (CSV.niveau c) (CSV.matiere c) n)
        = CSV.niveau c ++ js "_" ++ CSV.matiere c).
Proof.
  destruct (getCompetences_fidele ecoles) as [Hne Hg].
  split; [|split; [exact Hne|]].
  - intros key comp. rewrite Hg. split.
    + intros [? (e & ? & Hd)]. split; [done|]. exists e.
      by rewrite <- elem_of_dom.
    + intros [? (e & ? & Hd)]. split; [done|]. exists e.
      by rewrite elem_of_dom.
  - intros c n. apply cleGroupe_config.
Qed.

Lemma chargerConfigs_cles fs (tous cfgs : list CSV.config) acc :
  (forall c, c ∈ cfgs -> c ∈ tous) ->
  entreesVerifient
    (fun k _ => exists c n, c ∈ tous
       /\ k = CSV.cleCompetence (CSV.niveau c) (CSV.matiere c) n) acc.1 ->
  entreesVerifient
    (fun k _ => exists c n, c ∈ tous
       /\ k = CSV.cleCompetence (CSV.niveau c) (CSV.matiere c) n)
    (fold_left (CSV.chargerConfig fs) cfgs acc).1.
Proof.
  revert acc. induction cfgs as [|c cfgs IH]; simpl; intros acc Hsub Hacc;
    [done|].
  apply IH; [intros c' Hc'; apply Hsub; by right|].
  rewrite chargerConfig_fst. apply fusions_entrees; [done|].
  intros e k y He Hk.
  apply chargerFichierCSV_source in He as (lignes & comps & n & _ & He).
  destruct (extraireEcoles_cle c _ _ e k He ltac:(by eexists)) as [nomC ->].
  exists c, nomC. split; [apply Hsub; left|done].
Qed.

(** X16: the groups of the schools [loadEcoles] returns are keyed by the
    level and subject of a configuration, and hold result keys of that
    configuration only. *)
Theorem loaded_groups_are_source_units
        (cfgs : list CSV.config) (fs : CSV.fichiers)
        (key : jsstring) (s : gset jsstring) :
  (forall c, c ∈ cfgs -> c ∈ CSV.configs) ->
  CSV.getCompetencesParNiveauMatiere (CSV.loadEcolesDe cfgs fs).1 !! key
  = Some s ->
  s <> ∅
  /\ forall comp, comp ∈ s ->
       exists c n, c ∈ cfgs
         /\ comp = CSV.cleCompetence (CSV.niveau c) (CSV.matiere c) n
         /\ key = CSV.niveau c ++ js "_" ++ CSV.matiere c.
Proof.
  intros Hsub Hs.
  destruct (getCompetences_fidele (CSV.loadEcolesDe cfgs fs).1) as [Hne Hg].
  split; [by apply (Hne key)|].
  intros comp Hin. specialize (Hg key comp). unfold groupe in Hg.
  rewrite Hs in Hg. simpl in Hg. apply Hg in Hin as [Hkey (e & He & Hd)].
  apply elem_of_dom in Hd as [y Hy].
  rewrite loadEcolesDe_fst in He. unfold mapValues in He.
  change (map ?f ?l) with (f <$> l) in He.
  apply list_elem_of_fmap in He as ([u r] & -> & He).
  destruct (chargerConfigs_cles fs cfgs cfgs ([], []) ltac:(done)
              ltac:(by intros ? ? ? ? H; apply elem_of_nil in H)
              u r comp y He Hy) as (c & n & Hc & ->).
  exists c, n. split; [done|]. split; [done|].
  rewrite <- Hkey. by apply cleGroupe_config, Hsub.
Qed.

Lemma loaded_groups_are_source_units_witness :
  {[ Exemples.cleLecture ]} <> (∅ : gset jsstring)
  /\ forall comp, comp ∈ ({[ Exemples.cleLecture ]} : gset jsstring) ->
       exists c n, c ∈ [Exemples.cpfr]
         /\ comp = CSV.cleCompetence (CSV.niveau c) (CSV.matiere c) n
         /\ js "CP_francais" = CSV.niveau c ++ js "_" ++ CSV.matiere c.
Proof.
  apply (loaded_groups_are_source_units [Exemples.cpfr]
           (Exemples.unFichier Exemples.cpfr
              (Exemples.grilleSimple Exemples.cpfr Exemples.ligneEcole))).
  - intros c Hc. apply list_elem_of_singleton in Hc as ->.
    apply list_elem_of_In; vm_compute; tauto.
  - vm_compute; reflexivity.
Defined.

(** ** Column letters *)

Local Open Scope Z_scope.

Lemma fromCharCode_lettre (col : Z) :
  0 <= col ->
  fromCharCode (col mod 26 + 65) = [Z.to_N (col mod 26 + 65)]
  /\ estMajuscule (Z.to_N (col mod 26 + 65)) = true
  /\ Z.of_N (Z.to_N (col mod 26 + 65)) - 64 = col mod 26 + 1.
Proof.
  intros Hc. pose proof (Z.mod_pos_bound col 26 ltac:(lia)) as Hm.
  unfold fromCharCode, estMajuscule.
  rewrite Z.mod_small by lia. split; [done|]. split; [|lia].
  apply andb_true_iff. split; apply N.leb_le; lia.
Qed.

Lemma boucleLettres_spec (n : nat) (col : Z) (letter : jsstring) :
  -1 <= col -> col + 1 <= Z.of_nat n ->
  exists debut,
    ODS.boucleLettres n col letter = debut ++ letter
    /\ Forall (fun c => estMajuscule c = true) debut
    /\ (0 <= col -> debut <> [])
    /\ (forall acc, valeurLettres debut acc
                    = acc * 26 ^ Z.of_nat (length debut) + (col + 1)).
Proof.
  revert col letter. induction n as [|n IH]; intros col letter Hc Hn.
  - exists []. simpl. split; [done|]. split; [constructor|].
    split; [lia|]. intros a. unfold valeurLettres. simpl. lia.
  - cbn [ODS.boucleLettres]. destruct (Z.leb_spec 0 col) as [Hpos|Hneg].
    + destruct (fromCharCode_lettre col Hpos) as (Hch & Hmaj & Hval).
      pose proof (Z.div_mod col 26 ltac:(lia)) as Hdm.
      pose proof (Z.mod_pos_bound col 26 ltac:(lia)) as Hm.
      assert (0 <= col / 26) by (apply Z.div_pos; lia).
      destruct (IH (col / 26 - 1) (fromCharCode (col mod 26 + 65) ++ letter))
        as (debut & Heq & Hall & _ & Hv); [lia|lia|].
      exists (debut ++ fromCharCode (col mod 26 + 65)).
      rewrite Heq, <- app_assoc. split; [done|]. split.
      { apply Forall_app. split; [done|]. rewrite Hch. by constructor. }
      split.
      { intros _ Hnil. apply app_eq_nil in Hnil as [_ Hnil].
        by rewrite Hch in Hnil. }
      intros a. unfold valeurLettres in *. rewrite fold_left_app, Hv, Hch.
      simpl. rewrite Hval, length_app. simpl.
      rewrite Nat2Z.inj_add, Z.pow_add_r by lia. simpl (Z.of_nat 1).
      rewrite Z.pow_1_r. lia.
    + exists []. split; [done|]. split; [constructor|].
      split; [lia|]. intros a. unfold valeurLettres. simpl. lia.
Qed.

Lemma boucleLettres_carburant (n m : nat) (col : Z) (letter : jsstring) :
  col + 1 <= Z.of_nat n -> col + 1 <= Z.of_nat m ->
  ODS.boucleLettres n col letter = ODS.boucleLettres m col letter.
Proof.
  revert m col letter. induction n as [|n IH]; intros m col letter Hn Hm.
  - destruct m as [|m]; cbn [ODS.boucleLettres]; [done|].
    destruct (Z.leb_spec 0 col); [lia|done].
  - cbn [ODS.boucleLettres]. destruct (Z.leb_spec 0 col) as [Hpos|Hneg].
    + destruct m as [|m]; [lia|]. cbn [ODS.boucleLettres].
      destruct (Z.leb_spec 0 col); [|lia].
      assert (col / 26 <= col) by (apply Z.div_le_upper_bound; lia).
      apply IH; lia.
    + destruct m as [|m]; cbn [ODS.boucleLettres]; [done|].
      destruct (Z.leb_spec 0 col); [lia|done].
Qed.

(** X17: for a column index that is not negative, [colIndexToLetter]
    returns a non-empty name made of the letters A to Z from which the
    index is read back, so two columns never share a name; the loop ends
    within [col + 1] turns. *)
Theorem colIndexToLetter_round_trip (col : Z) :
  0 <= col ->
  indiceDeLettres (ODS.colIndexToLetter col) = col
  /\ Forall (fun c => estMajuscule c = true) (ODS.colIndexToLetter col)
  /\ ODS.colIndexToLetter col <> []
  /\ (forall n, col + 1 <= Z.of_nat n ->
                ODS.boucleLettres n col [] = ODS.colIndexToLetter col).
Proof.
  intros Hc. unfold ODS.colIndexToLetter, indiceDeLettres.
  destruct (boucleLettres_spec (Z.to_nat (col + 1)) col [])
    as (debut & Heq & Hall & Hne & Hv); [lia|lia|].
  rewrite Heq, app_nil_r, Hv.
  split; [lia|]. split; [done|]. split; [by apply Hne|].
  intros n Hn. rewrite <- (app_nil_r debut), <- Heq.
  apply boucleLettres_carburant; lia.
Qed.

Lemma colIndexToLetter_round_trip_witness :
  indiceDeLettres (ODS.colIndexToLetter 27) = 27
  /\ Forall (fun c => estMajuscule c = true) (ODS.colIndexToLetter 27)
  /\ ODS.colIndexToLetter 27 <> []
  /\ (forall n, 27 + 1 <= Z.of_nat n ->
                ODS.boucleLettres n 27 [] = ODS.colIndexToLetter 27).
Proof. apply (colIndexToLetter_round_trip 27). lia. Defined.

Example colIndexToLetter_samples :
  map ODS.colIndexToLetter [0; 25; 26; 27; 701; 702; -1]
  = [js "A"; js "Z"; js "AA"; js "AB"; js "ZZ"; js "AAA"; []].
Proof. vm_compute; reflexivity. Qed.

(** ** The structure of a sheet *)

(** X18: every competence [analyserStructureClassique] returns is named
    by a cell of line 3 of ten code units at least, right of the cell that
    holds the marker, and its column is the column of that cell plus the
    one offset of the structure. *)
Theorem analyserStructureClassique_one_offset
        (sh : ODS.feuille) (c : ODS.competence) :
  c ∈ ODS.competences (ODS.analyserStructureClassique sh).1 ->
  exists marque col,
    0 <= marque < col /\ col <= ODS.derniereColonne sh
    /\ includes (toLowerCase (trim (ODS.valeurCellule sh 2 marque)))
                (js "compétence") = true
    /\ ODS.comp_nom c = trim (ODS.valeurCellule sh 2 col)
    /\ (10 <= longueur (ODS.comp_nom c))%nat
    /\ ODS.colonneDebut c
       = col + ODS.offsetPourcentageSatisfaisant
                 (ODS.analyserStructureClassique sh).1.
Proof.
  unfold ODS.analyserStructureClassique.
  destruct (ODS.findIndex _ _ _) as [marque|] eqn:Hm; simpl.
  2:{ intros H. by apply elem_of_nil in H. }
  apply findIndex_Some in Hm as (j & x & Hj & Hx & ->).
  apply ligneTexte_lookup in Hj as [-> Hjmax].
  destruct (ODS.titresApres _ _ _) as [|[col0 n0] autres] eqn:Ht;
    cbn [fst ODS.competences ODS.offsetPourcentageSatisfaisant].
  { intros H. by apply elem_of_nil in H. }
  set (offset := match ODS.groupesSatisfaisants _ _ with
                 | [] => 5 | colPourcentage :: _ => colPourcentage - col0 end).
  intros Hin.
  assert (Hc : exists col v, (col, v) ∈ (col0, n0) :: autres
                             /\ c = ODS.Competence v (col + offset)).
  { apply elem_of_cons in Hin as [->|Hin].
    - exists col0, n0. split; [left|done].
    - change (map ?f ?l) with (f <$> l) in Hin.
      apply list_elem_of_fmap in Hin as ([col v] & -> & Hin).
      exists col, v. split; [by right|done]. }
  destruct Hc as (col & v & Hcv & ->). rewrite <- Ht in Hcv.
  apply titresApres_elem in Hcv as (i & Hi & -> & Hlt & Hlen).
  apply ligneTexte_lookup in Hi as [-> Himax].
  exists (0 + Z.of_nat j), (0 + Z.of_nat i). simpl.
  repeat split; try done; lia.
Qed.

Lemma analyserStructureClassique_one_offset_witness :
  exists marque col,
    0 <= marque < col /\ col <= ODS.derniereColonne feuilleClassique
    /\ includes (toLowerCase (trim (ODS.valeurCellule feuilleClassique 2 marque)))
                (js "compétence") = true
    /\ ODS.comp_nom (ODS.Competence Exemples.lecture 6)
       = trim (ODS.valeurCellule feuilleClassique 2 col)
    /\ (10 <= longueur (ODS.comp_nom (ODS.Competence Exemples.lecture 6)))%nat
    /\ ODS.colonneDebut (ODS.Competence Exemples.lecture 6)
       = col + ODS.offsetPourcentageSatisfaisant
                 (ODS.analyserStructureClassique feuilleClassique).1.
Proof.
  apply (analyserStructureClassique_one_offset feuilleClassique
           (ODS.Competence Exemples.lecture 6)).
  apply list_elem_of_In; vm_compute; tauto.
Defined.

(** The classic analysis on a whole run: the sheet of the sample with one
    data row, whose value is read in the column of the label. *)
Example ods_classic_sheet_sample :
  ODS.loadEcoles
    [ (js "Aide", ODS.Feuille ∅ [] 0 []);
      (js "CPFR",
       ODS.Feuille (ODS.cellules feuilleClassique) [] 8
         [[Some (js "0070116N"); Some (js "Ecole Test"); None; None; None;
           None; Some (js "62,5")]]) ]
  = ([Ecole (js "0070116N") (js "Ecole Test")
            {[ Exemples.cleLecture := 62.5%float ]}],
     [ODS.AucuneFusion]).
Proof. vm_compute; reflexivity. Qed.

Lemma inserer_Forall (P : ODS.fusion -> Prop) (m : ODS.fusion) l :
  P m -> Forall P l -> Forall P (ODS.inserer m l).
Proof.
  intros Hm. induction 1 as [|x l Hx Hl IH]; simpl; [by constructor|].
  destruct (_ <? _); [by constructor|]. constructor; [done|by constructor].
Qed.

Lemma inserer_trie (m : ODS.fusion) (l : list ODS.fusion) :
  StronglySorted (fun a b => ODS.s_c a <= ODS.s_c b) l ->
  StronglySorted (fun a b => ODS.s_c a <= ODS.s_c b) (ODS.inserer m l).
Proof.
  induction 1 as [|x l Hs IH Hx]; simpl; [repeat constructor|].
  destruct (Z.ltb_spec (ODS.s_c x) (ODS.s_c m)) as [Hlt|Hge].
  - constructor; [done|]. apply inserer_Forall; [lia|done].
  - constructor; [by constructor|]. constructor; [done|].
    eapply Forall_impl; [exact Hx|]. simpl. intros y Hy. lia.
Qed.

Lemma trierParColonne_trie (l : list ODS.fusion) :
  StronglySorted (fun a b => ODS.s_c a <= ODS.s_c b) (ODS.trierParColonne l).
Proof.
  unfold ODS.trierParColonne.
  induction l as [|m l IH]; simpl; [constructor|]. by apply inserer_trie.
Qed.

Lemma inserer_Permutation (m : ODS.fusion) (l : list ODS.fusion) :
  ODS.inserer m l ≡ₚ m :: l.
Proof.
  induction l as [|x l IH]; simpl; [done|].
  destruct (_ <? _); [|done]. rewrite IH. apply Permutation_swap.
Qed.

Lemma trierParColonne_Permutation (l : list ODS.fusion) :
  ODS.trierParColonne l ≡ₚ l.
Proof.
  unfold ODS.trierParColonne.
  induction l as [|m l IH]; simpl; [done|].
  by rewrite inserer_Permutation, IH.
Qed.

Lemma plages_triees (sh : ODS.feuille) (l : list ODS.fusion) :
  StronglySorted (fun a b => ODS.s_c a <= ODS.s_c b) l ->
  StronglySorted Z.le
    (map ODS.colDebut
       (flat_map
          (fun f =>
             let texte := trim (ODS.valeurCellule sh 2 (ODS.s_c f)) in
             if estCompetence texte
             then [ODS.Plage texte (ODS.s_c f) (ODS.e_c f)
                             (ODS.e_c f - ODS.s_c f + 1)]
             else [])
          l)).
Proof.
  intros Hs.
  assert (Hbound : forall (l : list ODS.fusion) b,
    Forall (fun y => b <= ODS.s_c y) l ->
    Forall (Z.le b)
      (map ODS.colDebut
         (flat_map
            (fun f =>
               let texte := trim (ODS.valeurCellule sh 2 (ODS.s_c f)) in
               if estCompetence texte
               then [ODS.Plage texte (ODS.s_c f) (ODS.e_c f)
                               (ODS.e_c f - ODS.s_c f + 1)]
               else [])
            l))).
  { intros l' b. induction 1 as [|y l' Hy _ IH]; simpl; [constructor|].
    rewrite map_app. apply Forall_app. split; [|done].
    destruct (estCompetence _); simpl; by repeat constructor. }
  induction Hs as [|x l Hs IH Hx]; simpl; [constructor|].
  rewrite map_app. destruct (estCompetence _); simpl; [|done].
  constructor; [done|]. by apply Hbound.
Qed.

(** X19: when a merge of line 3 bears a competence title,
    [extraireCompetencesLigne3] returns the titles of these merges in the
    order of their first columns, and the sort loses no merge. *)
Theorem extraireCompetencesLigne3_titles_in_column_order (sh : ODS.feuille) :
  ODS.plagesLigne3 sh <> [] ->
  map ODS.comp_nom (ODS.extraireCompetencesLigne3 sh).1
  = map ODS.plage_nom (ODS.plagesLigne3 sh)
  /\ StronglySorted Z.le (map ODS.colDebut (ODS.plagesLigne3 sh))
  /\ ODS.fusionsLigne3 sh
     ≡ₚ filter (fun m => ODS.s_r m = 2 /\ ODS.s_c m <> ODS.e_c m)
               (ODS.merges sh).
Proof.
  intros Hne. split; [|split].
  - unfold ODS.extraireCompetencesLigne3, ODS.analyserStructureAvecFusions.
    destruct (ODS.merges sh) as [|m ms] eqn:Hm.
    { exfalso. apply Hne. unfold ODS.plagesLigne3, ODS.fusionsLigne3.
      by rewrite Hm. }
    destruct (ODS.plagesLigne3 sh) as [|c0 autres] eqn:Hp; [done|].
    pose proof (competencesAvecOffsets_map sh) as Hmap.
    destruct (ODS.competencesAvecOffsets sh) as [avec w]. simpl in Hmap.
    cbn [fst ODS.competences]. rewrite Hmap, Hp, !map_map.
    apply map_ext. intros comp. cbn [ODS.comp_nom].
    unfold ODS.resoudreOffset. by destruct (ODS.chercherOffset _ _ _ _).
  - apply plages_triees, trierParColonne_trie.
  - apply trierParColonne_Permutation.
Qed.

Lemma extraireCompetencesLigne3_titles_in_column_order_witness :
  map ODS.comp_nom (ODS.extraireCompetencesLigne3 Exemples.feuilleNombre).1
  = map ODS.plage_nom (ODS.plagesLigne3 Exemples.feuilleNombre)
  /\ StronglySorted Z.le
       (map ODS.colDebut (ODS.plagesLigne3 Exemples.feuilleNombre))
  /\ ODS.fusionsLigne3 Exemples.feuilleNombre
     ≡ₚ filter (fun m => ODS.s_r m = 2 /\ ODS.s_c m <> ODS.e_c m)
               (ODS.merges Exemples.feuilleNombre).
Proof.
  apply (extraireCompetencesLigne3_titles_in_column_order
           Exemples.feuilleNombre).
  vm_compute; discriminate.
Defined.

Lemma competencesAvecOffsets_journal (sh : ODS.feuille) :
  ODS.StructureIrreguliere ∉ (ODS.competencesAvecOffsets sh).2.
Proof.
  unfold ODS.competencesAvecOffsets.
  assert (Hgen : forall l acc,
    ODS.StructureIrreguliere ∉ acc.2 ->
    ODS.StructureIrreguliere
    ∉ (fold_left
         (fun acc comp =>
            let '(c, w) := ODS.resoudreOffset sh comp in
            (acc.1 ++ [c], acc.2 ++ w)) l acc).2).
  { induction l as [|comp l IH]; simpl; intros acc Hacc; [done|].
    apply IH. unfold ODS.resoudreOffset.
    destruct (ODS.chercherOffset _ _ _ _); simpl.
    - by rewrite app_nil_r.
    - rewrite elem_of_app, list_elem_of_singleton. intros [?|?]; done. }
  apply Hgen. simpl. apply not_elem_of_nil.
Qed.

Lemma forallb_eqb_false (o0 : Z) (l : list Z) :
  forallb (Z.eqb o0) l = false <-> exists o, o ∈ l /\ o <> o0.
Proof.
  induction l as [|x l IH]; simpl.
  - split; [done|]. intros (o & Ho & _). by apply elem_of_nil in Ho.
  - rewrite andb_false_iff, IH. split.
    + intros [Hx|(o & Ho & Hne)].
      * exists x. split; [left|]. apply Z.eqb_neq in Hx. congruence.
      * exists o. split; [by right|done].
    + intros (o & Ho & Hne). apply elem_of_cons in Ho as [->|Ho].
      * left. apply Z.eqb_neq. congruence.
      * right. by exists o.
Qed.

(** X20: when a merge of line 3 bears a competence title, the analysis
    warns of an irregular structure exactly when two competences have
    different offsets; each competence is read at its own offset from the
    first column of its merge, and the offset reported for the structure is
    that of the first competence. *)
Theorem irregular_structure_is_reported (sh : ODS.feuille) :
  ODS.plagesLigne3 sh <> [] ->
  let r := ODS.analyserStructureAvecFusions sh in
  let avec := (ODS.competencesAvecOffsets sh).1 in
  (ODS.StructureIrreguliere ∈ r.2
   <-> exists c1 c2, c1 ∈ avec /\ c2 ∈ avec
         /\ ODS.offsetPourcentage c1 <> ODS.offsetPourcentage c2)
  /\ ODS.competences r.1
     = map (fun c => ODS.Competence (ODS.plage_nom (ODS.plage_de c))
                                    (ODS.colDebut (ODS.plage_de c)
                                     + ODS.offsetPourcentage c)) avec
  /\ head (map ODS.offsetPourcentage avec)
     = Some (ODS.offsetPourcentageSatisfaisant r.1).
Proof.
  intros Hne. cbv zeta. unfold ODS.analyserStructureAvecFusions.
  destruct (ODS.merges sh) as [|m ms] eqn:Hm.
  { exfalso. apply Hne. unfold ODS.plagesLigne3, ODS.fusionsLigne3.
    by rewrite Hm. }
  pose proof (competencesAvecOffsets_map sh) as Hmap.
  pose proof (competencesAvecOffsets_journal sh) as Hj.
  destruct (ODS.plagesLigne3 sh) as [|c0 autres] eqn:Hp; [done|].
  destruct (ODS.competencesAvecOffsets sh) as [avec w].
  cbn [fst snd] in Hmap, Hj.
  cbn [fst snd ODS.competences ODS.offsetPourcentageSatisfaisant].
  assert (Hcol : forall c, c ∈ avec ->
            ODS.colonnePourcentage c
            = ODS.colDebut (ODS.plage_de c) + ODS.offsetPourcentage c).
  { intros c Hc. rewrite Hmap in Hc.
    change (map ?f ?l) with (f <$> l) in Hc.
    apply list_elem_of_fmap in Hc as (comp & -> & _).
    unfold ODS.resoudreOffset. by destruct (ODS.chercherOffset _ _ _ _). }
  split; [|split].
  - rewrite elem_of_app.
    destruct avec as [|a0 [|a1 avec']] eqn:Ha; cbn [map].
    + split; [intros [?|H]; [done|by apply elem_of_nil in H]|].
      intros (c1 & _ & H & _). by apply elem_of_nil in H.
    + split; [intros [?|H]; [done|by apply elem_of_nil in H]|].
      intros (c1 & c2 & H1 & H2 & Hd).
      apply list_elem_of_singleton in H1, H2. congruence.
    + set (offsets := ODS.offsetPourcentage a0 :: ODS.offsetPourcentage a1
                        :: map ODS.offsetPourcentage avec').
      destruct (forallb (Z.eqb (ODS.offsetPourcentage a0)) offsets) eqn:Hf.
      * split; [intros [?|H]; [done|by apply elem_of_nil in H]|].
        intros (c1 & c2 & H1 & H2 & Hd). exfalso.
        rewrite forallb_forall in Hf.
        assert (Ho : forall c, c ∈ a0 :: a1 :: avec' ->
                       ODS.offsetPourcentage c = ODS.offsetPourcentage a0).
        { intros c Hc. symmetry. apply Z.eqb_eq, Hf.
          apply list_elem_of_In.
          change offsets with (ODS.offsetPourcentage <$> a0 :: a1 :: avec').
          by apply list_elem_of_fmap_2. }
        rewrite (Ho c1 H1), (Ho c2 H2) in Hd. done.
      * split; [|intros _; right; left].
        intros _. apply forallb_eqb_false in Hf as (o & Ho & Hd).
        change offsets with (ODS.offsetPourcentage <$> a0 :: a1 :: avec') in Ho.
        apply list_elem_of_fmap in Ho as (c & -> & Hc).
        exists c, a0. split; [done|]. split; [left|done].
  - apply map_ext_in. intros c Hc. apply list_elem_of_In in Hc.
    by rewrite (Hcol c Hc).
  - destruct avec as [|a0 avec']; [done|done].
Qed.

Lemma irregular_structure_is_reported_witness :
  let r := ODS.analyserStructureAvecFusions Exemples.feuilleNombre in
  let avec := (ODS.competencesAvecOffsets Exemples.feuilleNombre).1 in
  (ODS.StructureIrreguliere ∈ r.2
   <-> exists c1 c2, c1 ∈ avec /\ c2 ∈ avec
         /\ ODS.offsetPourcentage c1 <> ODS.offsetPourcentage c2)
  /\ ODS.competences r.1
     = map (fun c => ODS.Competence (ODS.plage_nom (ODS.plage_de c))
                                    (ODS.colDebut (ODS.plage_de c)
                                     + ODS.offsetPourcentage c)) avec
  /\ head (map ODS.offsetPourcentage avec)
     = Some (ODS.offsetPourcentageSatisfaisant r.1).
Proof.
  apply (irregular_structure_is_reported Exemples.feuilleNombre).
  vm_compute; discriminate.
Defined.

Local Close Scope Z_scope.

(** ** The sheets of a workbook *)

(** A code unit that is no high surrogate is converted by itself. *)
Lemma toUpperCase_cons (c : N) (r : jsstring) :
  estHaut c = false ->
  toUpperCase (c :: r) = flat_map unites (upperPoint c) ++ toUpperCase r.
Proof.
  intros Hc. destruct r as [|d r]; cbn [toUpperCase].
  - by rewrite app_nil_r.
  - by rewrite Hc.
Qed.

Lemma toUpperCase_app (a r : jsstring) :
  Forall (fun c => estHaut c = false) a ->
  toUpperCase (a ++ r) = toUpperCase a ++ toUpperCase r.
Proof.
  induction 1 as [|c a Hc _ IH]; [done|].
  rewrite <- app_comm_cons, !toUpperCase_cons, IH by done.
  by rewrite app_assoc.
Qed.

Ltac sans_paire := repeat constructor; vm_compute; reflexivity.

(** X21: a sheet whose name begins with the prefix of a configuration,
    with nothing after it that holds "FR", gets the level and the subject
    of that configuration, so both services build the same keys. *)
Theorem sheet_name_gives_unit_keys (c : CSV.config) (reste : jsstring) :
  c ∈ CSV.configs ->
  includes (toUpperCase reste) (js "FR") = false ->
  ODS.extraireNiveau (toUpperCase (CSV.prefix c) ++ reste) = CSV.niveau c
  /\ ODS.extraireMatiere (toUpperCase (CSV.prefix c) ++ reste) = CSV.matiere c
  /\ ODS.extraireNiveau (CSV.prefix c ++ reste) = CSV.niveau c.
Proof.
  intros Hc Hfr. apply list_elem_of_In in Hc. simpl in Hc.
  change (js "FR") with [70; 82]%N in Hfr.
  unfold ODS.extraireMatiere.
  repeat (destruct Hc as [<-|Hc];
          [split; [vm_compute; reflexivity|];
           (split; [|vm_compute; reflexivity]);
           rewrite toUpperCase_app by sans_paire;
           match goal with
           | |- context [toUpperCase (toUpperCase ?p)] =>
             let v := eval vm_compute in (toUpperCase (toUpperCase p)) in
             change (toUpperCase (toUpperCase p)) with v
           end;
           change (js "FR") with [70; 82]%N;
           change (js "MA") with [77; 65]%N;
           cbn [app includes startsWith N.eqb Pos.eqb andb orb];
           try rewrite Hfr; vm_compute; reflexivity|]).
  done.
Qed.

Lemma sheet_name_gives_unit_keys_witness :
  ODS.extraireNiveau (toUpperCase (CSV.prefix Exemples.cpma) ++ js " 2025")
  = CSV.niveau Exemples.cpma
  /\ ODS.extraireMatiere (toUpperCase (CSV.prefix Exemples.cpma) ++ js " 2025")
     = CSV.matiere Exemples.cpma
  /\ ODS.extraireNiveau (CSV.prefix Exemples.cpma ++ js " 2025")
     = CSV.niveau Exemples.cpma.
Proof.
  apply (sheet_name_gives_unit_keys Exemples.cpma (js " 2025")).
  - apply list_elem_of_In; vm_compute; tauto.
  - vm_compute; reflexivity.
Defined.

(** Letters outside Latin-1 are converted as well: the ligature ff becomes
    "FF", so that a name such as "CPMA" followed by it and "r" holds
    "FR". *)
Example toUpperCase_samples :
  toUpperCase [64256; 114]%N = js "FFR"
  /\ ODS.extraireMatiere (js "CPMA" ++ [64256; 114]%N) = js "francais"
  /\ toUpperCase [339; 305; 383; 255; 223; 329]%N
     = [338; 73; 83; 376; 83; 83; 700; 78]%N
  /\ toUpperCase [55297; 56360; 56360; 55297]%N
     = [55297; 56320; 56360; 55297]%N.
Proof. repeat split; vm_compute; reflexivity. Qed.

Lemma fusionnerEcole_identifie (m : ecolesMap) (e : ecole) :
  registreIdentifie m -> identifiantExclu (uai e) = false ->
  registreIdentifie (CSV.fusionnerEcole m e).
Proof.
  intros Hm He.
  destruct (mapGet (uai e) m) as [r|] eqn:Hg.
  - rewrite (fusionnerEcole_present m e r Hg).
    intros u r' Hin. apply mapSet_elem in Hin as [[= -> ->]|Hin]; [|by apply Hm].
    apply mapGet_elem, Hm in Hg as (Hu & _). done.
  - rewrite (fusionnerEcole_absent m e Hg).
    intros u r' Hin. apply elem_of_app in Hin as [Hin|Hin]; [by apply Hm|].
    apply list_elem_of_singleton in Hin as [= -> ->]. done.
Qed.

Lemma traiterLigne_identifie comps niv mat (m : ecolesMap) row :
  registreIdentifie m /\ NoDup (map fst m) ->
  registreIdentifie (ODS.traiterLigne comps niv mat m row)
  /\ NoDup (map fst (ODS.traiterLigne comps niv mat m row)).
Proof.
  intros [Hm Hn].
  destruct (identifiantExclu (ODS.texteLigne row 0)) eqn:Hx.
  - by rewrite traiterLigne_exclu.
  - rewrite traiterLigne_fusion by done. split.
    + by apply fusionnerEcole_identifie.
    + by apply fusionnerEcole_NoDup.
Qed.

Lemma traiterFeuille_fst acc f :
  (ODS.traiterFeuille acc f).1
  = match (ODS.extraireCompetencesLigne3 f.2).1 with
    | [] => acc.1
    | comps =>
      fold_left (ODS.traiterLigne comps (ODS.extraireNiveau f.1)
                                  (ODS.extraireMatiere f.1))
                (ODS.rangeData f.2) acc.1
    end.
Proof.
  destruct f as [nomF sh]. unfold ODS.traiterFeuille. simpl.
  destruct (ODS.extraireCompetencesLigne3 sh) as [[|c comps] w]; done.
Qed.

Lemma traiterFeuilles_identifie sheets acc :
  registreIdentifie acc.1 /\ NoDup (map fst acc.1) ->
  registreIdentifie (fold_left ODS.traiterFeuille sheets acc).1
  /\ NoDup (map fst (fold_left ODS.traiterFeuille sheets acc).1).
Proof.
  revert acc. induction sheets as [|f sheets IH]; simpl; intros acc H; [done|].
  apply IH. rewrite traiterFeuille_fst.
  destruct (ODS.extraireCompetencesLigne3 f.2).1 as [|c comps]; [done|].
  generalize (c :: comps). intros cs.
  generalize dependent (acc.1). clear.
  induction (ODS.rangeData f.2) as [|row rows IHr]; simpl; intros m H; [done|].
  apply IHr. by apply traiterLigne_identifie.
Qed.

Lemma traiterFeuilles_fst sheets acc acc' :
  acc.1 = acc'.1 ->
  (fold_left ODS.traiterFeuille sheets acc).1
  = (fold_left ODS.traiterFeuille sheets acc').1.
Proof.
  revert acc acc'. induction sheets as [|f sheets IH]; simpl; intros acc acc' H;
    [done|].
  apply IH. by rewrite !traiterFeuille_fst, H.
Qed.

Lemma ods_loadEcoles_fst workbook :
  (ODS.loadEcoles workbook).1
  = mapValues (fold_left ODS.traiterFeuille (drop 1 workbook) ([], [])).1.
Proof.
  unfold ODS.loadEcoles. by destruct (fold_left _ _ _).
Qed.

(** X22: the schools [loadEcoles] of [OraceService] returns have distinct
    identifiers, none of which is empty, a total or the district. *)
Theorem ods_loadEcoles_registry_identified
        (workbook : list (jsstring * ODS.feuille)) :
  let ecoles := (ODS.loadEcoles workbook).1 in
  NoDup (map uai ecoles)
  /\ Forall (fun e => identifiantExclu (uai e) = false) ecoles.
Proof.
  cbv zeta. rewrite ods_loadEcoles_fst.
  destruct (traiterFeuilles_identifie (drop 1 workbook) ([], [])) as [Hs Hn].
  { split; [|constructor]. intros u r Hin. by apply elem_of_nil in Hin. }
  set (m := (fold_left ODS.traiterFeuille (drop 1 workbook) ([], [])).1) in *.
  assert (Hu : map uai (mapValues m) = map fst m).
  { clear Hn. unfold mapValues. induction m as [|[u r] m IH]; simpl; [done|].
    f_equal.
    - by destruct (Hs u r ltac:(left)).
    - apply IH. intros u' r' Hin. apply Hs. by right. }
  split; [by rewrite Hu|].
  apply Forall_forall. intros e Hin. unfold mapValues in Hin.
  change (map ?f ?l) with (f <$> l) in Hin.
  apply list_elem_of_fmap in Hin as ([u r] & -> & Hin).
  destruct (Hs u r Hin) as (Hur & ?). simpl. by rewrite Hur.
Qed.

(** X23: a sheet in which no competence is found leaves the registry as
    it is and is reported as skipped. *)
Theorem ods_sheet_without_competence_is_skipped
        (guide f : jsstring * ODS.feuille)
        (avant apres : list (jsstring * ODS.feuille)) :
  (ODS.extraireCompetencesLigne3 f.2).1 = [] ->
  (ODS.loadEcoles (guide :: avant ++ f :: apres)).1
  = (ODS.loadEcoles (guide :: avant ++ apres)).1
  /\ forall acc, (ODS.traiterFeuille acc f).1 = acc.1
                 /\ last (ODS.traiterFeuille acc f).2 = Some ODS.FeuilleIgnoree.
Proof.
  intros Hvide. split.
  - rewrite !ods_loadEcoles_fst. f_equal. simpl. rewrite !drop_0.
    rewrite !fold_left_app. simpl. apply traiterFeuilles_fst.
    by rewrite traiterFeuille_fst, Hvide.
  - intros acc. split; [by rewrite traiterFeuille_fst, Hvide|].
    destruct f as [nomF sh]. unfold ODS.traiterFeuille. simpl in *.
    destruct (ODS.extraireCompetencesLigne3 sh) as [comps w]. simpl in Hvide.
    subst comps. simpl. by rewrite !app_assoc, last_snoc.
Qed.

Lemma ods_sheet_without_competence_is_skipped_witness :
  (ODS.loadEcoles ((js "Aide", ODS.Feuille ∅ [] 0 [])
                     :: [] ++ (js "CPFR", ODS.Feuille ∅ [] 0 []) :: [])).1
  = (ODS.loadEcoles ((js "Aide", ODS.Feuille ∅ [] 0 []) :: [] ++ [])).1
  /\ forall acc,
       (ODS.traiterFeuille acc (js "CPFR", ODS.Feuille ∅ [] 0 [])).1 = acc.1
       /\ last (ODS.traiterFeuille acc (js "CPFR", ODS.Feuille ∅ [] 0 [])).2
          = Some ODS.FeuilleIgnoree.
Proof.
  apply (ods_sheet_without_competence_is_skipped
           (js "Aide", ODS.Feuille ∅ [] 0 [])
           (js "CPFR", ODS.Feuille ∅ [] 0 []) [] []).
  vm_compute; reflexivity.
Defined.
